(** * Synthetic market-data generator of [demo-server.js]

    A shallow embedding of the technical-indicator functions
    ([calculateSMA], [calculateRSI], [calculateEMA], [calculateMACD]), of the
    historical series generator [generate3YearHistoricalData] and of the
    prediction generator [generateFuturePredictions], followed by the
    properties of the specification that concern them; then of the price
    cache ([fetchRealPrices], [generateMockPrices]) and of the handlers of
    the trading, chart, historical, prediction, signal and overview routes,
    with the module variables they share, followed by properties of theirs.

    JavaScript numbers are modelled by [JS.num]: a real number, one of the two
    infinities, or NaN.  Arithmetic on finite values is exact (binary64
    rounding and overflow are abstracted away), while the special values
    follow IEEE 754, so that divisions by zero and the truthiness tests of the
    source ([x ? a : b], [!x], [x || y]) behave as they do in JavaScript.  The
    model has a single zero, which stands for [+0].  [toFixed] rounds the
    exact real, half away from zero, where JavaScript rounds the binary64
    value: on a decimal tie the two can differ by one unit of the last
    digit kept.

    [basePrices[symbol]] is a property lookup on an object literal: besides
    the four coins it finds the names inherited from [Object.prototype],
    whose values are not numbers and make every price of the series NaN.

    The body of an order is not validated: its fields are modelled as the
    values a JSON or urlencoded body can hold, with the conversions that
    [*], [+], [/] and [>] apply to them; the conversions between strings
    and numbers are parameters.

    [Math.random] is an oracle [rnd : nat -> R] (the k-th draw of the call)
    threaded through the generators together with the number of draws made so
    far. *)

From Stdlib Require Import String.
From Stdlib Require Import Reals Lra Lia ZArith Bool List.
Import ListNotations.
Open Scope R_scope.

(** ** JavaScript numbers *)

Module JS.

Inductive num : Type :=
| Fin (r : R)
| PInf
| NInf
| NaN.

Definition of_nat (n : nat) : num := Fin (INR n).
Definition neg (x : num) : num :=
  match x with
  | Fin r => Fin (- r)
  | PInf => NInf
  | NInf => PInf
  | NaN => NaN
  end.

Definition add (x y : num) : num :=
  match x, y with
  | NaN, _ | _, NaN => NaN
  | Fin a, Fin b => Fin (a + b)
  | PInf, NInf | NInf, PInf => NaN
  | PInf, _ | _, PInf => PInf
  | NInf, _ | _, NInf => NInf
  end.

Definition sub (x y : num) : num := add x (neg y).

(** An infinity of the sign of [r]; [0 * Infinity] is NaN. *)
Definition inf_of_sign (r : R) : num :=
  if Req_dec_T r 0 then NaN
  else if Rlt_dec 0 r then PInf else NInf.

Definition mul (x y : num) : num :=
  match x, y with
  | NaN, _ | _, NaN => NaN
  | Fin a, Fin b => Fin (a * b)
  | Fin a, PInf | PInf, Fin a => inf_of_sign a
  | Fin a, NInf | NInf, Fin a => inf_of_sign (- a)
  | PInf, PInf | NInf, NInf => PInf
  | PInf, NInf | NInf, PInf => NInf
  end.

(** Division: a finite nonzero value over zero is an infinity of its sign,
    [0 / 0] and [Infinity / Infinity] are NaN. *)
Definition div (x y : num) : num :=
  match x, y with
  | NaN, _ | _, NaN => NaN
  | Fin a, Fin b =>
      if Req_dec_T b 0 then inf_of_sign a else Fin (a / b)
  | Fin _, PInf | Fin _, NInf => Fin 0
  | PInf, Fin b => if Rlt_dec b 0 then NInf else PInf
  | NInf, Fin b => if Rlt_dec b 0 then PInf else NInf
  | _, _ => NaN
  end.

(** [x > y]; every comparison with NaN is false. *)
Definition gtb (x y : num) : bool :=
  match x, y with
  | NaN, _ | _, NaN => false
  | Fin a, Fin b => if Rlt_dec b a then true else false
  | PInf, PInf => false
  | PInf, _ => true
  | _, PInf => false
  | NInf, _ => false
  | Fin _, NInf => true
  end.

Definition ltb (x y : num) : bool := gtb y x.

(** ToBoolean on a number: [0] and NaN are falsy. *)
Definition truthy (x : num) : bool :=
  match x with
  | Fin r => if Req_dec_T r 0 then false else true
  | NaN => false
  | PInf | NInf => true
  end.

Definition Math_max (x y : num) : num :=
  match x, y with
  | NaN, _ | _, NaN => NaN
  | PInf, _ | _, PInf => PInf
  | NInf, v | v, NInf => v
  | Fin a, Fin b => Fin (Rmax a b)
  end.

Definition Math_abs (x : num) : num :=
  match x with
  | Fin r => Fin (Rabs r)
  | PInf | NInf => PInf
  | NaN => NaN
  end.

Definition Math_sin (x : num) : num :=
  match x with
  | Fin r => Fin (sin r)
  | _ => NaN
  end.

Definition Math_PI : num := Fin PI.

(** The integer nearest to [r], ties away from zero: the digits that
    [Number.prototype.toFixed] prints ("let n be an integer for which
    n / 10^f - x is as close to zero as possible; if there are two such n,
    pick the larger n", applied to the absolute value). *)
Definition round_half_away (r : R) : Z :=
  if Rle_dec 0 r then Int_part (r + / 2)
  else (- Int_part (- r + / 2))%Z.

(** [parseFloat(x.toFixed(d))].  From [1e21] on, [toFixed] prints the number
    as [ToString] does, and parsing gives it back; so do NaN and the
    infinities. *)
Definition toFixed (d : nat) (x : num) : num :=
  match x with
  | Fin r =>
      if Rle_dec 1e21 (Rabs r) then Fin r
      else Fin (IZR (round_half_away (r * 10 ^ d)) / 10 ^ d)
  | _ => x
  end.

(** [Array.prototype.reduce((a, b) => a + b, 0)]. *)
Definition sum (l : list num) : num := fold_left add l (Fin 0).

(** [arr.slice(-n)]: the last [n] elements, the whole array when it has
    fewer, and also when [n] is [0] (then [-n] is [0]). *)
Definition slice_last {A : Type} (n : nat) (l : list A) : list A :=
  match n with
  | O => l
  | _ => skipn (length l - n) l
  end.

(** [arr[k]] used as a number: a missing element is [undefined], which
    arithmetic turns into NaN. *)
Definition get (l : list num) (k : nat) : num := nth k l NaN.

End JS.

Declare Scope js_scope.
Delimit Scope js_scope with js.
Bind Scope js_scope with JS.num.
Infix "+" := JS.add : js_scope.
Infix "-" := JS.sub : js_scope.
Infix "*" := JS.mul : js_scope.
Infix "/" := JS.div : js_scope.
Notation "- x" := (JS.neg x) : js_scope.

Import JS.

(** ** Technical indicators *)

(** [calculateSMA(prices, period)]. *)
Definition calculateSMA (prices : list num) (period : nat) : option num :=
  if (length prices <? period)%nat then None
  else
    let sum := JS.sum (slice_last period prices) in
    Some (sum / of_nat period)%js.

(** The body of the loop of [calculateRSI], for one value of [i]: the state is
    the pair [(gains, losses)]. *)
Definition rsi_step (prices : list num) (acc : num * num) (i : nat)
  : num * num :=
  let '(gains, losses) := acc in
  let change :=
    (get prices (length prices - i) - get prices (length prices - i - 1))%js in
  if gtb change (Fin 0) then ((gains + change)%js, losses)
  else (gains, (losses - change)%js).

(** The loop of [calculateRSI] and the two averages taken after it:
    [(avgGain, avgLoss)]. *)
Definition rsi_averages (prices : list num) (period : nat) : num * num :=
  let '(gains, losses) :=
    fold_left (rsi_step prices) (seq 1 period) (Fin 0, Fin 0) in
  let avgGain := (gains / of_nat period)%js in
  let avgLoss := (losses / of_nat period)%js in
  (avgGain, avgLoss).

(** [calculateRSI(prices, period)]. *)
Definition calculateRSI (prices : list num) (period : nat) : option num :=
  if (length prices <? period + 1)%nat then None
  else
    let '(avgGain, avgLoss) := rsi_averages prices period in
    let rs := (avgGain / avgLoss)%js in
    Some (Fin 100 - (Fin 100 / (Fin 1 + rs)))%js.

(** [calculateEMA(prices, period)]. *)
Definition calculateEMA (prices : list num) (period : nat) : option num :=
  if (length prices <? period)%nat then None
  else
    let multiplier := (Fin 2 / (of_nat period + Fin 1))%js in
    let ema := (JS.sum (firstn period prices) / of_nat period)%js in
    Some (fold_left
            (fun ema i => ((get prices i - ema) * multiplier + ema)%js)
            (seq period (length prices - period)) ema).

(** [calculateMACD(prices)]; [!ema] holds for [null], [0] and NaN. *)
Definition calculateMACD (prices : list num) : option num :=
  let ema12 := calculateEMA prices 12 in
  let ema26 := calculateEMA prices 26 in
  match ema12, ema26 with
  | Some e12, Some e26 =>
      if negb (truthy e12) || negb (truthy e26) then None
      else Some (e12 - e26)%js
  | _, _ => None
  end.

(** ** Historical series *)

Inductive Signal : Type := bullish | bearish | neutral.
Inductive RsiSignal : Type := overbought | oversold | rsi_neutral.

Record Indicators : Type := {
  sma20 : option num;
  sma50 : option num;
  sma200 : option num;
  rsi : option num;
  macd : option num;
  bollinger_upper : option num;
  bollinger_lower : option num
}.

Record Signals : Type := {
  trend : Signal;
  rsi_signal : RsiSignal;
  macd_signal : Signal
}.

(** One element of the array returned by [generate3YearHistoricalData] (the
    [date] string, a rendering of [timestamp], is left out). *)
Record PricePoint : Type := {
  timestamp : Z;
  open : num;
  high : num;
  low : num;
  close : num;
  volume : num;
  priceInr : num;
  indicators : Indicators;
  signals : Signals
}.

(** [Math.random()]: the next draw of the oracle, and the new draw count. *)
Definition Math_random (rnd : nat -> R) (k : nat) : num * nat :=
  (Fin (rnd k), S k).

(** The values [Math.random] can return. *)
Definition random_source (rnd : nat -> R) : Prop :=
  forall k, 0 <= rnd k < 1.

(** The coins the routes accept. *)
Definition SUPPORTED_COINS : list string :=
  ["bitcoin"; "ethereum"; "solana"; "dogecoin"]%string.

(** [arr.includes(x)] on an array of strings. *)
Definition includes (x : string) (arr : list string) : bool :=
  existsb (String.eqb x) arr.

(** The names that an object literal inherits from [Object.prototype]:
    [obj[name]] finds a function there, or the prototype itself for
    [__proto__], unless the literal has a property of that name. *)
Definition prototype_names : list string :=
  ["constructor"; "hasOwnProperty"; "isPrototypeOf"; "propertyIsEnumerable";
   "toLocaleString"; "toString"; "valueOf"; "__proto__";
   "__defineGetter__"; "__defineSetter__"; "__lookupGetter__";
   "__lookupSetter__"]%string.

Definition inherited (name : string) : bool :=
  existsb (String.eqb name) prototype_names.

(** What [obj[key]] finds in an object literal of numbers: a property of the
    literal, a function or object inherited from [Object.prototype], or
    nothing ([undefined]). *)
Inductive Lookup : Type :=
| Own (x : num)
| Inherited
| Missing.

(** The object literal [basePrices], read at [symbol]. *)
Definition basePrices (currentPrice : num) (symbol : string) : Lookup :=
  if String.eqb symbol "bitcoin" then Own (currentPrice * Fin 0.15)%js
  else if String.eqb symbol "ethereum" then Own (currentPrice * Fin 0.12)%js
  else if String.eqb symbol "solana" then Own (currentPrice * Fin 0.05)%js
  else if String.eqb symbol "dogecoin" then Own (currentPrice * Fin 0.3)%js
  else if inherited symbol then Inherited
  else Missing.

(** [basePrices[symbol] || currentPrice * 0.2], as a number.  An inherited
    function or object is truthy, so it is kept as [basePrice]; it is not a
    number, and the generator uses [basePrice] in three places only:
    [currentPrice - basePrice] and [basePrice * 0.1], which are NaN, and as
    the first [price], where [price + trend + ...] is a string that
    [Math.max] turns into NaN.  In all three it does what NaN does, and NaN
    stands for it here. *)
Definition basePrice_of (symbol : string) (currentPrice : num) : num :=
  match basePrices currentPrice symbol with
  | Own b => if truthy b then b else (currentPrice * Fin 0.2)%js
  | Inherited => NaN
  | Missing => (currentPrice * Fin 0.2)%js
  end.

(** The variables the loop of [generate3YearHistoricalData] updates. *)
Record GenState : Type := {
  g_price : num;
  g_prices : list num;
  g_data : list PricePoint;
  g_draws : nat
}.

Definition day_ms : Z := 24 * 60 * 60 * 1000.

(** The running price after the update of day [i], before the floor:
    [price + trend + (price * randomChange) + (price * cyclical)]. *)
Definition next_price (currentPrice basePrice price u : num) (i : nat) : num :=
  let trend := ((currentPrice - basePrice) / Fin 1095)%js in
  let volatility := Fin 0.05 in
  let randomChange := ((u - Fin 0.5) * volatility)%js in
  let cyclical :=
    (Math_sin (of_nat i / Fin 365 * Fin 2 * Math_PI) * Fin 0.1)%js in
  (price + trend + price * randomChange + price * cyclical)%js.

(** An indicator field [x ? parseFloat(f(x).toFixed(d)) : null], where [x]
    is a number or null. *)
Definition field_of (d : nat) (x : option num) (f : num -> num) : option num :=
  match x with
  | Some v => if truthy v then Some (toFixed d (f v)) else None
  | None => None
  end.

(** The indicator and signal fields of a point, from the closes so far. *)
Definition indicators_of (prices : list num) : Indicators * Signals :=
  let sma20 := calculateSMA prices 20 in
  let sma50 := calculateSMA prices 50 in
  let sma200 := calculateSMA prices 200 in
  let rsi := calculateRSI prices 14 in
  let macd := calculateMACD prices in
  ({| sma20 := field_of 2 sma20 (fun v => v);
      sma50 := field_of 2 sma50 (fun v => v);
      sma200 := field_of 2 sma200 (fun v => v);
      rsi := field_of 2 rsi (fun v => v);
      macd := field_of 4 macd (fun v => v);
      bollinger_upper := field_of 2 sma20 (fun v => (v * Fin 1.02)%js);
      bollinger_lower := field_of 2 sma20 (fun v => (v * Fin 0.98)%js) |},
   {| trend :=
        match sma20, sma50 with
        | Some s20, Some s50 =>
            if truthy s20 && truthy s50
            then (if gtb s20 s50 then bullish else bearish)
            else neutral
        | _, _ => neutral
        end;
      rsi_signal :=
        match rsi with
        | Some r =>
            if truthy r
            then (if gtb r (Fin 70) then overbought
                  else if ltb r (Fin 30) then oversold else rsi_neutral)
            else rsi_neutral
        | None => rsi_neutral
        end;
      macd_signal :=
        match macd with
        | Some m =>
            if truthy m
            then (if gtb m (Fin 0) then bullish else bearish)
            else neutral
        | None => neutral
        end |}).

(** The first statements of the loop body: the draw of [randomChange], the
    update of [price] and the floor [Math.max(price, basePrice * 0.1)]. *)
Definition day_price (rnd : nat -> R) (currentPrice basePrice : num)
    (st : GenState) (i : nat) : num * nat :=
  let '(u, k) := Math_random rnd (g_draws st) in
  let price := next_price currentPrice basePrice (g_price st) u i in
  (Math_max price (basePrice * Fin 0.1)%js, k).

(** The rest of the loop body: the draws of [volume], [high], [low] and
    [open], and the object pushed on [data]; [prices] already holds the
    price of the day. *)
Definition day_point (rnd : nat -> R) (now : Z) (price : num)
    (prices : list num) (i k : nat) : PricePoint * nat :=
  let threeYearsAgo := (now - 3 * 365 * day_ms)%Z in
  let date := (threeYearsAgo + Z.of_nat i * day_ms)%Z in
  let '(u, k) := Math_random rnd k in
  let volume := (u * Fin 1000000000)%js in
  let '(u, k) := Math_random rnd k in
  let high := (price * (Fin 1 + u * Fin 0.02))%js in
  let '(u, k) := Math_random rnd k in
  let low := (price * (Fin 1 - u * Fin 0.02))%js in
  let '(u, k) := Math_random rnd k in
  let open := (price * (Fin 1 + (u - Fin 0.5) * Fin 0.01))%js in
  let '(ind, sig) := indicators_of prices in
  ({| timestamp := date;
      open := toFixed 2 open;
      high := toFixed 2 high;
      low := toFixed 2 low;
      close := toFixed 2 price;
      volume := toFixed 0 volume;
      priceInr := toFixed 2 (price * Fin 83)%js;
      indicators := ind;
      signals := sig |}, k).

(** One iteration of the loop [for (let i = 0; i < 1095; i++)]. *)
Definition day_step (rnd : nat -> R) (now : Z) (currentPrice basePrice : num)
    (st : GenState) (i : nat) : GenState :=
  let '(price, k) := day_price rnd currentPrice basePrice st i in
  let prices := g_prices st ++ [price] in
  let '(point, k) := day_point rnd now price prices i k in
  {| g_price := price;
     g_prices := prices;
     g_data := g_data st ++ [point];
     g_draws := k |}.

(** The loop run for its first [n] iterations. *)
Definition gen_run (rnd : nat -> R) (now : Z) (symbol : string)
    (currentPrice : num) (n : nat) : GenState :=
  let basePrice := basePrice_of symbol currentPrice in
  fold_left (day_step rnd now currentPrice basePrice) (seq 0 n)
    {| g_price := basePrice; g_prices := []; g_data := []; g_draws := 0 |}.

(** [generate3YearHistoricalData(symbol, currentPrice)]. *)
Definition generate3YearHistoricalData (rnd : nat -> R) (now : Z)
    (symbol : string) (currentPrice : num) : list PricePoint :=
  g_data (gen_run rnd now symbol currentPrice 1095).

(** ** Predictions *)

Inductive TrendFactor : Type := positive_trend | negative_trend.
Inductive StrengthFactor : Type := strong | weak.

(** One element of the array returned by [generateFuturePredictions] (the
    [date] string is left out). *)
Record PredictionPoint : Type := {
  p_timestamp : Z;
  predictedPrice : num;
  p_priceInr : num;
  confidence : num;
  range_high : num;
  range_low : num;
  signal : Signal;
  factor_trend : TrendFactor;
  factor_strength : StrengthFactor
}.

(** The average of the day-over-day relative changes of the last 30 closes:
    the [reduce] over [recent30Days], divided by [recent30Days.length - 1]. *)
Definition avgChange_of (historicalData : list PricePoint) : num :=
  let recent30Days := map close (slice_last 30 historicalData) in
  (fold_left
     (fun sum i =>
        if (i =? 0)%nat then Fin 0
        else (sum + (get recent30Days i - get recent30Days (i - 1))
                    / get recent30Days (i - 1))%js)
     (seq 0 (length recent30Days)) (Fin 0)
   / (of_nat (length recent30Days) - Fin 1))%js.

Record PredState : Type := {
  s_price : num;
  s_predictions : list PredictionPoint;
  s_draws : nat
}.

(** [Math.max(0.5, 0.95 - (i * 0.01))]. *)
Definition confidence_of (i : nat) : num :=
  Math_max (Fin 0.5) (Fin 0.95 - of_nat i * Fin 0.01)%js.

(** [price * 0.1 * (i / 30)]. *)
Definition volatilityBand_of (price : num) (i : nat) : num :=
  (price * Fin 0.1 * (of_nat i / Fin 30))%js.

(** [trendComponent + cyclicalComponent + randomComponent + regression]. *)
Definition totalChange_of (avgChange u : num) (i : nat) : num :=
  let trendComponent := (avgChange * Fin 0.3)%js in
  let cyclicalComponent :=
    (Math_sin (of_nat i / Fin 30 * Fin 2 * Math_PI) * Fin 0.02)%js in
  let randomComponent := ((u - Fin 0.5) * Fin 0.03)%js in
  let regression := (Fin (-0.0001) * of_nat i)%js in
  (trendComponent + cyclicalComponent + randomComponent + regression)%js.

(** The object pushed on [predictions] at step [i], from the price of the
    step. *)
Definition predict_point (now : Z) (lastPrice avgChange price : num)
    (i : nat) : PredictionPoint :=
  let futureDate := (now + Z.of_nat i * day_ms)%Z in
  let confidence := confidence_of i in
  let volatilityBand := volatilityBand_of price i in
  {| p_timestamp := futureDate;
     predictedPrice := toFixed 2 price;
     p_priceInr := toFixed 2 (price * Fin 83)%js;
     confidence := toFixed 2 confidence;
     range_high := toFixed 2 (price + volatilityBand)%js;
     range_low := toFixed 2 (price - volatilityBand)%js;
     signal :=
       if gtb price lastPrice then bullish
       else if ltb price (lastPrice * Fin 0.95)%js then bearish
       else neutral;
     factor_trend :=
       if gtb avgChange (Fin 0) then positive_trend else negative_trend;
     factor_strength :=
       if gtb (Math_abs avgChange) (Fin 0.02) then strong else weak |}.

(** One iteration of the loop [for (let i = 1; i <= 30; i++)]. *)
Definition predict_step (rnd : nat -> R) (now : Z)
    (lastPrice avgChange : num) (st : PredState) (i : nat) : PredState :=
  let '(u, k) := Math_random rnd (s_draws st) in
  let totalChange := totalChange_of avgChange u i in
  let price := (s_price st * (Fin 1 + totalChange))%js in
  {| s_price := price;
     s_predictions :=
       s_predictions st ++ [predict_point now lastPrice avgChange price i];
     s_draws := k |}.

(** The prediction loop run for its first [n] iterations. *)
Definition predict_run (rnd : nat -> R) (now : Z) (currentPrice : num)
    (historicalData : list PricePoint) (n : nat) : PredState :=
  let lastPrice := currentPrice in
  let avgChange := avgChange_of historicalData in
  fold_left (predict_step rnd now lastPrice avgChange) (seq 1 n)
    {| s_price := lastPrice; s_predictions := []; s_draws := 0 |}.

(** [generateFuturePredictions(symbol, currentPrice, historicalData)]; the
    function does not read [symbol]. *)
Definition generateFuturePredictions (rnd : nat -> R) (now : Z)
    (symbol : string) (currentPrice : num) (historicalData : list PricePoint)
  : list PredictionPoint :=
  s_predictions (predict_run rnd now currentPrice historicalData 30).

(** ** Definitions used by the statements *)

(** A number that is finite and lies between 0 and 100. *)
Definition in_0_100 (v : num) : Prop :=
  match v with
  | Fin r => 0 <= r <= 100
  | _ => False
  end.

(** The close-over-close change that [calculateRSI] reads at step [i] of its
    loop, on finite closes: [prices[length - i] - prices[length - i - 1]]. *)
Definition delta (ps : list R) (i : nat) : R :=
  nth (length ps - i) ps 0 - nth (length ps - i - 1) ps 0.

(** The exponential moving average as the specification words it: the seed
    is the mean of the first [period] values, and every later value [p]
    updates it to [(p - ema) * (2 / (period + 1)) + ema]. *)
Definition ema_spec (ps : list R) (period : nat) : R :=
  fold_left (fun ema p => (p - ema) * (2 / (INR period + 1)) + ema)
    (skipn period ps)
    (fold_right Rplus 0 (firstn period ps) / INR period).

(** The real function that [toFixed] applies to a finite number. *)
Definition fixed_real (d : nat) (r : R) : R :=
  if Rle_dec 1e21 (Rabs r) then r
  else IZR (round_half_away (r * 10 ^ d)) / 10 ^ d.

(** The sums of the gains and of the losses over the first [k] steps of the
    loop of [calculateRSI], on finite closes. *)
Fixpoint gain_sum (ps : list R) (k : nat) : R :=
  match k with
  | O => 0
  | S k' => gain_sum ps k' + Rmax (delta ps k) 0
  end.

Fixpoint loss_sum (ps : list R) (k : nat) : R :=
  match k with
  | O => 0
  | S k' => loss_sum ps k' + Rmax (- delta ps k) 0
  end.

(** The fraction of [currentPrice] that [basePrices] assigns to a symbol,
    [0.2] for a symbol it does not list. *)
Definition base_fraction (symbol : string) : R :=
  if String.eqb symbol "bitcoin" then 0.15
  else if String.eqb symbol "ethereum" then 0.12
  else if String.eqb symbol "solana" then 0.05
  else if String.eqb symbol "dogecoin" then 0.3
  else 0.2.

(** The noise and seasonal terms of day [i]; the noise is the first of the
    five draws of the day. *)
Definition noise (rnd : nat -> R) (i : nat) : R := (rnd (5 * i)%nat - 0.5) * 0.05.
Definition seasonal (i : nat) : R := sin (INR i / 365 * 2 * PI) * 0.1.

(** The running price after [n] days as a sequence of reals, for the base
    price [b] and the current price [c]: every term of the update is taken
    from the price of the day before, and the sum is floored at [b * 0.1]. *)
Fixpoint price_path (rnd : nat -> R) (b c : R) (n : nat) : R :=
  match n with
  | O => b
  | S i =>
      let p := price_path rnd b c i in
      Rmax (p + (c - b) / 1095 + p * noise rnd i + p * seasonal i) (b * 0.1)
  end.

(** The noise and seasonal terms added to the running price during the
    first [n] days, summed. *)
Fixpoint drift (rnd : nat -> R) (b c : R) (n : nat) : R :=
  match n with
  | O => 0
  | S i => drift rnd b c i + price_path rnd b c i * (noise rnd i + seasonal i)
  end.

(** The floor [b * 0.1] binds on none of the first [n] days. *)
Definition floor_free (rnd : nat -> R) (b c : R) (n : nat) : Prop :=
  forall i, (i < n)%nat ->
    b * 0.1 <=
    price_path rnd b c i + (c - b) / 1095
    + price_path rnd b c i * noise rnd i + price_path rnd b c i * seasonal i.

(** The closes pushed on [prices] during the first [n] days. *)
Definition closes (rnd : nat -> R) (b c : R) (n : nat) : list R :=
  map (price_path rnd b c) (seq 1 n).

(** The point pushed on [data] on day [i]: the four draws that follow the
    noise draw of the day are numbers [5 * i + 1] to [5 * i + 4]. *)
Definition series_point (rnd : nat -> R) (now : Z) (b c : R) (i : nat)
  : PricePoint :=
  fst (day_point rnd now (Fin (price_path rnd b c (S i)))
         (map Fin (closes rnd b c (S i))) i (5 * i + 1)).

(** The point pushed on [data] on day [i] when the base price is not a
    number: the price of the day and the closes so far are NaN. *)
Definition nan_point (rnd : nat -> R) (now : Z) (i : nat) : PricePoint :=
  fst (day_point rnd now NaN (repeat NaN (S i)) i (5 * i + 1)).

(** The ordering of the price fields of a point that holds in every series:
    the fields are finite, [low <= close <= high], and [low], [close] and
    [open] are not negative. *)
Definition ohlc_ordered (pt : PricePoint) : Prop :=
  exists o h l cl,
    open pt = Fin o /\ high pt = Fin h /\ low pt = Fin l /\ close pt = Fin cl
    /\ l <= cl <= h /\ 0 <= l /\ 0 <= o.

(** The ordering as the specification states it: [open] too lies between
    [low] and [high], and [close] is strictly positive. *)
Definition ohlc_claimed (pt : PricePoint) : Prop :=
  exists o h l cl,
    open pt = Fin o /\ high pt = Fin h /\ low pt = Fin l /\ close pt = Fin cl
    /\ l <= o <= h /\ l <= cl <= h /\ 0 < cl /\ 0 <= l.

(** Draws for which the first point opens above its high: the draw of
    [high] (number 2) is 0 and the draw of [open] (number 4) is 0.9. *)
Definition draws_open_high (k : nat) : R :=
  match k with
  | 2%nat => 0
  | 4%nat => 0.9
  | _ => 0.5
  end.

(** The daily update as the specification words it, by three successive
    steps: add the trend increment, scale the result by [1 + noise], then
    scale by [1 + A * sin (2 * PI * i / 365)]. *)
Definition sequential_update (b c p noise_i A : R) (i : nat) : R :=
  (p + (c - b) / 1095) * (1 + noise_i) * (1 + A * sin (2 * PI * INR i / 365)).

(** Draws that agree with the constant 0.5 up to the last day of the series
    and are 0 from the noise draw of day 1094 (number 5470) on. *)
Definition draws_low_last_day (k : nat) : R :=
  if (k <? 5 * 1094)%nat then 0.5 else 0.

(** What holds of a value returned by [calculateRSI]: null, NaN, or a number
    between 0 and 100. *)
Definition rsi_result_ok (x : option num) : Prop :=
  match x with
  | Some v => v = NaN \/ in_0_100 v
  | None => True
  end.

(** What holds of the [rsi] field of a point: null, or a number between 0
    and 100. *)
Definition rsi_field_ok (x : option num) : Prop :=
  match x with
  | Some v => in_0_100 v
  | None => True
  end.

(** The total change applied at step [i] of the prediction loop, for a
    finite average change [a]; the draw of the step is number [i - 1]. *)
Definition total_change (rnd : nat -> R) (a : R) (i : nat) : R :=
  a * 0.3 + sin (INR i / 30 * 2 * PI) * 0.02
  + (rnd (i - 1)%nat - 0.5) * 0.03 + -0.0001 * INR i.

(** The running predicted price after [n] steps as a sequence of reals, from
    the current price [c]. *)
Fixpoint pred_path (rnd : nat -> R) (a c : R) (n : nat) : R :=
  match n with
  | O => c
  | S k => pred_path rnd a c k * (1 + total_change rnd a n)
  end.

(** A point of a historical series stamped [ts] whose four prices are [cl],
    without indicators. *)
Definition flat_point (ts : Z) (cl : R) : PricePoint :=
  {| timestamp := ts;
     open := Fin cl; high := Fin cl; low := Fin cl; close := Fin cl;
     volume := Fin 0; priceInr := Fin (cl * 83);
     indicators :=
       {| sma20 := None; sma50 := None; sma200 := None; rsi := None;
          macd := None; bollinger_upper := None; bollinger_lower := None |};
     signals :=
       {| trend := neutral; rsi_signal := rsi_neutral;
          macd_signal := neutral |} |}.

(** A history of two days that closes at 100 and then at 80. *)
Definition falling_history : list PricePoint :=
  [flat_point 0 100; flat_point day_ms 80].

(** [n] iterations of [x |-> a * x + tau] from [u]: the bound that [n] days
    of multiplying the price by at most [a] and adding at most [tau] give. *)
Fixpoint iter_affine (a tau u : R) (n : nat) : R :=
  match n with
  | O => u
  | S k => a * iter_affine a tau u k + tau
  end.

(** ** Prices and the trading routes *)

(** [obj[key]] on an object used as a map, the keys in insertion order:
    [None] is [undefined]. *)
Fixpoint lookup {A : Type} (key : string) (obj : list (string * A))
  : option A :=
  match obj with
  | [] => None
  | (k, v) :: rest => if String.eqb k key then Some v else lookup key rest
  end.

(** [x || d] where [x] is a number or [undefined]. *)
Definition or_default (x : option num) (d : num) : num :=
  match x with
  | Some v => if truthy v then v else d
  | None => d
  end.

(** An entry of the object returned by [fetchRealPrices] (the [name], a
    capitalized copy of [symbol], and the [timestamp] are left out).
    [price] and [priceInr] are copied from the response and are [undefined]
    when it lacks them. *)
Record PriceEntry : Type := {
  pe_symbol : string;
  pe_price : option num;
  pe_priceInr : option num;
  pe_change24h : num;
  pe_volume24h : num;
  pe_marketCap : num
}.

Definition Prices : Type := list (string * PriceEntry).

(** [obj[key] = v]: the value of an existing key is replaced, a new key is
    added after the others. *)
Fixpoint assign {A : Type} (key : string) (v : A) (obj : list (string * A))
  : list (string * A) :=
  match obj with
  | [] => [(key, v)]
  | (k, x) :: rest =>
      if String.eqb k key then (k, v) :: rest
      else (k, x) :: assign key v rest
  end.

(** [Object.keys(obj)]. *)
Definition keys {A : Type} (obj : list (string * A)) : list string :=
  map fst obj.

(** [prices[symbol]?.price]. *)
Definition price_field (prices : Prices) (symbol : string) : option num :=
  match lookup symbol prices with
  | Some e => pe_price e
  | None => None
  end.

(** [prices[symbol]?.priceInr]. *)
Definition priceInr_field (prices : Prices) (symbol : string) : option num :=
  match lookup symbol prices with
  | Some e => pe_priceInr e
  | None => None
  end.

(** [prices[symbol]?.price || 1000]. *)
Definition current_price (prices : Prices) (symbol : string) : num :=
  or_default (price_field prices symbol) (Fin 1000).

(** A value of a parsed request body that converts to a primitive.  A JSON
    body gives numbers, strings, booleans, [null], arrays and objects, a
    urlencoded one gives strings, arrays and objects, and a field the body
    lacks is [undefined].  Of an array or an object only the string that its
    conversion to a primitive gives is kept (the contents are left out):
    ['2,3'] for [[2, 3]], ['[object Object]'] for an object without a
    [toString] of its own. *)
Inductive Value : Type :=
| Undefined
| Null
| Bool (b : bool)
| Num (x : num)
| Str (s : string)
| Obj (primitive : string).

(** A field of the body: a value, or an object that no conversion turns
    into a primitive, as [{"toString": 1}] in a JSON body or an array that
    holds one: every conversion of it throws a [TypeError]. *)
Inductive Field : Type :=
| Given (v : Value)
| Unconvertible.

(** The conversions [Number(s)] of a string and [String(x)] of a number are
    parameters of the model. *)
Record Conversions : Type := {
  StringToNumber : string -> num;
  NumberToString : num -> string
}.

(** The number a value converts to, in [v * x], [x / v] and [v > x]. *)
Definition ToNumber (cv : Conversions) (v : Value) : num :=
  match v with
  | Undefined => NaN
  | Null => Fin 0
  | Bool b => if b then Fin 1 else Fin 0
  | Num x => x
  | Str s => StringToNumber cv s
  | Obj s => StringToNumber cv s
  end.

(** The string a value converts to. *)
Definition ToString (cv : Conversions) (v : Value) : string :=
  match v with
  | Undefined => "undefined"
  | Null => "null"
  | Bool b => if b then "true" else "false"
  | Num x => NumberToString cv x
  | Str s => s
  | Obj s => s
  end.

(** Whether the primitive of a value is a string. *)
Definition is_text (v : Value) : bool :=
  match v with
  | Str _ | Obj _ => true
  | _ => false
  end.

(** [a + b]: the concatenation of the two strings when the primitive of
    either operand is a string, the sum of the two numbers otherwise. *)
Definition plus (cv : Conversions) (a b : Value) : Value :=
  if is_text a || is_text b
  then Str (String.append (ToString cv a) (ToString cv b))
  else Num (ToNumber cv a + ToNumber cv b)%js.

(** The string a field is, when it is one. *)
Definition string_of (f : Field) : option string :=
  match f with
  | Given (Str s) => Some s
  | _ => None
  end.

(** An element of [mockUser.portfolio].  [quantity] is the value the first
    buy of the coin was sent with, or the result of [+] on later buys. *)
Record Holding : Type := {
  h_symbol : string;
  h_quantity : Value;
  h_averagePrice : num;
  h_totalInvested : num
}.

(** An element of [mockDatabase.trades] (the constant [userId] and [status],
    which is always ['completed'], are left out; [t_id] is the time in
    [`trade_${Date.now()}`]).  [type], [orderType] and [quantity] are stored
    as the request gave them. *)
Record Trade : Type := {
  t_id : Z;
  t_symbol : string;
  t_type : Field;
  t_orderType : Field;
  t_quantity : Value;
  t_price : num;
  t_totalValue : num;
  t_fees : num;
  t_priceInr : num
}.

(** The mutable state the trading routes share: [mockUser.balance],
    [mockUser.portfolio] and [mockDatabase.trades]. *)
Record Account : Type := {
  balance : num;
  portfolio : list Holding;
  trades : list Trade
}.

(** The state when the server starts. *)
Definition initial_account : Account :=
  {| balance := Fin 1000000000; portfolio := []; trades := [] |}.

(** The fields that [POST /api/trading/order] reads from the parsed body,
    which is not validated. *)
Record OrderBody : Type := {
  o_symbol : Field;
  o_type : Field;
  o_quantity : Field;
  o_orderType : Field
}.

(** The [TypeError] that the handler caught: an object could not be
    converted to a primitive, or [type] has no [charAt] to call. *)
Inductive TypeError : Type :=
| CannotConvert
| NoCharAt.

Inductive OrderResponse : Type :=
| OrderInvalidSymbol                                   (* 400 *)
| OrderInsufficient (required available : num)         (* 400 *)
| OrderExecuted (trade : Trade) (userBalance : num)
    (userPortfolio : list Holding)                     (* 200 *)
| OrderFailed (error : TypeError).                     (* 500 *)

(** The update of the portfolio by a buy: the first holding of the symbol,
    which is the one [find] returns, is updated in place; when there is none
    a new holding is pushed at the end. *)
Fixpoint buy_into (cv : Conversions) (symbol : string) (quantity : Value)
    (currentPrice totalCost : num) (p : list Holding) : list Holding :=
  match p with
  | [] =>
      [ {| h_symbol := symbol;
           h_quantity := quantity;
           h_averagePrice := currentPrice;
           h_totalInvested := totalCost |} ]
  | existingHolding :: rest =>
      if String.eqb (h_symbol existingHolding) symbol then
        let newTotalQuantity := plus cv (h_quantity existingHolding) quantity in
        let newTotalInvested :=
          (h_totalInvested existingHolding + totalCost)%js in
        {| h_symbol := h_symbol existingHolding;
           h_quantity := newTotalQuantity;
           h_averagePrice :=
             (newTotalInvested / ToNumber cv newTotalQuantity)%js;
           h_totalInvested := newTotalInvested |} :: rest
      else
        existingHolding ::
        buy_into cv symbol quantity currentPrice totalCost rest
  end.

(** [type === 'buy']. *)
Definition is_buy (type : Field) : bool :=
  match string_of type with
  | Some t => String.eqb t "buy"
  | None => false
  end.

(** The handler of [POST /api/trading/order], at time [now] and with the
    prices that [fetchRealPrices] returned.  [SUPPORTED_COINS.includes]
    compares strictly, so a [symbol] that is not a string is refused.
    [quantity * currentPrice] converts the quantity and throws, before
    anything is changed, when it cannot be converted.  The success message
    capitalizes [type] with [charAt]: when [type] is not a string this
    throws after the trade has been recorded.  A throw is answered with
    status 500. *)
Definition trading_order (cv : Conversions) (prices : Prices) (now : Z)
    (body : OrderBody) (st : Account) : OrderResponse * Account :=
  let type := o_type body in
  let orderType :=
    match o_orderType body with
    | Given Undefined => Given (Str "market")
    | given => given
    end in
  match string_of (o_symbol body) with
  | None => (OrderInvalidSymbol, st)
  | Some symbol =>
      if negb (includes symbol SUPPORTED_COINS) then (OrderInvalidSymbol, st)
      else
        let currentPrice := current_price prices symbol in
        match o_quantity body with
        | Unconvertible => (OrderFailed CannotConvert, st)
        | Given quantity =>
            let totalCost := (ToNumber cv quantity * currentPrice)%js in
            let fees := (totalCost * Fin 0.001)%js in
            if is_buy type && ltb (balance st) (totalCost + fees)%js then
              (OrderInsufficient (totalCost + fees)%js (balance st), st)
            else
              let st1 :=
                if is_buy type then
                  {| balance := (balance st - (totalCost + fees))%js;
                     portfolio :=
                       buy_into cv symbol quantity currentPrice totalCost
                         (portfolio st);
                     trades := trades st |}
                else st in
              let trade :=
                {| t_id := now;
                   t_symbol := symbol;
                   t_type := type;
                   t_orderType := orderType;
                   t_quantity := quantity;
                   t_price := currentPrice;
                   t_totalValue := totalCost;
                   t_fees := fees;
                   t_priceInr :=
                     or_default (priceInr_field prices symbol)
                       (currentPrice * Fin 83)%js |} in
              let st2 :=
                {| balance := balance st1;
                   portfolio := portfolio st1;
                   trades := trades st1 ++ [trade] |} in
              match string_of type with
              | Some _ =>
                  (OrderExecuted trade (balance st2) (portfolio st2), st2)
              | None => (OrderFailed NoCharAt, st2)
              end
        end
  end.

(** A request to the order route: the prices at that time, the time, and
    the body. *)
Definition OrderRequest : Type := Prices * Z * OrderBody.

(** The account after a sequence of order requests. *)
Definition run_orders (cv : Conversions) (reqs : list OrderRequest)
    (st : Account) : Account :=
  fold_left
    (fun st r => let '(prices, now, body) := r in
                 snd (trading_order cv prices now body st))
    reqs st.

(** An element of [holdings] in the answer of [GET /api/trading/portfolio]. *)
Record HoldingView : Type := {
  v_symbol : string;
  v_quantity : Value;
  v_averagePrice : num;
  v_totalInvested : num;
  v_currentPrice : num;
  v_currentValue : num;
  v_pnl : num;
  v_pnlPercentage : num;
  v_priceInr : num
}.

(** The [data] of the answer of [GET /api/trading/portfolio]. *)
Record PortfolioView : Type := {
  pv_balance : num;
  pv_holdings : list HoldingView;
  pv_totalHoldingsValue : num;
  pv_totalPortfolioValue : num;
  pv_totalPnL : num;
  pv_totalPnLPercentage : num;
  pv_initialBalance : num
}.

(** The body of the loop over [mockUser.portfolio]: the state is
    [(portfolio, totalValue)]. *)
Definition portfolio_step (cv : Conversions) (prices : Prices)
    (acc : list HoldingView * num) (holding : Holding)
  : list HoldingView * num :=
  let '(portfolio, totalValue) := acc in
  if gtb (ToNumber cv (h_quantity holding)) (Fin 0) then
    let currentPrice :=
      or_default (price_field prices (h_symbol holding))
        (h_averagePrice holding) in
    let currentValue :=
      (ToNumber cv (h_quantity holding) * currentPrice)%js in
    let pnl := (currentValue - h_totalInvested holding)%js in
    let pnlPercentage := (pnl / h_totalInvested holding * Fin 100)%js in
    (portfolio ++
     [ {| v_symbol := h_symbol holding;
          v_quantity := h_quantity holding;
          v_averagePrice := h_averagePrice holding;
          v_totalInvested := h_totalInvested holding;
          v_currentPrice := currentPrice;
          v_currentValue := currentValue;
          v_pnl := pnl;
          v_pnlPercentage := pnlPercentage;
          v_priceInr :=
            or_default (priceInr_field prices (h_symbol holding))
              (h_averagePrice holding * Fin 83)%js |} ],
     (totalValue + currentValue)%js)
  else (portfolio, totalValue).

(** The handler of [GET /api/trading/portfolio]. *)
Definition trading_portfolio (cv : Conversions) (prices : Prices)
    (st : Account) : PortfolioView :=
  let '(portfolio, totalValue) :=
    fold_left (portfolio_step cv prices) (portfolio st) ([], Fin 0) in
  let totalPortfolioValue := (balance st + totalValue)%js in
  let initialBalance := Fin 1000000000 in
  let totalPnL := (totalPortfolioValue - initialBalance)%js in
  let totalPnLPercentage := (totalPnL / initialBalance * Fin 100)%js in
  {| pv_balance := balance st;
     pv_holdings := portfolio;
     pv_totalHoldingsValue := totalValue;
     pv_totalPortfolioValue := totalPortfolioValue;
     pv_totalPnL := totalPnL;
     pv_totalPnLPercentage := totalPnLPercentage;
     pv_initialBalance := initialBalance |}.

(** The fees of the buy orders recorded in [trades], and the amounts
    invested in the holdings. *)
Definition fees_paid (st : Account) : num :=
  JS.sum (map t_fees (filter (fun t => is_buy (t_type t)) (trades st))).

Definition total_invested (st : Account) : num :=
  JS.sum (map h_totalInvested (portfolio st)).

(** A request whose quantity converts to a finite number and whose current
    price, when the symbol is a string, is finite. *)
Definition finite_request (cv : Conversions) (r : OrderRequest) : Prop :=
  let '(prices, _, body) := r in
  exists quantity q,
    o_quantity body = Given quantity /\ ToNumber cv quantity = Fin q
    /\ forall symbol,
         o_symbol body = Given (Str symbol) ->
         exists p, current_price prices symbol = Fin p.

(** A request whose quantity is a positive finite number and whose current
    price, when the symbol is a string, is finite. *)
Definition positive_request (r : OrderRequest) : Prop :=
  let '(prices, _, body) := r in
  exists q,
    o_quantity body = Given (Num (Fin q)) /\ 0 < q
    /\ forall symbol,
         o_symbol body = Given (Str symbol) ->
         exists p, current_price prices symbol = Fin p.

(** A buy order of a coin, with [quantity] as it was sent. *)
Definition buy_order (symbol : string) (quantity : Value) : OrderBody :=
  {| o_symbol := Given (Str symbol);
     o_type := Given (Str "buy");
     o_quantity := Given quantity;
     o_orderType := Given Undefined |}.

(** Conversions for the examples: a string of decimal digits is read as the
    number it writes, as JavaScript does, and the examples rely on nothing
    else. *)
Fixpoint digits (s : string) (acc : Z) : option Z :=
  match s with
  | EmptyString => Some acc
  | String c rest =>
      let n := Ascii.nat_of_ascii c in
      if ((48 <=? n) && (n <=? 57))%nat
      then digits rest (10 * acc + Z.of_nat (n - 48))
      else None
  end.

Definition example_conversions : Conversions :=
  {| StringToNumber :=
       fun s => match digits s 0 with Some z => Fin (IZR z) | None => NaN end;
     NumberToString := fun _ => "NaN"%string |}.

(** ** [fetchRealPrices] and [generateMockPrices] *)

(** The data of one coin in the answer of the price service; a field the
    answer lacks is [undefined]. *)
Record CoinData : Type := {
  cd_usd : option num;
  cd_inr : option num;
  cd_usd_24h_change : option num;
  cd_usd_24h_vol : option num;
  cd_usd_market_cap : option num
}.

(** [response.data]. *)
Definition ResponseData : Type := list (string * CoinData).

(** The module variables [priceCache] and [lastPriceUpdate]. *)
Record PriceStore : Type := {
  priceCache : Prices;
  lastPriceUpdate : Z
}.

Definition initial_price_store : PriceStore :=
  {| priceCache := []; lastPriceUpdate := 0 |}.

Definition PRICE_CACHE_DURATION : Z := 5 * 60 * 1000.

Definition price_entry (coin : string) (d : CoinData) : PriceEntry :=
  {| pe_symbol := coin;
     pe_price := cd_usd d;
     pe_priceInr := cd_inr d;
     pe_change24h := or_default (cd_usd_24h_change d) (Fin 0);
     pe_volume24h := or_default (cd_usd_24h_vol d) (Fin 0);
     pe_marketCap := or_default (cd_usd_market_cap d) (Fin 0) |}.

(** The loop over [SUPPORTED_COINS] that builds [prices]. *)
Definition collect_prices (data : ResponseData) : Prices :=
  fold_left
    (fun prices coin =>
       match lookup coin data with
       | Some d => assign coin (price_entry coin d) prices
       | None => prices
       end)
    SUPPORTED_COINS [].

Definition mock_entry (symbol : string)
    (price priceInr change24h volume24h marketCap : R) : string * PriceEntry :=
  (symbol,
   {| pe_symbol := symbol;
      pe_price := Some (Fin price);
      pe_priceInr := Some (Fin priceInr);
      pe_change24h := Fin change24h;
      pe_volume24h := Fin volume24h;
      pe_marketCap := Fin marketCap |}).

Definition generateMockPrices : Prices :=
  [ mock_entry "bitcoin" 43250.50 3589791.50 2.34 25000000000 847000000000;
    mock_entry "ethereum" 2620.75 217722.25 (-1.23) 12000000000 315000000000;
    mock_entry "solana" 98.42 8179.86 5.67 2500000000 43000000000;
    mock_entry "dogecoin" 0.087 7.22 (-0.87) 800000000 12500000000 ].

(** [v > 0] where [v] is the value of a property of an object of entries:
    [undefined] or an entry, and both convert to NaN. *)
Definition property_gt_zero {A : Type} (v : option A) : bool :=
  match v with
  | Some _ => gtb NaN (Fin 0)
  | None => gtb NaN (Fin 0)
  end.

(** [fetchRealPrices()], called at time [now].  [response] is the data of
    the price service's answer, [None] when the request fails, and [later]
    is the time when the answer has been processed.  The result is the
    returned object and the new module variables. *)
Definition fetchRealPrices (now : Z) (response : option ResponseData)
    (later : Z) (st : PriceStore) : Prices * PriceStore :=
  if ((now - lastPriceUpdate st <? PRICE_CACHE_DURATION)%Z
      && (0 <? length (keys (priceCache st)))%nat)%bool
  then (priceCache st, st)
  else
    match response with
    | Some data =>
        let prices := collect_prices data in
        (prices, {| priceCache := prices; lastPriceUpdate := later |})
    | None =>
        (if property_gt_zero (lookup "length" (priceCache st))
         then priceCache st else generateMockPrices,
         st)
    end.

(** The first holding of a symbol: [portfolio.find(h => h.symbol === symbol)]. *)
Definition find_holding (symbol : string) (p : list Holding) : option Holding :=
  find (fun h => String.eqb (h_symbol h) symbol) p.

(** The account's money is accounted for: the balance, the amounts invested
    and the fees of the recorded buys are finite and add up to the initial
    balance, and the balance is not negative. *)
Definition conserved (st : Account) : Prop :=
  exists (B : R) (tis fs : list R),
    balance st = Fin B
    /\ 0 <= B
    /\ map h_totalInvested (portfolio st) = map Fin tis
    /\ map t_fees (filter (fun t => is_buy (t_type t)) (trades st)) = map Fin fs
    /\ B + fold_right Rplus 0 tis + fold_right Rplus 0 fs = 1000000000.

(** A holding of a positive finite quantity whose invested amount is the
    quantity times the average price. *)
Definition sound_holding (h : Holding) : Prop :=
  exists q a,
    h_quantity h = Num (Fin q) /\ 0 < q
    /\ h_averagePrice h = Fin a /\ h_totalInvested h = Fin (q * a).

(** Every price of the table is a finite number. *)
Definition finite_prices (prices : Prices) : Prop :=
  forall symbol v, price_field prices symbol = Some v -> exists p, v = Fin p.

(** ** The chart, historical and prediction routes *)

(** The oracle of [Math.random] after [k] draws. *)
Definition shift (rnd : nat -> R) (k : nat) : nat -> R :=
  fun j => rnd (k + j)%nat.

(** An entry of [predictionCache]. *)
Record PredictionEntry : Type := {
  pc_data : list PredictionPoint;
  pc_timestamp : Z
}.

(** The module variables [historicalDataCache] and [predictionCache], and
    the number of draws [Math.random] has made so far. *)
Record DataStore : Type := {
  historicalDataCache : list (string * list PricePoint);
  predictionCache : list (string * PredictionEntry);
  draws : nat
}.

Definition initial_data_store : DataStore :=
  {| historicalDataCache := []; predictionCache := []; draws := 0 |}.

(** The block the three routes share: [historicalDataCache[symbol]], filled
    by [generate3YearHistoricalData] at time [now] when the symbol has no
    entry (an array, even an empty one, is truthy). *)
Definition cached_history (rnd : nat -> R) (now : Z) (symbol : string)
    (currentPrice : num) (st : DataStore) : list PricePoint * DataStore :=
  match lookup symbol (historicalDataCache st) with
  | Some data => (data, st)
  | None =>
      let data :=
        generate3YearHistoricalData (shift rnd (draws st)) now symbol
          currentPrice in
      (data,
       {| historicalDataCache := assign symbol data (historicalDataCache st);
          predictionCache := predictionCache st;
          draws :=
            (draws st
             + g_draws (gen_run (shift rnd (draws st)) now symbol
                          currentPrice 1095))%nat |})
  end.

Definition Math_floor (x : num) : num :=
  match x with
  | Fin r => Fin (IZR (Int_part r))
  | _ => x
  end.

Definition Math_min (x y : num) : num :=
  match x, y with
  | NaN, _ | _, NaN => NaN
  | NInf, _ | _, NInf => NInf
  | PInf, v | v, PInf => v
  | Fin a, Fin b => Fin (Rmin a b)
  end.

Definition Math_sqrt (x : num) : num :=
  match x with
  | Fin r => if Rlt_dec r 0 then NaN else Fin (sqrt r)
  | PInf => PInf
  | NInf | NaN => NaN
  end.

(** A point of the chart of a short period (the [date] string and the
    fields [sma20] and [sma50], which are always null, are left out). *)
Record ChartPoint : Type := {
  c_timestamp : Z;
  c_open : num;
  c_high : num;
  c_low : num;
  c_close : num;
  c_volume : num;
  c_priceInr : num;
  c_rsi : num
}.

Definition hour_ms : Z := 60 * 60 * 1000.

(** [period === '1d' ? 24 : period === '7d' ? 168 : period === '30d' ? 720
    : 24]. *)
Definition dataPoints_of (period : string) : nat :=
  if String.eqb period "1d" then 24
  else if String.eqb period "7d" then 168
  else if String.eqb period "30d" then 720
  else 24.

(** One iteration of the loop over the hours; the state is [chartData] and
    the number of draws, and [clock i] is [Date.now()] in iteration [i]. *)
Definition chart_step (rnd : nat -> R) (clock : nat -> Z) (currentPrice : num)
    (dataPoints : nat) (acc : list ChartPoint * nat) (i : nat)
  : list ChartPoint * nat :=
  let '(chartData, k) := acc in
  let hourMultiplier := 1%Z in
  let timestamp :=
    (clock i - Z.of_nat (dataPoints - i) * hour_ms * hourMultiplier)%Z in
  let volatility := Fin 0.02 in
  let '(u, k) := Math_random rnd k in
  let priceChange := ((u - Fin 0.5) * volatility)%js in
  let price := (currentPrice * (Fin 1 + priceChange))%js in
  let '(v, k) := Math_random rnd k in
  let '(w, k) := Math_random rnd k in
  (chartData ++
   [ {| c_timestamp := timestamp;
        c_open := toFixed 2 (price * Fin 0.999)%js;
        c_high := toFixed 2 (price * Fin 1.001)%js;
        c_low := toFixed 2 (price * Fin 0.998)%js;
        c_close := toFixed 2 price;
        c_volume := Math_floor (v * Fin 1000000)%js;
        c_priceInr := toFixed 2 (price * Fin 83)%js;
        c_rsi := (Fin 50 + (w - Fin 0.5) * Fin 40)%js |} ],
   k).

Inductive ChartData : Type :=
| Series (data : list PricePoint)
| Hourly (data : list ChartPoint).

Inductive ChartResponse : Type :=
| ChartInvalidSymbol                                          (* 400 *)
| ChartOk (count : nat) (currentPrice : num) (data : ChartData).

(** The handler of [GET /api/crypto/:symbol/chart], with the prices that
    [fetchRealPrices] returned; [now] is the time when the series is
    generated. *)
Definition chart_route (rnd : nat -> R) (now : Z) (clock : nat -> Z)
    (prices : Prices) (symbol period : string) (st : DataStore)
  : ChartResponse * DataStore :=
  if negb (includes symbol SUPPORTED_COINS) then (ChartInvalidSymbol, st)
  else
    let currentPrice := current_price prices symbol in
    if String.eqb period "3y" then
      let '(chartData, st) := cached_history rnd now symbol currentPrice st in
      (ChartOk (length chartData) currentPrice (Series chartData), st)
    else
      let dataPoints := dataPoints_of period in
      let '(chartData, k) :=
        fold_left (chart_step rnd clock currentPrice dataPoints)
          (seq 0 dataPoints) ([], draws st) in
      (ChartOk (length chartData) currentPrice (Hourly chartData),
       {| historicalDataCache := historicalDataCache st;
          predictionCache := predictionCache st;
          draws := k |}).

(** The [summary] of the historical route. *)
Record Summary : Type := {
  sm_startPrice : num;
  sm_endPrice : num;
  sm_totalReturn : num;
  sm_highestPrice : num;
  sm_lowestPrice : num;
  sm_avgVolume : num;
  sm_volatility : num
}.

(** [arr[i].close] as a number. *)
Definition close_at (arr : list PricePoint) (i : nat) : num :=
  match nth_error arr i with
  | Some d => close d
  | None => NaN
  end.

(** The sum of the squared daily returns: the [reduce] with the index over
    the last 30 points, which returns 0 at index 0. *)
Definition squared_returns (arr : list PricePoint) : num :=
  fold_left
    (fun sum i =>
       match i with
       | O => Fin 0
       | S j =>
           let dailyReturn :=
             ((close_at arr i - close_at arr j) / close_at arr j)%js in
           (sum + dailyReturn * dailyReturn)%js
       end)
    (seq 0 (length arr)) (Fin 0).

Definition summary_of (first latest : PricePoint)
    (historicalData : list PricePoint) : Summary :=
  {| sm_startPrice := close first;
     sm_endPrice := close latest;
     sm_totalReturn :=
       toFixed 2 ((close latest - close first) / close first * Fin 100)%js;
     sm_highestPrice := fold_left Math_max (map high historicalData) NInf;
     sm_lowestPrice := fold_left Math_min (map low historicalData) PInf;
     sm_avgVolume :=
       Math_floor
         (fold_left (fun sum d => (sum + volume d)%js) historicalData (Fin 0)
          / of_nat (length historicalData))%js;
     sm_volatility :=
       toFixed 2
         (Math_sqrt (squared_returns (slice_last 30 historicalData) / Fin 29)
          * Math_sqrt (Fin 365) * Fin 100)%js |}.

Inductive HistoricalResponse : Type :=
| HistoricalInvalidSymbol                                     (* 400 *)
| HistoricalOk (totalDataPoints : nat) (currentPrice : num)
    (data : list PricePoint) (summary : Summary)
    (technicalAnalysis : Indicators) (latestSignals : Signals)
| HistoricalFailed.                                           (* 500 *)

(** The handler of [GET /api/crypto/:symbol/historical], for a truthy
    [indicators] parameter (otherwise [data] is stripped of the indicator
    fields).  Reading [close] of a missing first or last point throws. *)
Definition historical_route (rnd : nat -> R) (now : Z) (prices : Prices)
    (symbol : string) (st : DataStore) : HistoricalResponse * DataStore :=
  if negb (includes symbol SUPPORTED_COINS) then (HistoricalInvalidSymbol, st)
  else
    let currentPrice := current_price prices symbol in
    let '(historicalData, st) :=
      cached_history rnd now symbol currentPrice st in
    match nth_error historicalData 0,
          nth_error historicalData (length historicalData - 1) with
    | Some first, Some latest =>
        (HistoricalOk (length historicalData) currentPrice historicalData
           (summary_of first latest historicalData)
           (indicators latest) (signals latest),
         st)
    | _, _ => (HistoricalFailed, st)
    end.

(** The query parameter [days] of the prediction routes, as the routes use
    it: its text in a template string and the value of [parseInt(days)],
    [None] for NaN. *)
Record Days : Type := {
  days_text : string;
  days_int : option Z
}.

(** [arr.slice(0, n)]: NaN counts as 0 and a negative [n] is taken from the
    end. *)
Definition slice_to {A : Type} (n : option Z) (arr : list A) : list A :=
  match n with
  | None => []
  | Some z =>
      if (z <? 0)%Z
      then firstn (Z.to_nat (Z.max (Z.of_nat (length arr) + z) 0)) arr
      else firstn (Z.to_nat z) arr
  end.

(** The times the prediction route reads: when it generates the series,
    when it tests the age of the cached predictions, when it generates
    predictions and when it stores them. *)
Record Clock : Type := {
  at_history : Z;
  at_test : Z;
  at_predictions : Z;
  at_store : Z
}.

Inductive PredictionsResponse : Type :=
| PredictionsInvalidSymbol                                    (* 400 *)
| PredictionsOk (currentPrice : num) (predictions : list PredictionPoint)
    (lastUpdated : Z).

(** The handler of [GET /api/crypto/:symbol/predictions]. *)
Definition predictions_route (rnd : nat -> R) (clock : Clock)
    (prices : Prices) (symbol : string) (days : Days) (st : DataStore)
  : PredictionsResponse * DataStore :=
  if negb (includes symbol SUPPORTED_COINS) then (PredictionsInvalidSymbol, st)
  else
    let currentPrice := current_price prices symbol in
    let '(history, st) :=
      cached_history rnd (at_history clock) symbol currentPrice st in
    let cacheKey := (symbol ++ "_" ++ days_text days)%string in
    let generated :=
      let predictions :=
        generateFuturePredictions (shift rnd (draws st))
          (at_predictions clock) symbol currentPrice history in
      let e := {| pc_data := predictions; pc_timestamp := at_store clock |} in
      (e,
       {| historicalDataCache := historicalDataCache st;
          predictionCache := assign cacheKey e (predictionCache st);
          draws :=
            (draws st
             + s_draws (predict_run (shift rnd (draws st))
                          (at_predictions clock) currentPrice history 30))%nat
       |}) in
    let '(entry, st) :=
      match lookup cacheKey (predictionCache st) with
      | Some e =>
          if (at_test clock - pc_timestamp e >? 60 * 60 * 1000)%Z
          then generated else (e, st)
      | None => generated
      end in
    (PredictionsOk currentPrice (slice_to (days_int days) (pc_data entry))
       (pc_timestamp entry),
     st).

(** What holds of every point of a short-period chart for the current
    price [cp]: the price fields are ordered, the close differs from [cp]
    by at most one percent of [cp] and the half cent of its rounding, the
    RSI lies between 30 and 70 and the volume is an integer below
    1000000. *)
Definition chart_point_ok (cp : R) (pt : ChartPoint) : Prop :=
  exists (o h l c r : R) (z : Z),
    c_open pt = Fin o /\ c_high pt = Fin h /\ c_low pt = Fin l
    /\ c_close pt = Fin c /\ c_rsi pt = Fin r /\ c_volume pt = Fin (IZR z)
    /\ l <= o <= c /\ c <= h
    /\ Rabs (c - cp) <= cp * 0.01 + 0.005
    /\ 30 <= r <= 70
    /\ (0 <= z <= 999999)%Z.


(** The number of predictions the prediction route returns for [days]. *)
Definition expected_predictions (days : Days) : nat :=
  match days_int days with
  | None => 0
  | Some z =>
      if (z <? 0)%Z then Z.to_nat (30 + z) else Nat.min (Z.to_nat z) 30
  end.

(** An array of predictions as [generateFuturePredictions] makes them: 30
    elements, the confidence falling by 0.01 a day from 0.94. *)
Definition generated_predictions (data : list PredictionPoint) : Prop :=
  length data = 30%nat
  /\ forall i pt,
       nth_error data i = Some pt ->
       confidence pt = Fin (0.95 - 0.01 * INR (S i)).

(** ** The mock prediction, signal and overview routes *)

(** The strings ['buy'], ['sell'] and ['hold']. *)
Inductive Advice : Type := buy | sell | hold.

(** [arr[x]] for a number [x]: [undefined] unless [x] is an integer that
    indexes an element. *)
Definition array_at {A : Type} (arr : list A) (x : num) : option A :=
  match x with
  | Fin r =>
      if Req_dec_T r (IZR (Int_part r)) then
        if (Int_part r <? 0)%Z then None
        else nth_error arr (Z.to_nat (Int_part r))
      else None
  | _ => None
  end.

(** A number or [undefined] used in arithmetic. *)
Definition to_number (x : option num) : num :=
  match x with
  | Some v => v
  | None => NaN
  end.

(** An element of [predictions] in the answer of
    [GET /api/predictions/:symbol] (the [timestamp] is left out). *)
Record MockPrediction : Type := {
  mp_predictedPrice : num;
  mp_confidence : num;
  mp_signal : Advice;
  mp_signalStrength : num;
  mp_rsi : num;
  mp_macd : num;
  mp_support : num;
  mp_resistance : num
}.

(** One iteration of the loop [for (let i = 0; i < parseInt(days); i++)];
    the state is [predictions] and the number of draws. *)
Definition mock_prediction_step (rnd : nat -> R) (currentPrice : num)
    (acc : list MockPrediction * nat) (i : nat) : list MockPrediction * nat :=
  let '(predictions, k) := acc in
  let volatility := Fin 0.05 in
  let '(u, k) := Math_random rnd k in
  let trend := if gtb u (Fin 0.5) then Fin 1 else Fin (-1) in
  let '(u, k) := Math_random rnd k in
  let change := ((u * volatility * Fin 2 - volatility) * trend)%js in
  let predictedPrice := (currentPrice * (Fin 1 + change))%js in
  let '(signalStrength, k) := Math_random rnd k in
  let signal :=
    if gtb signalStrength (Fin 0.7) then buy
    else if ltb signalStrength (Fin 0.3) then sell
    else hold in
  let '(u, k) := Math_random rnd k in
  let confidence := toFixed 2 (u * Fin 0.3 + Fin 0.7)%js in
  let '(r, k) := Math_random rnd k in
  let '(m, k) := Math_random rnd k in
  (predictions ++
   [ {| mp_predictedPrice := toFixed 2 predictedPrice;
        mp_confidence := confidence;
        mp_signal := signal;
        mp_signalStrength := toFixed 2 signalStrength;
        mp_rsi := (r * Fin 100)%js;
        mp_macd := ((m - Fin 0.5) * Fin 10)%js;
        mp_support := (predictedPrice * Fin 0.95)%js;
        mp_resistance := (predictedPrice * Fin 1.05)%js |} ],
   k).

Inductive MockPredictionsResponse : Type :=
| MockInvalidSymbol                                           (* 400 *)
| MockPredictionsOk (currentPrice : num)
    (predictions : list MockPrediction) (predictionDays : option Z).

(** The number of iterations of a loop [for (let i = 0; i < n; i++)],
    where [n] is an integer or NaN. *)
Definition iterations (n : option Z) : nat :=
  match n with
  | Some z => Z.to_nat z
  | None => 0
  end.

(** The handler of [GET /api/predictions/:symbol]. *)
Definition mock_predictions_route (rnd : nat -> R) (prices : Prices)
    (symbol : string) (days : Days) (st : DataStore)
  : MockPredictionsResponse * DataStore :=
  if negb (includes symbol SUPPORTED_COINS) then (MockInvalidSymbol, st)
  else
    let currentPrice := current_price prices symbol in
    let '(predictions, k) :=
      fold_left (mock_prediction_step rnd currentPrice)
        (seq 0 (iterations (days_int days))) ([], draws st) in
    (MockPredictionsOk currentPrice predictions (days_int days),
     {| historicalDataCache := historicalDataCache st;
        predictionCache := predictionCache st;
        draws := k |}).

(** The [signals] of the answer of [GET /api/predictions/:symbol/signals]
    (the constant [interpretation] strings are left out). *)
Record SignalsData : Type := {
  sg_signal : option Advice;
  sg_strength : num;
  sg_confidence : num;
  sg_rsi_value : num;
  sg_rsi_signal : Advice;
  sg_macd_value : num;
  sg_macd_signal : Advice;
  sg_support : num;
  sg_resistance : num;
  sg_nextTarget : num;
  sg_stopLoss : num
}.

Inductive SignalsResponse : Type :=
| SignalsInvalidSymbol                                        (* 400 *)
| SignalsOk (currentPrice priceInr : num) (signals : SignalsData).

(** The handler of [GET /api/predictions/:symbol/signals]. *)
Definition signals_route (rnd : nat -> R) (prices : Prices) (symbol : string)
    (st : DataStore) : SignalsResponse * DataStore :=
  if negb (includes symbol SUPPORTED_COINS) then (SignalsInvalidSymbol, st)
  else
    let currentPrice := current_price prices symbol in
    let k := draws st in
    let '(u1, k) := Math_random rnd k in
    let '(u2, k) := Math_random rnd k in
    let '(u3, k) := Math_random rnd k in
    let '(u4, k) := Math_random rnd k in
    let '(u5, k) := Math_random rnd k in
    let '(u6, k) := Math_random rnd k in
    let '(u7, k) := Math_random rnd k in
    let signals :=
      {| sg_signal := array_at [buy; sell; hold] (Math_floor (u1 * Fin 3)%js);
         sg_strength := toFixed 2 (u2 * Fin 0.4 + Fin 0.6)%js;
         sg_confidence := toFixed 2 (u3 * Fin 0.3 + Fin 0.7)%js;
         sg_rsi_value := (u4 * Fin 100)%js;
         sg_rsi_signal := if gtb u5 (Fin 0.5) then buy else sell;
         sg_macd_value := ((u6 - Fin 0.5) * Fin 10)%js;
         sg_macd_signal := if gtb u7 (Fin 0.5) then buy else sell;
         sg_support := toFixed 2 (currentPrice * Fin 0.95)%js;
         sg_resistance := toFixed 2 (currentPrice * Fin 1.05)%js;
         sg_nextTarget := toFixed 2 (currentPrice * Fin 1.08)%js;
         sg_stopLoss := toFixed 2 (currentPrice * Fin 0.92)%js |} in
    (SignalsOk currentPrice
       (or_default (priceInr_field prices symbol) (currentPrice * Fin 83)%js)
       signals,
     {| historicalDataCache := historicalDataCache st;
        predictionCache := predictionCache st;
        draws := k |}).

(** An entry of [overview] in the answer of
    [GET /api/predictions/market/overview] (the [name] and the [timestamp]
    are left out). *)
Record OverviewEntry : Type := {
  ov_symbol : string;
  ov_currentPrice : option num;
  ov_priceInr : option num;
  ov_signal : option Advice;
  ov_confidence : num;
  ov_nextDayPrediction : num;
  ov_change24hPrediction : num
}.

(** One iteration of the loop over [SUPPORTED_COINS]; the state is
    [overview] and the number of draws. *)
Definition overview_step (rnd : nat -> R) (prices : Prices)
    (acc : list (string * OverviewEntry) * nat) (coin : string)
  : list (string * OverviewEntry) * nat :=
  let '(overview, k) := acc in
  match lookup coin prices with
  | Some e =>
      let price := to_number (pe_price e) in
      let '(u, k) := Math_random rnd k in
      let overallSignal :=
        array_at [buy; sell; hold] (Math_floor (u * Fin 3)%js) in
      let '(u, k) := Math_random rnd k in
      let confidence := toFixed 2 (u * Fin 0.3 + Fin 0.7)%js in
      let '(u, k) := Math_random rnd k in
      let nextDayPrediction :=
        (price * (Fin 1 + (u * Fin 0.1 - Fin 0.05)))%js in
      (assign coin
         {| ov_symbol := coin;
            ov_currentPrice := pe_price e;
            ov_priceInr := pe_priceInr e;
            ov_signal := overallSignal;
            ov_confidence := confidence;
            ov_nextDayPrediction := toFixed 2 nextDayPrediction;
            ov_change24hPrediction :=
              toFixed 2 ((nextDayPrediction - price) / price * Fin 100)%js |}
         overview,
       k)
  | None => (overview, k)
  end.

(** The handler of [GET /api/predictions/market/overview]. *)
Definition market_overview (rnd : nat -> R) (prices : Prices) (st : DataStore)
  : list (string * OverviewEntry) * DataStore :=
  let '(overview, k) :=
    fold_left (overview_step rnd prices) SUPPORTED_COINS ([], draws st) in
  (overview,
   {| historicalDataCache := historicalDataCache st;
      predictionCache := predictionCache st;
      draws := k |}).

(** A request to one of the routes that draw random numbers or use the
    caches, with the times it reads and the prices [fetchRealPrices]
    returned to it. *)
Inductive DataRequest : Type :=
| ChartRequest (now : Z) (clock : nat -> Z) (prices : Prices)
    (symbol period : string)
| HistoricalRequest (now : Z) (prices : Prices) (symbol : string)
| PredictionsRequest (clock : Clock) (prices : Prices) (symbol : string)
    (days : Days)
| MockPredictionsRequest (prices : Prices) (symbol : string) (days : Days)
| SignalsRequest (prices : Prices) (symbol : string)
| OverviewRequest (prices : Prices).

(** The module variables after a request, and after a sequence of them. *)
Definition serve (rnd : nat -> R) (st : DataStore) (r : DataRequest)
  : DataStore :=
  match r with
  | ChartRequest now clock prices symbol period =>
      snd (chart_route rnd now clock prices symbol period st)
  | HistoricalRequest now prices symbol =>
      snd (historical_route rnd now prices symbol st)
  | PredictionsRequest clock prices symbol days =>
      snd (predictions_route rnd clock prices symbol days st)
  | MockPredictionsRequest prices symbol days =>
      snd (mock_predictions_route rnd prices symbol days st)
  | SignalsRequest prices symbol =>
      snd (signals_route rnd prices symbol st)
  | OverviewRequest prices =>
      snd (market_overview rnd prices st)
  end.

Definition serve_all (rnd : nat -> R) (reqs : list DataRequest)
    (st : DataStore) : DataStore :=
  fold_left (serve rnd) reqs st.

(** What holds of every mock prediction for the current price [cp]: the
    predicted price differs from [cp] by at most five percent of [cp] and
    the half cent of its rounding. *)
Definition mock_prediction_ok (cp : R) (pt : MockPrediction) : Prop :=
  exists pp conf s sup res rs md,
    mp_predictedPrice pt = Fin pp /\ mp_confidence pt = Fin conf
    /\ mp_signalStrength pt = Fin s /\ mp_support pt = Fin sup
    /\ mp_resistance pt = Fin res /\ mp_rsi pt = Fin rs /\ mp_macd pt = Fin md
    /\ Rabs (pp - cp) <= cp * 0.05 + 0.005
    /\ 0.7 <= conf <= 1
    /\ match mp_signal pt with
       | buy => 0.7 <= s <= 1
       | sell => 0 <= s <= 0.3
       | hold => 0.3 <= s <= 0.7
       end
    /\ 0 < sup < res
    /\ 0 <= rs < 100 /\ -5 <= md < 5.

(** What holds of the signals for the current price [cp]. *)
Definition signals_ok (cp : R) (sg : SignalsData) : Prop :=
  exists st co sl su re nt,
    sg_signal sg <> None
    /\ sg_strength sg = Fin st /\ 0.6 <= st <= 1
    /\ sg_confidence sg = Fin co /\ 0.7 <= co <= 1
    /\ sg_stopLoss sg = Fin sl /\ sg_support sg = Fin su
    /\ sg_resistance sg = Fin re /\ sg_nextTarget sg = Fin nt
    /\ 0 <= sl /\ sl <= su /\ su <= fixed_real 2 cp
    /\ fixed_real 2 cp <= re /\ re <= nt.

(** What holds of an entry of the overview for a coin of price [p]. *)
Definition overview_ok (prices : Prices) (coin : string) (ent : OverviewEntry)
  : Prop :=
  In coin SUPPORTED_COINS
  /\ exists e,
       lookup coin prices = Some e
       /\ ov_currentPrice ent = pe_price e
       /\ ov_signal ent <> None
       /\ forall p,
            pe_price e = Some (Fin p) -> p <> 0 ->
            exists ch, ov_change24hPrediction ent = Fin ch /\ -5 <= ch <= 5.

(** The signals of a point agree with the indicators shown with it: a
    trend other than neutral comes with both averages, ordered as the trend
    says; an RSI signal other than neutral comes with an RSI on that side of
    70 or 30; a MACD signal other than neutral comes with a MACD of that
    sign.  The comparisons are not strict because the indicators are shown
    rounded. *)
Definition signals_agree (ind : Indicators) (sig : Signals) : Prop :=
  match trend sig with
  | bullish =>
      exists a b, sma20 ind = Some (Fin a) /\ sma50 ind = Some (Fin b) /\ b <= a
  | bearish =>
      exists a b, sma20 ind = Some (Fin a) /\ sma50 ind = Some (Fin b) /\ a <= b
  | neutral => sma20 ind = None \/ sma50 ind = None
  end
  /\ match rsi_signal sig with
     | overbought => exists r, rsi ind = Some (Fin r) /\ 70 <= r
     | oversold => exists r, rsi ind = Some (Fin r) /\ r <= 30
     | rsi_neutral =>
         rsi ind = None \/ exists r, rsi ind = Some (Fin r) /\ 30 <= r <= 70
     end
  /\ match macd_signal sig with
     | bullish => exists m, macd ind = Some (Fin m) /\ 0 <= m
     | bearish => exists m, macd ind = Some (Fin m) /\ m <= 0
     | neutral => macd ind = None
     end.

(** The bands of a point lie two percent below and above its SMA20, each
    rounded to cents, and are missing exactly when the SMA20 is. *)
Definition bands_straddle (ind : Indicators) : Prop :=
  (sma20 ind = None /\ bollinger_lower ind = None
   /\ bollinger_upper ind = None)
  \/ exists m,
       0 < m
       /\ sma20 ind = Some (Fin (fixed_real 2 m))
       /\ bollinger_lower ind = Some (Fin (fixed_real 2 (m * 0.98)))
       /\ bollinger_upper ind = Some (Fin (fixed_real 2 (m * 1.02)))
       /\ fixed_real 2 (m * 0.98) <= fixed_real 2 m <= fixed_real 2 (m * 1.02).

(** The other statistics of the summary: the total return is a finite
    percentage of at least -100, the average volume an integer from 0 to
    1000000000, and the volatility a finite number that is not negative. *)
Definition summary_statistics (sm : Summary) : Prop :=
  exists (tr vo : R) (av : Z),
    sm_totalReturn sm = Fin tr /\ -100 <= tr
    /\ sm_avgVolume sm = Fin (IZR av) /\ (0 <= av <= 1000000000)%Z
    /\ sm_volatility sm = Fin vo /\ 0 <= vo.

(** A point with a positive finite close and a finite volume from 0 to
    1000000000. *)
Definition traded_point (pt : PricePoint) : Prop :=
  exists cl v,
    close pt = Fin cl /\ 0 < cl /\ volume pt = Fin v /\ 0 <= v <= 1000000000.

(** * Properties *)

Arguments drift : simpl never.
Arguments price_path : simpl never.
Arguments gen_run : simpl never.
Arguments generate3YearHistoricalData : simpl never.
Arguments pred_path : simpl never.

(** ** Arithmetic of [JS.num] *)

Lemma div_fin (a b : R) : b <> 0 -> (Fin a / Fin b)%js = Fin (a / b).
Proof.
  intros Hb. unfold div. destruct (Req_dec_T b 0); [contradiction | reflexivity].
Qed.

Lemma div_fin_zero (a : R) : 0 < a -> (Fin a / Fin 0)%js = PInf.
Proof.
  intros Ha. unfold div, inf_of_sign.
  destruct (Req_dec_T 0 0) as [_ | H]; [ | now elim H].
  destruct (Req_dec_T a 0); [lra | ].
  destruct (Rlt_dec 0 a); [reflexivity | lra].
Qed.

Lemma div_zero_zero : (Fin 0 / Fin 0)%js = NaN.
Proof.
  unfold div, inf_of_sign.
  destruct (Req_dec_T 0 0) as [_ | H]; [reflexivity | now elim H].
Qed.

Lemma gtb_fin (a b : R) : gtb (Fin a) (Fin b) = true <-> b < a.
Proof.
  unfold gtb. destruct (Rlt_dec b a); split; intros; try easy.
Qed.

Lemma gtb_fin_false (a b : R) : gtb (Fin a) (Fin b) = false <-> a <= b.
Proof.
  unfold gtb. destruct (Rlt_dec b a); split; intros; try easy; lra.
Qed.

Lemma truthy_fin (r : R) : truthy (Fin r) = true <-> r <> 0.
Proof.
  unfold truthy. destruct (Req_dec_T r 0); split; intros; try easy.
Qed.

Lemma truthy_pos (r : R) : 0 < r -> truthy (Fin r) = true.
Proof. intros H. apply truthy_fin. lra. Qed.

Lemma Fin_eq (a b : R) : a = b -> Fin a = Fin b.
Proof. now intros ->. Qed.

Lemma Fin_inj (a b : R) : Fin a = Fin b -> a = b.
Proof. intros H. now injection H. Qed.

Lemma INR_lit (n : nat) : INR n = IZR (Z.of_nat n).
Proof. apply INR_IZR_INZ. Qed.

Lemma INR_le_IZR (m : nat) (z : Z) : (Z.of_nat m <= z)%Z -> INR m <= IZR z.
Proof. intros H. rewrite INR_lit. now apply IZR_le. Qed.

Lemma IZR_le_INR (m : nat) (z : Z) : (z <= Z.of_nat m)%Z -> IZR z <= INR m.
Proof. intros H. rewrite INR_lit. now apply IZR_le. Qed.

(** Bounds of [INR m] by numerals, from bounds of [m] in [nat]. *)
Ltac nat_bound :=
  repeat split; first [apply INR_le_IZR | apply IZR_le_INR]; lia.

Lemma INR_pos_neq (n : nat) : (0 < n)%nat -> INR n <> 0.
Proof. intros H. apply not_0_INR. lia. Qed.

(** ** Rounding *)

Lemma Int_part_bounds (r : R) : IZR (Int_part r) <= r < IZR (Int_part r) + 1.
Proof. destruct (base_Int_part r). lra. Qed.

Lemma Int_part_mono (r s : R) : r <= s -> (Int_part r <= Int_part s)%Z.
Proof.
  intros H.
  pose proof (Int_part_bounds r). pose proof (Int_part_bounds s).
  assert (IZR (Int_part r) < IZR (Int_part s + 1)) by (rewrite plus_IZR; lra).
  apply lt_IZR in H2. lia.
Qed.

Lemma Int_part_IZR_half (z : Z) : Int_part (IZR z + / 2) = z.
Proof. symmetry. apply Int_part_spec. lra. Qed.

Lemma Int_part_nonneg (r : R) : 0 <= r -> (0 <= Int_part r)%Z.
Proof.
  intros H. pose proof (Int_part_bounds r).
  assert (IZR (-1) < IZR (Int_part r)) by lra.
  apply lt_IZR in H1. lia.
Qed.

Lemma round_half_away_mono (r s : R) :
  r <= s -> (round_half_away r <= round_half_away s)%Z.
Proof.
  intros H. unfold round_half_away.
  destruct (Rle_dec 0 r), (Rle_dec 0 s); try lra.
  - apply Int_part_mono. lra.
  - pose proof (Int_part_nonneg (- r + / 2)). pose proof (Int_part_nonneg (s + / 2)).
    assert (0 <= Int_part (- r + / 2))%Z by (apply H0; lra).
    assert (0 <= Int_part (s + / 2))%Z by (apply H1; lra). lia.
  - assert (Int_part (- s + / 2) <= Int_part (- r + / 2))%Z
      by (apply Int_part_mono; lra). lia.
Qed.

Lemma round_half_away_IZR (z : Z) : round_half_away (IZR z) = z.
Proof.
  unfold round_half_away. destruct (Rle_dec 0 (IZR z)).
  - apply Int_part_IZR_half.
  - rewrite <- opp_IZR, Int_part_IZR_half. lia.
Qed.

Lemma toFixed_fin (d : nat) (r : R) : toFixed d (Fin r) = Fin (fixed_real d r).
Proof. unfold toFixed, fixed_real. now destruct (Rle_dec 1e21 (Rabs r)). Qed.

Lemma pow10_pos (d : nat) : 0 < 10 ^ d.
Proof. apply pow_lt. lra. Qed.

Lemma pow10_IZR (d : nat) : 10 ^ d = IZR (10 ^ Z.of_nat d).
Proof.
  induction d as [| d IH].
  - reflexivity.
  - rewrite Nat2Z.inj_succ, Z.pow_succ_r by lia.
    rewrite mult_IZR, <- IH. simpl. lra.
Qed.

Lemma fixed_real_mono (d : nat) (r s : R) :
  r <= s -> fixed_real d r <= fixed_real d s.
Proof.
  intros H. pose proof (pow10_pos d) as Hp.
  assert (Hdiv : forall a b : Z, (a <= b)%Z -> IZR a / 10 ^ d <= IZR b / 10 ^ d).
  { intros a b Hab. apply IZR_le in Hab.
    unfold Rdiv. apply Rmult_le_compat_r; [ | exact Hab].
    left. now apply Rinv_0_lt_compat. }
  assert (Hbig : forall z : Z, IZR (round_half_away (IZR z * 10 ^ d)) / 10 ^ d = IZR z).
  { intros z. rewrite pow10_IZR, <- mult_IZR, round_half_away_IZR.
    rewrite mult_IZR. field. rewrite <- pow10_IZR. lra. }
  unfold fixed_real.
  destruct (Rle_dec 1e21 (Rabs r)) as [Hr | Hr],
           (Rle_dec 1e21 (Rabs s)) as [Hs | Hs].
  - exact H.
  - (* r is large, hence at most -1e21 *)
    assert (r <= - 1e21).
    { unfold Rabs in Hr, Hs. destruct (Rcase_abs r), (Rcase_abs s); lra. }
    apply Rle_trans with (IZR (- 10 ^ 21)); [rewrite opp_IZR; lra | ].
    rewrite <- (Hbig (- 10 ^ 21)%Z). apply Hdiv, round_half_away_mono.
    apply Rmult_le_compat_r; [lra | ].
    rewrite opp_IZR. unfold Rabs in Hs. destruct (Rcase_abs s); lra.
  - assert (1e21 <= s).
    { unfold Rabs in Hr, Hs. destruct (Rcase_abs r), (Rcase_abs s); lra. }
    apply Rle_trans with (IZR (10 ^ 21)); [ | lra].
    rewrite <- (Hbig (10 ^ 21)%Z). apply Hdiv, round_half_away_mono.
    apply Rmult_le_compat_r; [lra | ].
    unfold Rabs in Hr. destruct (Rcase_abs r); lra.
  - apply Hdiv, round_half_away_mono. apply Rmult_le_compat_r; lra.
Qed.

Lemma fixed_real_0 (d : nat) : fixed_real d 0 = 0.
Proof.
  unfold fixed_real. destruct (Rle_dec 1e21 (Rabs 0)); [reflexivity | ].
  rewrite Rmult_0_l, (round_half_away_IZR 0). unfold Rdiv. apply Rmult_0_l.
Qed.

Lemma fixed_real_nonneg (d : nat) (r : R) : 0 <= r -> 0 <= fixed_real d r.
Proof. intros H. rewrite <- (fixed_real_0 d). now apply fixed_real_mono. Qed.

(** A multiple of [10^-d] below [1e21] is printed and parsed unchanged. *)
Lemma fixed_real_exact (d : nat) (z : Z) :
  Rabs (IZR z / 10 ^ d) < 1e21 ->
  fixed_real d (IZR z / 10 ^ d) = IZR z / 10 ^ d.
Proof.
  intros H. unfold fixed_real.
  destruct (Rle_dec 1e21 (Rabs (IZR z / 10 ^ d))); [lra | ].
  replace (IZR z / 10 ^ d * 10 ^ d) with (IZR z)
    by (field; pose proof (pow10_pos d); lra).
  now rewrite round_half_away_IZR.
Qed.

(** ** [calculateRSI] *)

Lemma get_map_Fin (ps : list R) (k : nat) :
  (k < length ps)%nat -> get (map Fin ps) k = Fin (nth k ps 0).
Proof.
  intros H. unfold get.
  rewrite (nth_indep _ NaN (Fin 0)) by (now rewrite length_map).
  apply (map_nth Fin).
Qed.

Lemma rsi_step_fin (ps : list R) (g l : R) (i : nat) :
  (1 <= i)%nat -> (i + 1 <= length ps)%nat ->
  rsi_step (map Fin ps) (Fin g, Fin l) i =
  (Fin (g + Rmax (delta ps i) 0), Fin (l + Rmax (- delta ps i) 0)).
Proof.
  intros H1 H2. unfold rsi_step. rewrite length_map.
  rewrite !get_map_Fin by lia.
  change (Fin (nth (length ps - i) ps 0) - Fin (nth (length ps - i - 1) ps 0))%js
    with (Fin (nth (length ps - i) ps 0 + - nth (length ps - i - 1) ps 0)).
  assert (Hd : nth (length ps - i) ps 0 + - nth (length ps - i - 1) ps 0
               = delta ps i) by (unfold delta; lra).
  rewrite Hd.
  destruct (gtb (Fin (delta ps i)) (Fin 0)) eqn:E.
  - apply gtb_fin in E. simpl. f_equal; apply Fin_eq.
    + rewrite Rmax_left; lra.
    + rewrite Rmax_right; lra.
  - apply gtb_fin_false in E. simpl. f_equal; apply Fin_eq.
    + rewrite Rmax_right; lra.
    + rewrite Rmax_left; lra.
Qed.

Lemma rsi_fold_fin (ps : list R) (k : nat) :
  (k + 1 <= length ps)%nat ->
  fold_left (rsi_step (map Fin ps)) (seq 1 k) (Fin 0, Fin 0) =
  (Fin (gain_sum ps k), Fin (loss_sum ps k)).
Proof.
  induction k as [| k IH]; intros H.
  - reflexivity.
  - rewrite seq_S, fold_left_app, IH by lia. cbn [fold_left].
    rewrite rsi_step_fin by lia. reflexivity.
Qed.

Lemma gain_sum_nonneg (ps : list R) (k : nat) : 0 <= gain_sum ps k.
Proof.
  induction k as [| k IH]; simpl; [lra | ].
  pose proof (Rmax_r (delta ps (S k)) 0). lra.
Qed.

Lemma loss_sum_nonneg (ps : list R) (k : nat) : 0 <= loss_sum ps k.
Proof.
  induction k as [| k IH]; simpl; [lra | ].
  pose proof (Rmax_r (- delta ps (S k)) 0). lra.
Qed.

Lemma gain_sum_pos (ps : list R) (k : nat) :
  (exists i, (1 <= i <= k)%nat /\ 0 < delta ps i) -> 0 < gain_sum ps k.
Proof.
  induction k as [| k IH]; intros (i & Hi & Hd); [lia | ].
  simpl. pose proof (Rmax_r (delta ps (S k)) 0).
  pose proof (Rmax_l (delta ps (S k)) 0).
  pose proof (gain_sum_nonneg ps k).
  destruct (Nat.eq_dec i (S k)) as [-> | Hne]; [lra | ].
  assert (0 < gain_sum ps k) by (apply IH; exists i; split; [lia | assumption]).
  lra.
Qed.

Lemma gain_sum_zero (ps : list R) (k : nat) :
  (forall i, (1 <= i <= k)%nat -> delta ps i <= 0) -> gain_sum ps k = 0.
Proof.
  induction k as [| k IH]; intros H; simpl; [reflexivity | ].
  rewrite IH by (intros i Hi; apply H; lia).
  rewrite Rmax_right by (apply H; lia). lra.
Qed.

Lemma loss_sum_zero (ps : list R) (k : nat) :
  (forall i, (1 <= i <= k)%nat -> 0 <= delta ps i) -> loss_sum ps k = 0.
Proof.
  induction k as [| k IH]; intros H; simpl; [reflexivity | ].
  rewrite IH by (intros i Hi; apply H; lia).
  rewrite Rmax_right by (specialize (H (S k)); assert (0 <= delta ps (S k)) by (apply H; lia); lra).
  lra.
Qed.

Lemma rsi_averages_fin (ps : list R) (k : nat) :
  (1 <= k)%nat -> (k + 1 <= length ps)%nat ->
  rsi_averages (map Fin ps) k =
  (Fin (gain_sum ps k / INR k), Fin (loss_sum ps k / INR k)).
Proof.
  intros Hk H. unfold rsi_averages. rewrite rsi_fold_fin by assumption.
  unfold of_nat. rewrite !div_fin by (apply INR_pos_neq; lia). reflexivity.
Qed.

(** The value of the last line of [calculateRSI] in the three cases of the
    two averages. *)
Lemma rsi_value_no_loss (g : R) :
  0 < g -> (Fin 100 - Fin 100 / (Fin 1 + Fin g / Fin 0))%js = Fin 100.
Proof.
  intros Hg. rewrite div_fin_zero by assumption. simpl. apply Fin_eq. lra.
Qed.

Lemma rsi_value_flat : (Fin 100 - Fin 100 / (Fin 1 + Fin 0 / Fin 0))%js = NaN.
Proof. rewrite div_zero_zero. reflexivity. Qed.

Lemma rsi_value_loss (g l : R) :
  0 <= g -> 0 < l ->
  exists r, (Fin 100 - Fin 100 / (Fin 1 + Fin g / Fin l))%js = Fin r
            /\ 0 <= r < 100 /\ (g = 0 -> r = 0) /\ (0 < g -> 0 < r).
Proof.
  intros Hg Hl.
  assert (Hq : 0 <= g / l).
  { unfold Rdiv. apply Rmult_le_pos; [assumption | ].
    left. now apply Rinv_0_lt_compat. }
  rewrite div_fin by lra.
  change (Fin 1 + Fin (g / l))%js with (Fin (1 + g / l)).
  rewrite div_fin by lra.
  exists (100 + - (100 / (1 + g / l))). split; [reflexivity | ].
  assert (Hi : 0 < / (1 + g / l)) by (apply Rinv_0_lt_compat; lra).
  assert (Hle : / (1 + g / l) <= 1).
  { rewrite <- Rinv_1 at 2. apply Rinv_le_contravar; lra. }
  repeat split.
  - unfold Rdiv at 1. nra.
  - unfold Rdiv at 1. nra.
  - intros ->. unfold Rdiv. rewrite Rmult_0_l, Rplus_0_r, Rinv_1. lra.
  - intros Hg'.
    assert (0 < g / l) by (unfold Rdiv; apply Rmult_lt_0_compat;
                           [assumption | now apply Rinv_0_lt_compat]).
    assert (/ (1 + g / l) < 1).
    { rewrite <- Rinv_1 at 2. apply Rinv_lt_contravar; lra. }
    unfold Rdiv at 1. lra.
Qed.

Lemma calculateRSI_fin (ps : list R) (k : nat) :
  (1 <= k)%nat -> (k + 1 <= length ps)%nat ->
  calculateRSI (map Fin ps) k =
  Some (Fin 100 - Fin 100 /
          (Fin 1 + Fin (gain_sum ps k / INR k) / Fin (loss_sum ps k / INR k)))%js.
Proof.
  intros Hk H. unfold calculateRSI. rewrite length_map.
  destruct (Nat.ltb_spec (length ps) (k + 1)); [lia | ].
  now rewrite rsi_averages_fin.
Qed.

Lemma calculateRSI_short (prices : list num) (k : nat) :
  (length prices < k + 1)%nat -> calculateRSI prices k = None.
Proof.
  intros H. unfold calculateRSI.
  destruct (Nat.ltb_spec (length prices) (k + 1)); [reflexivity | lia].
Qed.

Lemma avg_pos (x : R) (k : nat) : (1 <= k)%nat -> 0 < x -> 0 < x / INR k.
Proof.
  intros Hk Hx. unfold Rdiv. apply Rmult_lt_0_compat; [assumption | ].
  apply Rinv_0_lt_compat. apply lt_0_INR. lia.
Qed.

Lemma avg_zero (k : nat) : 0 / INR k = 0.
Proof. unfold Rdiv. apply Rmult_0_l. Qed.

(** The result of [calculateRSI] on finite closes: NaN when the window has
    neither a gain nor a loss, and a number of [[0, 100]] otherwise, which is
    [0] exactly when the window has no gain. *)
Lemma calculateRSI_cases (ps : list R) (k : nat) :
  (1 <= k)%nat -> (k + 1 <= length ps)%nat ->
  (gain_sum ps k = 0 /\ loss_sum ps k = 0 /\
   calculateRSI (map Fin ps) k = Some NaN)
  \/ (exists r, calculateRSI (map Fin ps) k = Some (Fin r) /\ 0 <= r <= 100
                /\ (r = 0 <-> gain_sum ps k = 0)).
Proof.
  intros Hk H. rewrite calculateRSI_fin by assumption.
  pose proof (gain_sum_nonneg ps k) as Hg.
  pose proof (loss_sum_nonneg ps k) as Hl.
  destruct (Req_dec_T (loss_sum ps k) 0) as [El | El].
  - rewrite El, avg_zero.
    destruct (Req_dec_T (gain_sum ps k) 0) as [Eg | Eg].
    + left. rewrite Eg, avg_zero. repeat split; try assumption.
      now rewrite rsi_value_flat.
    + right. exists 100. rewrite rsi_value_no_loss by (apply avg_pos; [assumption | lra]).
      repeat split; try lra.
  - right.
    assert (Hl' : 0 < loss_sum ps k / INR k) by (apply avg_pos; [assumption | lra]).
    destruct (Req_dec_T (gain_sum ps k) 0) as [Eg | Eg].
    + rewrite Eg, avg_zero.
      destruct (rsi_value_loss 0 _ (Rle_refl 0) Hl') as (r & -> & Hr & Hz & _).
      assert (r = 0) by (now apply Hz).
      exists r. repeat split; intros; lra.
    + assert (Hg' : 0 < gain_sum ps k / INR k) by (apply avg_pos; [assumption | lra]).
      destruct (rsi_value_loss _ _ (Rlt_le _ _ Hg') Hl') as (r & -> & Hr & _ & Hp).
      specialize (Hp Hg').
      exists r. repeat split; intros; lra.
Qed.

(** C10.  On at least 15 finite closes whose last 14 changes are all
    non-negative, [avgLoss] is zero, so [avgGain / avgLoss] divides by zero:
    with at least one strictly positive change the quotient is [Infinity]
    and [calculateRSI] returns exactly 100; with all changes zero it is
    [0 / 0] and [calculateRSI] returns NaN, which is not a number of
    [[0, 100]]. *)
Theorem rsi_zero_loss_window (ps : list R) :
  (15 <= length ps)%nat ->
  (forall i, (1 <= i <= 14)%nat -> 0 <= delta ps i) ->
  let '(avgGain, avgLoss) := rsi_averages (map Fin ps) 14 in
  avgLoss = Fin 0
  /\ ((exists i, (1 <= i <= 14)%nat /\ 0 < delta ps i) ->
      (avgGain / avgLoss)%js = PInf
      /\ calculateRSI (map Fin ps) 14 = Some (Fin 100))
  /\ ((forall i, (1 <= i <= 14)%nat -> delta ps i = 0) ->
      (avgGain / avgLoss)%js = NaN
      /\ calculateRSI (map Fin ps) 14 = Some NaN /\ ~ in_0_100 NaN).
Proof.
  intros Hlen Hnn.
  assert (Hl : loss_sum ps 14 = 0) by (now apply loss_sum_zero).
  rewrite calculateRSI_fin, rsi_averages_fin by lia.
  rewrite Hl, avg_zero. split; [reflexivity | split].
  - intros Hex. apply gain_sum_pos in Hex.
    assert (0 < gain_sum ps 14 / INR 14) by (apply avg_pos; [lia | assumption]).
    split; [now apply div_fin_zero | ].
    now rewrite rsi_value_no_loss.
  - intros Hz.
    rewrite gain_sum_zero by (intros i Hi; rewrite (Hz i Hi); lra).
    rewrite avg_zero, rsi_value_flat. split; [apply div_zero_zero | ].
    split; [reflexivity | ]. simpl. tauto.
Qed.

Lemma rsi_zero_loss_window_witness :
  calculateRSI (map Fin [1; 2; 3; 4; 5; 6; 7; 8; 9; 10; 11; 12; 13; 14; 15]) 14
  = Some (Fin 100).
Proof.
  pose proof (rsi_zero_loss_window
                [1; 2; 3; 4; 5; 6; 7; 8; 9; 10; 11; 12; 13; 14; 15]) as H.
  destruct (rsi_averages
              (map Fin [1; 2; 3; 4; 5; 6; 7; 8; 9; 10; 11; 12; 13; 14; 15]) 14)
    as [avgGain avgLoss].
  destruct H as (_ & H & _).
  - simpl. lia.
  - intros i Hi.
    do 15 (destruct i as [| i]; [try lia; unfold delta; simpl; lra | ]). lia.
  - apply H. exists 1%nat. split; [lia | ]. unfold delta. simpl. lra.
Defined.

(** ** [calculateSMA], [calculateEMA] and [calculateMACD] *)

Lemma fold_add_fin (l : list R) (a : R) :
  fold_left add (map Fin l) (Fin a) = Fin (a + fold_right Rplus 0 l).
Proof.
  revert a. induction l as [| x l IH]; intros a; simpl.
  - apply Fin_eq. lra.
  - rewrite IH. apply Fin_eq. lra.
Qed.

Lemma sum_fin (l : list R) : JS.sum (map Fin l) = Fin (fold_right Rplus 0 l).
Proof. unfold JS.sum. rewrite fold_add_fin. apply Fin_eq. lra. Qed.

Lemma sum_pos (l : list R) :
  l <> [] -> Forall (fun p => 0 < p) l -> 0 < fold_right Rplus 0 l.
Proof.
  intros Hne H. induction H as [| x l Hx Hl IH]; [contradiction | ].
  simpl. destruct l as [| y l]; [simpl; lra | ].
  assert (0 < fold_right Rplus 0 (y :: l)) by (apply IH; discriminate). lra.
Qed.

(** The loop of [calculateEMA] reads the closes from index [period] on, in
    order. *)
Lemma ema_loop_fin (m : R) (l2 l1 : list R) (e : R) :
  fold_left
    (fun ema i => ((get (map Fin (l1 ++ l2)) i - ema) * Fin m + ema)%js)
    (seq (length l1) (length l2)) (Fin e)
  = Fin (fold_left (fun ema p => (p - ema) * m + ema) l2 e).
Proof.
  revert l1 e. induction l2 as [| p l2 IH]; intros l1 e.
  - reflexivity.
  - cbn [length seq fold_left].
    rewrite get_map_Fin by (rewrite length_app; simpl; lia).
    rewrite app_nth2, Nat.sub_diag by lia. cbn [nth].
    replace (l1 ++ p :: l2) with ((l1 ++ [p]) ++ l2)
      by (now rewrite <- app_assoc).
    replace (S (length l1)) with (length (l1 ++ [p]))
      by (rewrite length_app; simpl; lia).
    change ((Fin p - Fin e) * Fin m + Fin e)%js with (Fin ((p + - e) * m + e)).
    rewrite IH. reflexivity.
Qed.

Lemma calculateEMA_fin (ps : list R) (period : nat) :
  (1 <= period)%nat ->
  calculateEMA (map Fin ps) period =
  if (length ps <? period)%nat then None
  else Some (Fin (ema_spec ps period)).
Proof.
  intros Hp. unfold calculateEMA. rewrite length_map.
  destruct (Nat.ltb_spec (length ps) period) as [Hlt | Hge]; [reflexivity | ].
  f_equal. unfold of_nat.
  change (Fin (INR period) + Fin 1)%js with (Fin (INR period + 1)).
  assert (0 < INR period) by (apply lt_0_INR; lia).
  rewrite div_fin by lra.
  rewrite firstn_map, sum_fin, div_fin by lra.
  pose proof (ema_loop_fin (2 / (INR period + 1)) (skipn period ps)
                (firstn period ps)
                (fold_right Rplus 0 (firstn period ps) / INR period)) as L.
  rewrite firstn_skipn, length_firstn, length_skipn in L.
  replace (Nat.min period (length ps)) with period in L by lia.
  exact L.
Qed.

Lemma Forall_split_at {A : Type} (P : A -> Prop) (n : nat) (l : list A) :
  Forall P l -> Forall P (firstn n l) /\ Forall P (skipn n l).
Proof.
  intros H. rewrite <- (firstn_skipn n l) in H.
  now apply Forall_app in H.
Qed.

Lemma ema_fold_pos (m : R) (l : list R) (e : R) :
  0 < m <= 1 -> 0 < e -> Forall (fun p => 0 < p) l ->
  0 < fold_left (fun ema p => (p - ema) * m + ema) l e.
Proof.
  intros Hm He H. revert e He.
  induction H as [| p l Hp Hl IH]; intros e He; simpl; [assumption | ].
  apply IH. nra.
Qed.

Lemma ema_spec_pos (ps : list R) (period : nat) :
  (1 <= period <= length ps)%nat -> Forall (fun p => 0 < p) ps ->
  0 < ema_spec ps period.
Proof.
  intros Hp H. unfold ema_spec.
  assert (Hn : 0 < INR period) by (apply lt_0_INR; lia).
  apply ema_fold_pos.
  - assert (1 <= INR period) by (change 1 with (INR 1); apply le_INR; lia).
    split.
    + unfold Rdiv. apply Rmult_lt_0_compat; [lra | ].
      apply Rinv_0_lt_compat. lra.
    + apply Rmult_le_reg_r with (INR period + 1); [lra | ].
      unfold Rdiv. rewrite Rmult_assoc, Rinv_l by lra. lra.
  - unfold Rdiv. apply Rmult_lt_0_compat; [ | now apply Rinv_0_lt_compat].
    apply sum_pos.
    + intros E. apply (f_equal (@length R)) in E.
      rewrite length_firstn in E. simpl in E. lia.
    + now apply Forall_split_at.
  - now apply Forall_split_at.
Qed.

Lemma calculateMACD_fin (ps : list R) :
  calculateMACD (map Fin ps) =
  if (length ps <? 26)%nat then None
  else if truthy (Fin (ema_spec ps 12)) && truthy (Fin (ema_spec ps 26))
       then Some (Fin (ema_spec ps 12 - ema_spec ps 26))
       else None.
Proof.
  unfold calculateMACD. rewrite !calculateEMA_fin by lia.
  destruct (Nat.ltb_spec (length ps) 26) as [Hlt | Hge].
  - now destruct (length ps <? 12)%nat.
  - destruct (Nat.ltb_spec (length ps) 12); [lia | ].
    destruct (truthy (Fin (ema_spec ps 12))), (truthy (Fin (ema_spec ps 26)));
      reflexivity.
Qed.

(** C9.  On finite closes and for a period of at least 1, [calculateEMA]
    returns null below [period] observations and otherwise the average seeded
    with the mean of the first [period] closes and updated by
    [ema <- (price - ema) * (2 / (period + 1)) + ema] for every later close;
    on positive closes [calculateMACD] returns null below 26 observations,
    where EMA(26) is undefined (and EMA(12) too below 12), and otherwise
    EMA(12) - EMA(26). *)
Theorem ema_and_macd (ps : list R) (period : nat) :
  (1 <= period)%nat -> Forall (fun p => 0 < p) ps ->
  calculateEMA (map Fin ps) period =
    (if (length ps <? period)%nat then None
     else Some (Fin (ema_spec ps period)))
  /\ calculateMACD (map Fin ps) =
     (if (length ps <? 26)%nat then None
      else Some (Fin (ema_spec ps 12 - ema_spec ps 26))).
Proof.
  intros Hp Hpos. split.
  - now apply calculateEMA_fin.
  - rewrite calculateMACD_fin.
    destruct (Nat.ltb_spec (length ps) 26) as [Hlt | Hge]; [reflexivity | ].
    rewrite !truthy_pos by (apply ema_spec_pos; [lia | assumption]).
    reflexivity.
Qed.

Lemma ema_and_macd_witness :
  calculateEMA (map Fin [2; 4; 9]) 2 = Some (Fin (ema_spec [2; 4; 9] 2))
  /\ calculateMACD (map Fin [2; 4; 9]) = None.
Proof.
  apply (ema_and_macd [2; 4; 9] 2).
  - lia.
  - repeat constructor; lra.
Defined.

(** ** The historical series as a sequence of reals *)

Lemma base_fraction_bounds (symbol : string) :
  0.05 <= base_fraction symbol <= 0.3.
Proof.
  unfold base_fraction.
  repeat match goal with |- context [String.eqb ?a ?b] =>
    destruct (String.eqb a b) end; lra.
Qed.

Lemma supported_not_inherited (symbol : string) :
  In symbol SUPPORTED_COINS -> inherited symbol = false.
Proof.
  intros H. cbn in H. repeat destruct H as [H | H]; try contradiction;
    subst symbol; reflexivity.
Qed.

Lemma basePrice_fin (symbol : string) (c : R) :
  inherited symbol = false -> 0 < c ->
  basePrice_of symbol (Fin c) = Fin (c * base_fraction symbol).
Proof.
  intros Hs Hc. unfold basePrice_of, basePrices, base_fraction. rewrite Hs.
  repeat match goal with |- context [String.eqb ?a ?b] =>
    destruct (String.eqb a b) end;
    cbn [mul]; try rewrite truthy_pos by nra; reflexivity.
Qed.

(** For a name inherited from [Object.prototype] the base price is not a
    number. *)
Lemma basePrice_inherited (symbol : string) (cp : num) :
  inherited symbol = true -> basePrice_of symbol cp = NaN.
Proof.
  intros Hs. unfold basePrice_of, basePrices. rewrite Hs.
  do 4 (match goal with |- context [String.eqb symbol ?b] =>
          destruct (String.eqb symbol b) eqn:E;
          [apply String.eqb_eq in E; subst symbol; discriminate Hs | clear E]
        end).
  reflexivity.
Qed.

Lemma next_price_fin (c b p u : R) (i : nat) :
  next_price (Fin c) (Fin b) (Fin p) (Fin u) i =
  Fin (p + (c - b) / 1095 + p * ((u - 0.5) * 0.05)
       + p * (sin (INR i / 365 * 2 * PI) * 0.1)).
Proof.
  unfold next_price, of_nat, Math_PI.
  change (Fin c - Fin b)%js with (Fin (c - b)).
  rewrite !div_fin by lra. reflexivity.
Qed.

Lemma day_price_fin (rnd : nat -> R) (c b p : R) (st : GenState) (i : nat) :
  g_price st = Fin p -> g_draws st = (5 * i)%nat ->
  day_price rnd (Fin c) (Fin b) st i =
  (Fin (Rmax (p + (c - b) / 1095 + p * noise rnd i + p * seasonal i) (b * 0.1)),
   (5 * i + 1)%nat).
Proof.
  intros Hp Hk. unfold day_price, Math_random. rewrite Hp, Hk.
  rewrite next_price_fin. cbn [mul Math_max]. f_equal. lia.
Qed.

Lemma day_price_path (rnd : nat -> R) (c b : R) (st : GenState) (i : nat) :
  g_price st = Fin (price_path rnd b c i) -> g_draws st = (5 * i)%nat ->
  day_price rnd (Fin c) (Fin b) st i =
  (Fin (price_path rnd b c (S i)), (5 * i + 1)%nat).
Proof. intros Hp Hk. now apply day_price_fin. Qed.

Lemma day_point_draws (rnd : nat -> R) (now : Z) (price : num)
    (prices : list num) (i k : nat) :
  snd (day_point rnd now price prices i k) = (k + 4)%nat.
Proof.
  unfold day_point, Math_random. destruct (indicators_of prices).
  cbn [snd]. lia.
Qed.

Lemma gen_run_S (rnd : nat -> R) (now : Z) (symbol : string) (cp : num)
    (n : nat) :
  gen_run rnd now symbol cp (S n) =
  day_step rnd now cp (basePrice_of symbol cp) (gen_run rnd now symbol cp n) n.
Proof. unfold gen_run. now rewrite seq_S, fold_left_app. Qed.

Lemma closes_S (rnd : nat -> R) (b c : R) (n : nat) :
  closes rnd b c (S n) = closes rnd b c n ++ [price_path rnd b c (S n)].
Proof. unfold closes. now rewrite seq_S, map_app. Qed.

Lemma closes_length (rnd : nat -> R) (b c : R) (n : nat) :
  length (closes rnd b c n) = n.
Proof. unfold closes. now rewrite length_map, length_seq. Qed.

Lemma closes_nth (rnd : nat -> R) (b c : R) (n k : nat) :
  (k < n)%nat -> nth k (closes rnd b c n) 0 = price_path rnd b c (S k).
Proof.
  intros H. unfold closes.
  rewrite (nth_indep _ 0 (price_path rnd b c 0))
    by (now rewrite length_map, length_seq).
  rewrite map_nth, seq_nth by assumption. reflexivity.
Qed.

(** The loop of [generate3YearHistoricalData] on a positive finite current
    price: the running price follows [price_path], [prices] holds the closes
    so far, five draws are made a day, and [data] grows by the point of the
    day. *)
Lemma gen_run_fin (rnd : nat -> R) (now : Z) (symbol : string) (c : R)
    (n : nat) :
  inherited symbol = false -> 0 < c ->
  let b := c * base_fraction symbol in
  let st := gen_run rnd now symbol (Fin c) n in
  g_price st = Fin (price_path rnd b c n)
  /\ g_prices st = map Fin (closes rnd b c n)
  /\ g_draws st = (5 * n)%nat
  /\ g_data st = map (series_point rnd now b c) (seq 0 n).
Proof.
  intros Hs Hc b. induction n as [| n IH].
  - unfold gen_run. cbn [seq fold_left g_price g_prices g_draws g_data map].
    rewrite basePrice_fin by assumption. repeat split; reflexivity.
  - cbn zeta in IH |- *. destruct IH as (Hp & Hps & Hk & Hd).
    rewrite gen_run_S, basePrice_fin by assumption. fold b.
    unfold day_step. rewrite (day_price_path rnd c b _ n Hp Hk).
    rewrite Hps.
    change [Fin (price_path rnd b c (S n))]
      with (map Fin [price_path rnd b c (S n)]).
    rewrite <- map_app, <- closes_S.
    pose proof (day_point_draws rnd now (Fin (price_path rnd b c (S n)))
                  (map Fin (closes rnd b c (S n))) n (5 * n + 1)) as Hdr.
    fold (series_point rnd now b c n).
    destruct (day_point rnd now (Fin (price_path rnd b c (S n)))
                (map Fin (closes rnd b c (S n))) n (5 * n + 1)) as [pt k] eqn:E.
    cbn [g_price g_prices g_draws g_data].
    repeat split.
    + cbn [snd] in Hdr. lia.
    + rewrite Hd, seq_S, map_app. cbn [map Nat.add].
      unfold series_point. rewrite E. reflexivity.
Qed.

Lemma series_data (rnd : nat -> R) (now : Z) (symbol : string) (c : R) :
  inherited symbol = false -> 0 < c ->
  generate3YearHistoricalData rnd now symbol (Fin c) =
  map (series_point rnd now (c * base_fraction symbol) c) (seq 0 1095).
Proof.
  intros Hs Hc. unfold generate3YearHistoricalData.
  now destruct (gen_run_fin rnd now symbol c 1095 Hs Hc) as (_ & _ & _ & ->).
Qed.

Lemma series_nth (rnd : nat -> R) (now : Z) (symbol : string) (c : R)
    (i : nat) :
  inherited symbol = false -> 0 < c -> (i < 1095)%nat ->
  nth_error (generate3YearHistoricalData rnd now symbol (Fin c)) i =
  Some (series_point rnd now (c * base_fraction symbol) c i).
Proof.
  intros Hs Hc Hi. rewrite series_data by assumption.
  rewrite nth_error_map, nth_error_seq.
  destruct (Nat.ltb_spec i 1095); [reflexivity | lia].
Qed.

Lemma series_In (rnd : nat -> R) (now : Z) (symbol : string) (c : R)
    (pt : PricePoint) :
  inherited symbol = false -> 0 < c ->
  In pt (generate3YearHistoricalData rnd now symbol (Fin c)) ->
  exists i, (i < 1095)%nat
            /\ pt = series_point rnd now (c * base_fraction symbol) c i.
Proof.
  intros Hs Hc H. rewrite series_data in H by assumption.
  apply in_map_iff in H. destruct H as (i & <- & Hi).
  apply in_seq in Hi. exists i. split; [lia | reflexivity].
Qed.

(** The fields of a point, read off the loop body. *)
Lemma point_close (rnd : nat -> R) (now : Z) (p : R) (prices : list num)
    (i k : nat) :
  close (fst (day_point rnd now (Fin p) prices i k)) = Fin (fixed_real 2 p).
Proof.
  unfold day_point, Math_random. destruct (indicators_of prices).
  cbn [fst close]. apply toFixed_fin.
Qed.

Lemma point_high (rnd : nat -> R) (now : Z) (p : R) (prices : list num)
    (i k : nat) :
  high (fst (day_point rnd now (Fin p) prices i k)) =
  Fin (fixed_real 2 (p * (1 + rnd (k + 1)%nat * 0.02))).
Proof.
  unfold day_point, Math_random. destruct (indicators_of prices).
  cbn [fst high mul add]. rewrite toFixed_fin.
  replace (S k) with (k + 1)%nat by lia. reflexivity.
Qed.

Lemma point_low (rnd : nat -> R) (now : Z) (p : R) (prices : list num)
    (i k : nat) :
  low (fst (day_point rnd now (Fin p) prices i k)) =
  Fin (fixed_real 2 (p * (1 - rnd (k + 2)%nat * 0.02))).
Proof.
  unfold day_point, Math_random. destruct (indicators_of prices).
  cbn [fst low mul add sub neg]. rewrite toFixed_fin.
  replace (S (S k)) with (k + 2)%nat by lia. reflexivity.
Qed.

Lemma point_open (rnd : nat -> R) (now : Z) (p : R) (prices : list num)
    (i k : nat) :
  open (fst (day_point rnd now (Fin p) prices i k)) =
  Fin (fixed_real 2 (p * (1 + (rnd (k + 3)%nat - 0.5) * 0.01))).
Proof.
  unfold day_point, Math_random. destruct (indicators_of prices).
  cbn [fst open mul add sub neg]. rewrite toFixed_fin.
  replace (S (S (S k))) with (k + 3)%nat by lia. reflexivity.
Qed.

Lemma point_indicators (rnd : nat -> R) (now : Z) (price : num)
    (prices : list num) (i k : nat) :
  indicators (fst (day_point rnd now price prices i k)) =
  fst (indicators_of prices).
Proof.
  unfold day_point, Math_random. now destruct (indicators_of prices).
Qed.

Lemma price_path_S (rnd : nat -> R) (b c : R) (i : nat) :
  price_path rnd b c (S i) =
  Rmax (price_path rnd b c i + (c - b) / 1095
        + price_path rnd b c i * noise rnd i
        + price_path rnd b c i * seasonal i) (b * 0.1).
Proof. reflexivity. Qed.

Lemma price_path_floor (rnd : nat -> R) (b c : R) (n : nat) :
  0 <= b -> b * 0.1 <= price_path rnd b c n.
Proof.
  intros Hb. destruct n as [| n].
  - change (price_path rnd b c 0) with b. lra.
  - rewrite price_path_S. apply Rmax_r.
Qed.

Lemma price_path_pos (rnd : nat -> R) (b c : R) (n : nat) :
  0 < b -> 0 < price_path rnd b c n.
Proof.
  intros Hb. pose proof (price_path_floor rnd b c n). lra.
Qed.

Lemma base_pos (symbol : string) (c : R) : 0 < c -> 0 < c * base_fraction symbol.
Proof. intros Hc. pose proof (base_fraction_bounds symbol). nra. Qed.

(** ** Order of the price fields (C5) *)

Lemma fixed_real_eval (d : nat) (x : R) (z : Z) :
  0 <= x < 1e21 -> IZR z <= x * 10 ^ d + / 2 < IZR z + 1 ->
  fixed_real d x = IZR z / 10 ^ d.
Proof.
  intros Hx Hz. unfold fixed_real.
  rewrite Rabs_right by lra.
  destruct (Rle_dec 1e21 x); [lra | ].
  unfold round_half_away.
  pose proof (pow10_pos d).
  destruct (Rle_dec 0 (x * 10 ^ d)) as [_ | Hn]; [ | exfalso; apply Hn; nra].
  rewrite <- (Int_part_spec (x * 10 ^ d + / 2) z) by lra. reflexivity.
Qed.

Lemma seasonal_0 : seasonal 0 = 0.
Proof.
  unfold seasonal. simpl INR.
  replace (0 / 365 * 2 * PI) with 0 by lra. rewrite sin_0. lra.
Qed.

Lemma base_fraction_bitcoin : base_fraction "bitcoin" = 0.15.
Proof. reflexivity. Qed.

(** The first price of the bitcoin series for the current price [c]. *)
Lemma first_price_bitcoin (rnd : nat -> R) (c : R) :
  0 < c -> -0.5 <= rnd 0%nat <= 1 ->
  price_path rnd (c * 0.15) c 1 =
  c * 0.15 + (c - c * 0.15) / 1095 + c * 0.15 * ((rnd 0%nat - 0.5) * 0.05).
Proof.
  intros Hc Hu. rewrite price_path_S.
  change (price_path rnd (c * 0.15) c 0) with (c * 0.15).
  rewrite seasonal_0. unfold noise.
  change (5 * 0)%nat with 0%nat. rewrite Rmax_left; nra.
Qed.

Lemma series_point_fields (rnd : nat -> R) (now : Z) (b c : R) (i : nat) :
  let p := price_path rnd b c (S i) in
  open (series_point rnd now b c i)
  = Fin (fixed_real 2 (p * (1 + (rnd (5 * i + 4)%nat - 0.5) * 0.01)))
  /\ high (series_point rnd now b c i)
     = Fin (fixed_real 2 (p * (1 + rnd (5 * i + 2)%nat * 0.02)))
  /\ low (series_point rnd now b c i)
     = Fin (fixed_real 2 (p * (1 - rnd (5 * i + 3)%nat * 0.02)))
  /\ close (series_point rnd now b c i) = Fin (fixed_real 2 p).
Proof.
  intros p. unfold series_point.
  rewrite point_open, point_high, point_low, point_close.
  replace (5 * i + 1 + 3)%nat with (5 * i + 4)%nat by lia.
  replace (5 * i + 1 + 1)%nat with (5 * i + 2)%nat by lia.
  replace (5 * i + 1 + 2)%nat with (5 * i + 3)%nat by lia.
  repeat split.
Qed.

(** C5.  The claim fails on the code: with the draws [draws_open_high] (0 for
    the high of the first day, 0.9 for its open), the first point of the
    bitcoin series for 65000 has [open = 9839.66] above [high = 9800.46],
    so it does not have [low <= open <= high].  The open is drawn around
    the price without regard to the high and the low drawn before it; the
    hourly points of the chart route take all four from one price and are
    ordered. *)
Lemma open_above_high_example :
  random_source draws_open_high
  /\ exists pt,
    nth_error
      (generate3YearHistoricalData draws_open_high 0 "bitcoin" (Fin 65000)) 0
    = Some pt
    /\ open pt = Fin 9839.66 /\ high pt = Fin 9800.46
    /\ ~ ohlc_claimed pt.
Proof.
  split.
  { intros k. unfold draws_open_high.
    do 5 (destruct k as [| k]; [lra | ]). lra. }
  eexists. split; [apply series_nth; [reflexivity | lra | lia] | ].
  rewrite base_fraction_bitcoin.
  destruct (series_point_fields draws_open_high 0 (65000 * 0.15) 65000 0)
    as (Ho & Hh & _ & _).
  rewrite first_price_bitcoin in Ho, Hh by (cbn; lra).
  cbn [Nat.mul Nat.add draws_open_high] in Ho, Hh.
  rewrite (fixed_real_eval 2 _ 983966) in Ho by (simpl; lra).
  rewrite (fixed_real_eval 2 _ 980046) in Hh by (simpl; lra).
  assert (Eo : open (series_point draws_open_high 0 (65000 * 0.15) 65000 0)
               = Fin 9839.66) by (rewrite Ho; apply Fin_eq; simpl; lra).
  assert (Eh : high (series_point draws_open_high 0 (65000 * 0.15) 65000 0)
               = Fin 9800.46) by (rewrite Hh; apply Fin_eq; simpl; lra).
  repeat split; try assumption.
  intros (o & h & l & cl & Ho' & Hh' & _ & _ & Hoh & _).
  rewrite Eo in Ho'. rewrite Eh in Hh'.
  apply Fin_inj in Ho', Hh'. lra.
Qed.

Lemma fixed_real_half_cent : fixed_real 2 0.005 = 0.01.
Proof. rewrite (fixed_real_eval 2 _ 1) by (simpl; lra). simpl. lra. Qed.

(** Below that floor the close can round to zero: the first close of the
    bitcoin series for a current price of 0.01 is 0. *)
Lemma zero_close_example :
  exists pt,
    nth_error
      (generate3YearHistoricalData (fun _ => 0.5) 0 "bitcoin" (Fin 0.01)) 0
    = Some pt
    /\ close pt = Fin 0.
Proof.
  eexists. split; [apply series_nth; [reflexivity | lra | lia] | ].
  rewrite base_fraction_bitcoin.
  destruct (series_point_fields (fun _ => 0.5) 0 (0.01 * 0.15) 0.01 0)
    as (_ & _ & _ & ->).
  rewrite first_price_bitcoin by lra.
  rewrite (fixed_real_eval 2 _ 0) by (simpl; lra).
  apply Fin_eq. simpl. lra.
Qed.

(** What does hold of the price fields: for every draw of the random source,
    every supported symbol and every positive current price, each point of
    the series has finite price fields with [low <= close <= high],
    [low >= 0], [close >= 0] and [open >= 0]; [close] is strictly positive
    when the floor [basePrice * 0.1] is at least half a cent. *)
Lemma ohlc_fields_ordered (rnd : nat -> R) (now : Z) (symbol : string)
    (c : R) :
  In symbol SUPPORTED_COINS -> random_source rnd -> 0 < c ->
  Forall ohlc_ordered (generate3YearHistoricalData rnd now symbol (Fin c))
  /\ (0.005 <= c * base_fraction symbol * 0.1 ->
      Forall (fun pt => exists cl, close pt = Fin cl /\ 0 < cl)
        (generate3YearHistoricalData rnd now symbol (Fin c))).
Proof.
  intros Hsup Hrnd Hc. apply supported_not_inherited in Hsup.
  pose proof (base_pos symbol c Hc) as Hb.
  split; [ | intros Hfloor]; apply Forall_forall; intros pt Hin;
    apply series_In in Hin; try assumption;
    destruct Hin as (i & Hi & ->);
    destruct (series_point_fields rnd now (c * base_fraction symbol) c i)
      as (Ho & Hh & Hl & Hcl);
    pose proof (price_path_floor rnd (c * base_fraction symbol) c (S i)
                  (Rlt_le _ _ Hb)) as Hp.
  - set (p := price_path rnd (c * base_fraction symbol) c (S i)) in *.
    pose proof (Hrnd (5 * i + 2)%nat) as Hu2.
    pose proof (Hrnd (5 * i + 3)%nat) as Hu3.
    pose proof (Hrnd (5 * i + 4)%nat) as Hu4.
    do 4 eexists. repeat split; try eassumption.
    + apply fixed_real_mono. nra.
    + apply fixed_real_mono. nra.
    + apply fixed_real_nonneg. nra.
    + apply fixed_real_nonneg. nra.
  - eexists. split; [eassumption | ].
    apply Rlt_le_trans with (fixed_real 2 0.005).
    + rewrite fixed_real_half_cent. lra.
    + apply fixed_real_mono. lra.
Qed.

Lemma half_is_random : random_source (fun _ => 0.5).
Proof. intros k. lra. Qed.


(** ** The daily update (C2) *)

Lemma noise_bounds (rnd : nat -> R) (i : nat) :
  random_source rnd -> -0.025 <= noise rnd i < 0.025.
Proof. intros H. unfold noise. pose proof (H (5 * i)%nat). lra. Qed.

(** The claim as stated fails: on day 0 of the bitcoin series for 65000 with
    every draw equal to 0.9 (a noise of 0.02), the code closes at 9995.46,
    while the three successive scalings of the claim give 9996.47, whatever
    the amplitude [A]. *)
Lemma update_not_sequential_example :
  random_source (fun _ => 0.9)
  /\ exists pt,
    nth_error
      (generate3YearHistoricalData (fun _ => 0.9) 0 "bitcoin" (Fin 65000)) 0
    = Some pt
    /\ close pt = Fin 9995.46
    /\ forall A,
         fixed_real 2
           (Rmax (sequential_update (65000 * 0.15) 65000 (65000 * 0.15)
                    (noise (fun _ => 0.9) 0) A 0)
                 (65000 * 0.15 * 0.1))
         = 9996.47.
Proof.
  split; [intros k; lra | ].
  eexists. split; [apply series_nth; [reflexivity | lra | lia] | ].
  rewrite base_fraction_bitcoin. split.
  - destruct (series_point_fields (fun _ => 0.9) 0 (65000 * 0.15) 65000 0)
      as (_ & _ & _ & ->).
    rewrite first_price_bitcoin by lra.
    rewrite (fixed_real_eval 2 _ 999546) by (simpl; lra).
    apply Fin_eq. simpl. lra.
  - intros A. unfold sequential_update, noise. simpl INR.
    replace (2 * PI * 0 / 365) with 0 by lra. rewrite sin_0.
    rewrite Rmax_left by lra.
    rewrite (fixed_real_eval 2 _ 999647) by (simpl; lra).
    simpl. lra.
Qed.

(** C2 (amended).  For every supported symbol, on every day [i] the running
    price [p] becomes
    [p + trend + p * noise + p * (0.1 * sin (2 * PI * i / 365))], floored at
    [basePrice * 0.1], where [trend = (currentPrice - basePrice) / 1095] and
    the noise lies in [[-0.025, 0.025)]: the three terms are all taken from
    the price of the day before and added, not applied one after the other.
    The close of the day is that price rounded to two decimals. *)
Theorem daily_update (rnd : nat -> R) (now : Z) (symbol : string) (c : R)
    (i : nat) :
  In symbol SUPPORTED_COINS -> random_source rnd -> 0 < c -> (i < 1095)%nat ->
  let b := c * base_fraction symbol in
  let p := price_path rnd b c i in
  g_price (gen_run rnd now symbol (Fin c) i) = Fin p
  /\ g_price (gen_run rnd now symbol (Fin c) (S i)) =
     Fin (Rmax (p + (c - b) / 1095 + p * noise rnd i
                + p * (sin (INR i / 365 * 2 * PI) * 0.1))
               (b * 0.1))
  /\ -0.025 <= noise rnd i < 0.025
  /\ exists pt,
       nth_error (generate3YearHistoricalData rnd now symbol (Fin c)) i
       = Some pt
       /\ close pt = toFixed 2 (g_price (gen_run rnd now symbol (Fin c) (S i))).
Proof.
  intros Hsup Hrnd Hc Hi. cbn zeta. apply supported_not_inherited in Hsup.
  destruct (gen_run_fin rnd now symbol c i Hsup Hc) as (Hp & _).
  destruct (gen_run_fin rnd now symbol c (S i) Hsup Hc) as (Hp' & _).
  split; [ | split; [ | split]].
  - exact Hp.
  - exact Hp'.
  - now apply noise_bounds.
  - eexists. split; [now apply series_nth | ].
    rewrite Hp', toFixed_fin.
    now destruct (series_point_fields rnd now (c * base_fraction symbol) c i)
      as (_ & _ & _ & ->).
Qed.

Lemma daily_update_witness :
  let rnd := fun _ : nat => 0.5 in
  let b := 65000 * base_fraction "bitcoin" in
  let p := price_path rnd b 65000 7 in
  g_price (gen_run rnd 0 "bitcoin" (Fin 65000) 7) = Fin p
  /\ g_price (gen_run rnd 0 "bitcoin" (Fin 65000) 8) =
     Fin (Rmax (p + (65000 - b) / 1095 + p * noise rnd 7
                + p * (sin (INR 7 / 365 * 2 * PI) * 0.1))
               (b * 0.1))
  /\ -0.025 <= noise rnd 7 < 0.025
  /\ exists pt,
       nth_error (generate3YearHistoricalData rnd 0 "bitcoin" (Fin 65000)) 7
       = Some pt
       /\ close pt = toFixed 2 (g_price (gen_run rnd 0 "bitcoin" (Fin 65000) 8)).
Proof.
  apply (daily_update (fun _ => 0.5) 0 "bitcoin" 65000 7).
  - now left.
  - intros k. lra.
  - lra.
  - lia.
Defined.

(** ** The last close (C1) *)

Lemma fixed_real_near (d : nat) (x : R) :
  Rabs (fixed_real d x - x) <= / 2 / 10 ^ d.
Proof.
  pose proof (pow10_pos d) as Hp.
  assert (Hi : 0 < / 10 ^ d) by now apply Rinv_0_lt_compat.
  unfold fixed_real. destruct (Rle_dec 1e21 (Rabs x)).
  - replace (x - x) with 0 by lra. rewrite Rabs_R0.
    unfold Rdiv. apply Rmult_le_pos; lra.
  - assert (Hz : forall z : Z, Rabs (IZR z - x * 10 ^ d) <= / 2 ->
                 Rabs (IZR z / 10 ^ d - x) <= / 2 / 10 ^ d).
    { intros z Hz.
      replace (IZR z / 10 ^ d - x) with ((IZR z - x * 10 ^ d) * / 10 ^ d)
        by (field; lra).
      rewrite Rabs_mult, (Rabs_right (/ 10 ^ d)) by lra.
      unfold Rdiv. apply Rmult_le_compat_r; lra. }
    apply Hz. unfold round_half_away.
    destruct (Rle_dec 0 (x * 10 ^ d)).
    + pose proof (Int_part_bounds (x * 10 ^ d + / 2)).
      apply Rabs_le. lra.
    + pose proof (Int_part_bounds (- (x * 10 ^ d) + / 2)).
      rewrite opp_IZR. apply Rabs_le. lra.
Qed.

Lemma half_cent : / 2 / 10 ^ 2 = 0.005.
Proof. simpl. lra. Qed.

Lemma Rabs_bounds (x a : R) : Rabs x <= a -> - a <= x <= a.
Proof. unfold Rabs. destruct (Rcase_abs x); lra. Qed.

Lemma price_path_ext (rnd1 rnd2 : nat -> R) (b c : R) (n : nat) :
  (forall i, (i < n)%nat -> rnd1 (5 * i)%nat = rnd2 (5 * i)%nat) ->
  price_path rnd1 b c n = price_path rnd2 b c n.
Proof.
  induction n as [| n IH]; intros H; [reflexivity | ].
  rewrite !price_path_S. rewrite IH by (intros i Hi; apply H; lia).
  unfold noise. rewrite (H n) by lia. reflexivity.
Qed.

(** On the last day the seasonal term is [- 0.1 * sin (2 * PI / 365)]. *)
Lemma seasonal_last : -0.0022 < seasonal 1094 < 0.
Proof.
  unfold seasonal. rewrite (INR_lit 1094).
  change (IZR (Z.of_nat 1094)) with 1094.
  replace (1094 / 365 * 2 * PI) with (- (2 * PI / 365) + 2 * INR 3 * PI)
    by (simpl; lra).
  rewrite sin_period, sin_neg.
  pose proof PI_RGT_0. pose proof PI_4.
  assert (0 < sin (2 * PI / 365)) by (apply sin_gt_0; lra).
  assert (sin (2 * PI / 365) < 2 * PI / 365) by (apply sin_lt_x; lra).
  lra.
Qed.

Lemma sin_le_half (y : R) : 0 <= y <= PI / 6 -> sin y <= 1 / 2.
Proof.
  intros Hy. pose proof PI_RGT_0. rewrite <- sin_PI6.
  apply sin_incr_1; lra.
Qed.

Lemma sin_ge_half (y : R) : PI / 6 <= y <= 5 * (PI / 6) -> 1 / 2 <= sin y.
Proof.
  intros Hy. pose proof PI_RGT_0. rewrite <- sin_PI6.
  destruct (Rle_dec y (PI / 2)).
  - apply sin_incr_1; lra.
  - rewrite <- (sin_PI_x y). apply sin_incr_1; lra.
Qed.

(** The angle of day [d + 365 * k] is the angle of day [d] plus [k] turns. *)
Lemma seasonal_period (d k : nat) : seasonal (d + 365 * k) = seasonal d.
Proof.
  unfold seasonal. rewrite plus_INR, mult_INR, (INR_lit 365).
  change (IZR (Z.of_nat 365)) with 365.
  replace ((INR d + 365 * INR k) / 365 * 2 * PI)
    with (INR d / 365 * 2 * PI + 2 * INR k * PI) by field.
  now rewrite sin_period.
Qed.

(** The seasonal term over the days of a year. *)
Lemma seasonal_le (d : nat) :
  (d < 365)%nat ->
  seasonal d <= 0.1
  /\ ((d <= 30)%nat \/ (153 <= d)%nat -> seasonal d <= 0.05)
  /\ ((183 <= d)%nat -> seasonal d <= 0)
  /\ ((213 <= d <= 334)%nat -> seasonal d <= -0.05).
Proof.
  intros Hd. unfold seasonal. pose proof PI_RGT_0 as Hpi.
  pose proof (pos_INR d) as H0.
  assert (Hub : INR d <= 364) by nat_bound.
  set (r := INR d / 365 * 2).
  replace (INR d / 365 * 2 * PI) with (r * PI) by (unfold r; lra).
  assert (Hr : 0 <= r < 2) by (unfold r; lra).
  assert (Hneg : 1 <= r -> sin (r * PI) <= 0).
  { intros H. apply sin_le_0; nra. }
  split; [pose proof (SIN_bound (r * PI)); lra | ].
  split; [ | split].
  - intros [Hlo | Hhi].
    + assert (INR d <= 30) by nat_bound.
      assert (sin (r * PI) <= 1 / 2)
        by (apply sin_le_half; unfold r; split; nra).
      lra.
    + assert (153 <= INR d) by nat_bound.
      destruct (Rle_dec 1 r) as [H1 | H1]; [specialize (Hneg H1); lra | ].
      assert (sin (PI - r * PI) <= 1 / 2)
        by (apply sin_le_half; unfold r in *; split; nra).
      rewrite sin_PI_x in *. lra.
  - intros Hlo.
    assert (183 <= INR d) by nat_bound.
    assert (sin (r * PI) <= 0) by (apply Hneg; unfold r; lra). lra.
  - intros [Hlo Hhi].
    assert (213 <= INR d <= 334) by nat_bound.
    assert (1 / 2 <= sin (r * PI - PI))
      by (apply sin_ge_half; unfold r; split; nra).
    replace (r * PI) with (r * PI - PI + PI) by lra.
    rewrite neg_sin. lra.
Qed.

Section LowDraws.

(** The running price of the bitcoin series for 65000 when every draw is 0. *)
Local Abbreviation low_path := (price_path (fun _ => 0) (65000 * 0.15) 65000).

Lemma noise_zero_draws (i : nat) : noise (fun _ => 0) i = -0.025.
Proof. unfold noise. lra. Qed.

(** One day of the bitcoin series for 65000 when every draw is 0: the price
    is multiplied by at most [a] and raised by at most [tau]. *)
Lemma low_day_bound (i : nat) (a tau : R) :
  seasonal i <= a - 0.975 -> 0 <= a -> 50.46 <= tau ->
  975 <= a * 975 + tau ->
  low_path (S i) <= a * low_path i + tau.
Proof.
  intros Hs Ha Htau Hfl. rewrite price_path_S, noise_zero_draws.
  pose proof (price_path_floor (fun _ => 0) (65000 * 0.15) 65000 i) as Hp.
  set (p := low_path i) in *.
  assert (975 <= p) by lra.
  apply Rmax_lub; nra.
Qed.

Lemma segment_bound (s n : nat) (a tau u : R) :
  0 <= a ->
  (forall j, (j < n)%nat ->
     low_path (S (s + j)) <= a * low_path (s + j) + tau) ->
  low_path s <= u ->
  low_path (s + n) <= iter_affine a tau u n.
Proof.
  intros Ha Hstep Hu. induction n as [| n IH].
  - rewrite Nat.add_0_r. exact Hu.
  - replace (s + S n)%nat with (S (s + n)) by lia. cbn [iter_affine].
    specialize (Hstep n ltac:(lia)) as Hn.
    assert (low_path (s + n) <= iter_affine a tau u n)
      by (apply IH; intros j Hj; apply Hstep; lia).
    nra.
Qed.

(** A segment of a year, [n] days from day [o] of year [k], on which the
    seasonal term is at most [a - 0.975]. *)
Lemma year_segment (k o n : nat) (a tau u v : R) :
  (o + n <= 365)%nat ->
  (forall d, (o <= d < o + n)%nat -> seasonal d <= a - 0.975) ->
  0 <= a -> 50.46 <= tau -> 975 <= a * 975 + tau ->
  iter_affine a tau u n <= v ->
  low_path (365 * k + o) <= u ->
  low_path (365 * k + (o + n)) <= v.
Proof.
  intros Hon Hs Ha Htau Hfl Hv Hu.
  replace (365 * k + (o + n))%nat with (365 * k + o + n)%nat by lia.
  apply Rle_trans with (iter_affine a tau u n); [ | exact Hv].
  apply segment_bound; try assumption.
  intros j Hj. apply low_day_bound; try assumption.
  replace (365 * k + o + j)%nat with (o + j + 365 * k)%nat by lia.
  rewrite seasonal_period. apply Hs. lia.
Qed.

(** With every draw equal to 0, a year that starts at or below the base price
    ends at or below it. *)
Lemma low_year (k : nat) :
  low_path (365 * k) <= 9750 -> low_path (365 * (S k)) <= 9750.
Proof.
  intros H0. rewrite <- (Nat.add_0_r (365 * k)) in H0.
  assert (Hs : forall d, (d < 365)%nat ->
            seasonal d <= 1.075 - 0.975
            /\ ((d <= 30)%nat \/ (153 <= d)%nat -> seasonal d <= 1.025 - 0.975)
            /\ ((183 <= d)%nat -> seasonal d <= 0.975 - 0.975)
            /\ ((213 <= d <= 334)%nat -> seasonal d <= 0.925 - 0.975)).
  { intros d Hd. destruct (seasonal_le d Hd) as (A & B & C & D).
    repeat split; intros; try lra.
    - specialize (B ltac:(assumption)). lra.
    - specialize (C ltac:(assumption)). lra.
    - specialize (D ltac:(assumption)). lra. }
  apply (year_segment k 0 31 1.025 50.46 9750 23300) in H0;
    [ | lia | intros d Hd; apply Hs; lia | lra | lra | lra
      | cbn [iter_affine]; lra ].
  apply (year_segment k 31 122 1.075 50.46 23300 163000000) in H0;
    [ | lia | intros d Hd; apply Hs; lia | lra | lra | lra
      | cbn [iter_affine]; lra ].
  apply (year_segment k 153 30 1.025 50.46 163000000 342000000) in H0;
    [ | lia | intros d Hd; apply Hs; lia | lra | lra | lra
      | cbn [iter_affine]; lra ].
  apply (year_segment k 183 30 0.975 50.46 342000000 161000000) in H0;
    [ | lia | intros d Hd; apply Hs; lia | lra | lra | lra
      | cbn [iter_affine]; lra ].
  apply (year_segment k 213 122 0.925 73.2 161000000 12900) in H0;
    [ | lia | intros d Hd; apply Hs; lia | lra | lra | lra
      | cbn [iter_affine]; lra ].
  apply (year_segment k 335 30 0.975 50.46 12900 7120) in H0;
    [ | lia | intros d Hd; apply Hs; lia | lra | lra | lra
      | cbn [iter_affine]; lra ].
  replace (365 * S k)%nat with (365 * k + (335 + 30))%nat by lia. lra.
Qed.

Lemma low_draws_last_price : low_path 1095 <= 9750.
Proof.
  change 1095%nat with (365 * 3)%nat.
  do 3 apply low_year.
  change (low_path (365 * 0)) with (65000 * 0.15).
  lra.
Qed.

End LowDraws.

Lemma fixed_real_9750 : fixed_real 2 9750 = 9750.
Proof. rewrite (fixed_real_eval 2 _ 975000) by (simpl; lra). simpl. lra. Qed.

(** The claim as stated fails: in the bitcoin series for 65000 with every
    draw equal to 0, the last close is at most 9750, the base price. *)
Lemma last_close_far_example :
  random_source (fun _ => 0)
  /\ exists pt x,
    nth_error
      (generate3YearHistoricalData (fun _ => 0) 0 "bitcoin" (Fin 65000)) 1094
    = Some pt
    /\ close pt = Fin x /\ x <= 9750 /\ ~ Rabs (x - 65000) <= 1.
Proof.
  split; [intros k; lra | ].
  do 2 eexists. split; [apply series_nth; [reflexivity | lra | lia] | ].
  rewrite base_fraction_bitcoin.
  destruct (series_point_fields (fun _ => 0) 0 (65000 * 0.15) 65000 1094)
    as (_ & _ & _ & Hcl).
  split; [exact Hcl | ].
  assert (Hx : fixed_real 2 (price_path (fun _ => 0) (65000 * 0.15) 65000 1095)
               <= 9750).
  { pose proof (fixed_real_mono 2 _ _ low_draws_last_price) as H.
    now rewrite fixed_real_9750 in H. }
  split; [exact Hx | ].
  intros H. apply Rabs_bounds in H. lra.
Qed.

(** Nor is the last close the same from one run to the next.  Were it equal
    to the current price up to 1 for every draw, it would be so for the
    constant draws 0.5 and for [draws_low_last_day]; but these give the same
    price on day 1093 and last prices that differ by 2.5% of it, which is
    more than 24. *)
Lemma last_close_not_anchored :
  ~ (forall rnd, random_source rnd ->
       exists pt x,
         nth_error
           (generate3YearHistoricalData rnd 0 "bitcoin" (Fin 65000)) 1094
         = Some pt
         /\ close pt = Fin x /\ Rabs (x - 65000) <= 1).
Proof.
  intros Hall.
  assert (Hclose : forall rnd pt,
             nth_error
               (generate3YearHistoricalData rnd 0 "bitcoin" (Fin 65000)) 1094
             = Some pt ->
             close pt = Fin (fixed_real 2
                               (price_path rnd (65000 * 0.15) 65000 1095))).
  { intros rnd pt E. rewrite series_nth in E by (reflexivity || lra || lia).
    apply (f_equal (fun o => match o with Some q => close q | None => NaN end))
      in E.
    rewrite <- E, base_fraction_bitcoin.
    now destruct (series_point_fields rnd 0 (65000 * 0.15) 65000 1094)
      as (_ & _ & _ & ->). }
  destruct (Hall (fun _ => 0.5) half_is_random) as (ptA & xA & EA & CA & HA).
  assert (HrB : random_source draws_low_last_day).
  { intros k. unfold draws_low_last_day.
    destruct (k <? 5 * 1094)%nat; lra. }
  destruct (Hall draws_low_last_day HrB) as (ptB & xB & EB & CB & HB).
  rewrite (Hclose _ _ EA) in CA. rewrite (Hclose _ _ EB) in CB.
  apply Fin_inj in CA, CB. subst xA xB.
  pose proof (fixed_real_near 2
                (price_path (fun _ => 0.5) (65000 * 0.15) 65000 1095)) as NA.
  pose proof (fixed_real_near 2
                (price_path draws_low_last_day (65000 * 0.15) 65000 1095))
    as NB.
  rewrite (price_path_S (fun _ => 0.5) _ _ 1094) in NA, HA.
  rewrite (price_path_S draws_low_last_day _ _ 1094) in NB, HB.
  rewrite (price_path_ext draws_low_last_day (fun _ => 0.5)) in NB, HB.
  2,3: intros i Hi; unfold draws_low_last_day;
       destruct (Nat.ltb_spec (5 * i) (5 * 1094)); [reflexivity | lia].
  pose proof (price_path_floor (fun _ => 0.5) (65000 * 0.15) 65000 1094)
    as Hp.
  set (p := price_path (fun _ => 0.5) (65000 * 0.15) 65000 1094) in *.
  assert (EnA : noise (fun _ => 0.5) 1094 = 0) by (unfold noise; lra).
  assert (EnB : noise draws_low_last_day 1094 = -0.025).
  { unfold noise, draws_low_last_day. rewrite Nat.ltb_irrefl. lra. }
  rewrite EnA in NA, HA. rewrite EnB in NB, HB.
  pose proof seasonal_last as Hs.
  assert (Hp' : 975 <= p) by lra.
  assert (Hps : - 0.0022 * p <= p * seasonal 1094 <= 0) by nra.
  rewrite Rmax_left in NA, HA by lra.
  rewrite Rmax_left in NB, HB by lra.
  apply Rabs_bounds in NA, NB, HA, HB.
  simpl in NA, NB. lra.
Qed.

Lemma path_drift (rnd : nat -> R) (b c : R) (n : nat) :
  b + INR n * ((c - b) / 1095) + drift rnd b c n <= price_path rnd b c n
  /\ (floor_free rnd b c n ->
      price_path rnd b c n = b + INR n * ((c - b) / 1095) + drift rnd b c n).
Proof.
  induction n as [| n [IH1 IH2]].
  - change (drift rnd b c 0) with 0. change (price_path rnd b c 0) with b.
    cbn [INR]. split; [lra | intros _; lra].
  - rewrite price_path_S, S_INR.
    change (drift rnd b c (S n))
      with (drift rnd b c n
            + price_path rnd b c n * (noise rnd n + seasonal n)).
    fold (seasonal n).
    set (p := price_path rnd b c n) in *.
    set (u := p + (c - b) / 1095 + p * noise rnd n + p * seasonal n).
    split.
    + pose proof (Rmax_l u (b * 0.1)). unfold u in *. lra.
    + intros Hf.
      assert (b * 0.1 <= u) as Hu by (apply Hf; lia).
      assert (p = b + INR n * ((c - b) / 1095) + drift rnd b c n) as E
        by (apply IH2; intros i Hi; apply Hf; lia).
      rewrite Rmax_left by exact Hu. unfold u. lra.
Qed.

Lemma gen_run_price (rnd : nat -> R) (now : Z) (symbol : string) (c : R)
    (n : nat) :
  inherited symbol = false -> 0 < c ->
  g_price (gen_run rnd now symbol (Fin c) n)
  = Fin (price_path rnd (c * base_fraction symbol) c n).
Proof. intros Hs Hc. apply (gen_run_fin rnd now symbol c n Hs Hc). Qed.

(** In the solana series the running price never falls below eight trend
    increments, whatever the draws: a day takes at most 12.5 percent off the
    price and adds one increment. *)
Lemma solana_path_above (rnd : nat -> R) (c : R) (n : nat) :
  random_source rnd -> 0 < c ->
  8 * ((c - c * 0.05) / 1095) <= price_path rnd (c * 0.05) c n.
Proof.
  intros Hr Hc. induction n as [| n IH].
  - change (price_path rnd (c * 0.05) c 0) with (c * 0.05). lra.
  - rewrite price_path_S.
    pose proof (noise_bounds rnd n Hr) as Hn.
    assert (-0.1 <= seasonal n) as Hs.
    { unfold seasonal. pose proof (SIN_bound (INR n / 365 * 2 * PI)). lra. }
    set (p := price_path rnd (c * 0.05) c n) in *.
    assert (0 < p) as Hp by lra.
    apply Rle_trans
      with (p + (c - c * 0.05) / 1095 + p * noise rnd n + p * seasonal n);
      [nra | apply Rmax_l].
Qed.

(** So the floor of the solana series, which is lower, never binds. *)
Lemma solana_floor_free (rnd : nat -> R) (c : R) (n : nat) :
  random_source rnd -> 0 < c -> floor_free rnd (c * 0.05) c n.
Proof.
  intros Hr Hc i _.
  pose proof (solana_path_above rnd c i Hr Hc) as Hp.
  pose proof (noise_bounds rnd i Hr) as Hn.
  assert (-0.1 <= seasonal i) as Hs.
  { unfold seasonal. pose proof (SIN_bound (INR i / 365 * 2 * PI)). lra. }
  set (p := price_path rnd (c * 0.05) c i) in *.
  nra.
Qed.

(** C1 (amended).  For every supported symbol and every positive current
    price the series has 1095 points, and its last close is the running
    price [p] after the 1095 daily updates, rounded to two decimals, so it
    is within half a cent of [p].  Each update adds the trend increment
    [(currentPrice - basePrice) / 1095] and the noise and seasonal terms of
    the day, [price * (noise + seasonal)], and floors the result at
    [basePrice * 0.1].  The increments add up to
    [currentPrice - basePrice], so [p] is at least [currentPrice] plus the
    sum of the noise and seasonal terms of the 1095 days, and equal to it
    when the floor binds on no day, as in every solana series; [p] is also
    at least the floor. *)
Theorem last_close_of_series (rnd : nat -> R) (now : Z) (symbol : string)
    (c : R) :
  In symbol SUPPORTED_COINS -> random_source rnd -> 0 < c ->
  length (generate3YearHistoricalData rnd now symbol (Fin c)) = 1095%nat
  /\ g_price (gen_run rnd now symbol (Fin c) 1095)
     = Fin (price_path rnd (c * base_fraction symbol) c 1095)
  /\ (exists pt cl,
        nth_error (generate3YearHistoricalData rnd now symbol (Fin c)) 1094
        = Some pt
        /\ close pt = Fin cl
        /\ cl = fixed_real 2 (price_path rnd (c * base_fraction symbol) c 1095)
        /\ Rabs (cl - price_path rnd (c * base_fraction symbol) c 1095)
           <= 0.005
        /\ 0 <= cl)
  /\ c * base_fraction symbol * 0.1
     <= price_path rnd (c * base_fraction symbol) c 1095
  /\ c + drift rnd (c * base_fraction symbol) c 1095
     <= price_path rnd (c * base_fraction symbol) c 1095
  /\ (floor_free rnd (c * base_fraction symbol) c 1095 ->
      price_path rnd (c * base_fraction symbol) c 1095
      = c + drift rnd (c * base_fraction symbol) c 1095)
  /\ (symbol = "solana"%string ->
      price_path rnd (c * base_fraction symbol) c 1095
      = c + drift rnd (c * base_fraction symbol) c 1095).
Proof.
  intros Hsup Hr Hc. apply supported_not_inherited in Hsup.
  pose proof (gen_run_price rnd now symbol c 1095 Hsup Hc) as Hrun.
  set (b := c * base_fraction symbol) in *.
  assert (0 < b) as Hb by now apply base_pos.
  assert (b * 0.1 <= price_path rnd b c 1095) as Hfloor.
  { apply price_path_floor. now left. }
  destruct (path_drift rnd b c 1095) as [D1 D2].
  assert (INR 1095 = 1095) as E1095 by (rewrite INR_lit; reflexivity).
  rewrite E1095 in D1, D2.
  replace (b + 1095 * ((c - b) / 1095)) with c in D1, D2 by field.
  split; [ | split; [ | split; [ | split; [ | split; [ | split]]]]].
  - rewrite series_data by assumption. now rewrite length_map, length_seq.
  - exact Hrun.
  - do 2 eexists. split; [apply series_nth; [assumption | assumption | lia] | ].
    destruct (series_point_fields rnd now b c 1094) as (_ & _ & _ & E).
    split; [exact E | ]. split; [reflexivity | ].
    split.
    + pose proof (fixed_real_near 2 (price_path rnd b c 1095)) as N.
      rewrite half_cent in N. exact N.
    + apply fixed_real_nonneg. lra.
  - exact Hfloor.
  - exact D1.
  - exact D2.
  - intros ->. apply D2. unfold b.
    change (base_fraction "solana") with 0.05.
    now apply solana_floor_free.
Qed.

Lemma last_close_of_series_witness :
  let rnd := fun _ : nat => 0.5 in
  let b := 150 * base_fraction "solana" in
  length (generate3YearHistoricalData rnd 0 "solana" (Fin 150)) = 1095%nat
  /\ g_price (gen_run rnd 0 "solana" (Fin 150) 1095)
     = Fin (price_path rnd b 150 1095)
  /\ (exists pt cl,
        nth_error (generate3YearHistoricalData rnd 0 "solana" (Fin 150)) 1094
        = Some pt
        /\ close pt = Fin cl
        /\ cl = fixed_real 2 (price_path rnd b 150 1095)
        /\ Rabs (cl - price_path rnd b 150 1095) <= 0.005
        /\ 0 <= cl)
  /\ b * 0.1 <= price_path rnd b 150 1095
  /\ 150 + drift rnd b 150 1095 <= price_path rnd b 150 1095
  /\ (floor_free rnd b 150 1095 ->
      price_path rnd b 150 1095 = 150 + drift rnd b 150 1095)
  /\ ("solana"%string = "solana"%string ->
      price_path rnd b 150 1095 = 150 + drift rnd b 150 1095).
Proof.
  apply (last_close_of_series (fun _ => 0.5) 0 "solana" 150).
  - right. right. now left.
  - intros k. lra.
  - lra.
Defined.

(** ** Null indicators (C4) *)

Lemma slice_last_map {A B : Type} (f : A -> B) (n : nat) (l : list A) :
  slice_last n (map f l) = map f (slice_last n l).
Proof.
  unfold slice_last. destruct n; [reflexivity | ].
  now rewrite length_map, skipn_map.
Qed.

Lemma slice_last_length {A : Type} (n : nat) (l : list A) :
  (1 <= n <= length l)%nat -> length (slice_last n l) = n.
Proof.
  intros H. unfold slice_last. destruct n; [lia | ].
  rewrite length_skipn. lia.
Qed.

Lemma calculateSMA_fin (ps : list R) (period : nat) :
  (1 <= period)%nat ->
  calculateSMA (map Fin ps) period =
  if (length ps <? period)%nat then None
  else Some (Fin (fold_right Rplus 0 (slice_last period ps) / INR period)).
Proof.
  intros Hp. unfold calculateSMA. rewrite length_map.
  destruct (Nat.ltb_spec (length ps) period); [reflexivity | ].
  rewrite slice_last_map, sum_fin. unfold of_nat.
  rewrite div_fin by (apply INR_pos_neq; lia). reflexivity.
Qed.

Lemma sma_pos (ps : list R) (period : nat) :
  (1 <= period <= length ps)%nat -> Forall (fun p => 0 < p) ps ->
  0 < fold_right Rplus 0 (slice_last period ps) / INR period.
Proof.
  intros Hp H. unfold Rdiv. apply Rmult_lt_0_compat.
  - apply sum_pos.
    + intros E. apply (f_equal (@length R)) in E.
      rewrite slice_last_length in E by assumption. simpl in E. lia.
    + unfold slice_last. destruct period; [assumption | ].
      now apply Forall_split_at.
  - apply Rinv_0_lt_compat, lt_0_INR. lia.
Qed.

Lemma indicator_fields (prices : list num) :
  let ind := fst (indicators_of prices) in
  sma20 ind = field_of 2 (calculateSMA prices 20) (fun v => v)
  /\ sma50 ind = field_of 2 (calculateSMA prices 50) (fun v => v)
  /\ sma200 ind = field_of 2 (calculateSMA prices 200) (fun v => v)
  /\ rsi ind = field_of 2 (calculateRSI prices 14) (fun v => v)
  /\ macd ind = field_of 4 (calculateMACD prices) (fun v => v)
  /\ bollinger_upper ind
     = field_of 2 (calculateSMA prices 20) (fun v => (v * Fin 1.02)%js)
  /\ bollinger_lower ind
     = field_of 2 (calculateSMA prices 20) (fun v => (v * Fin 0.98)%js).
Proof. repeat split. Qed.

Lemma sma_field_null (ps : list R) (period d : nat) (f : num -> num) :
  (1 <= period)%nat -> Forall (fun p => 0 < p) ps ->
  field_of d (calculateSMA (map Fin ps) period) f = None
  <-> (length ps < period)%nat.
Proof.
  intros Hp H. rewrite calculateSMA_fin by assumption.
  destruct (Nat.ltb_spec (length ps) period) as [Hlt | Hge].
  - split; [intros _; assumption | reflexivity].
  - cbn [field_of]. rewrite truthy_pos by (apply sma_pos; [lia | assumption]).
    split; [discriminate | lia].
Qed.

Lemma closes_pos (rnd : nat -> R) (b c : R) (n : nat) :
  0 < b -> Forall (fun p => 0 < p) (closes rnd b c n).
Proof.
  intros Hb. unfold closes. apply Forall_forall. intros x Hx.
  apply in_map_iff in Hx. destruct Hx as (k & <- & _).
  now apply price_path_pos.
Qed.

(** When the indicator fields are null, for every supported symbol and
    positive current price.  At the point of index [i], with the [i + 1]
    closes [ps] so far, the fields [sma20], [sma50], [sma200] and the two
    bands are null exactly below the look-back of their average (20, 50,
    200, 20).  [rsi] is null below 15 closes, and also when none of the last
    14 changes is positive, since the RSI is then 0 or NaN and the test
    [rsi ? ... : null] takes both for a missing value; [macd] is null below
    26 closes, and also when the two averages are equal and the MACD is 0. *)
Lemma indicator_null_guard (rnd : nat -> R) (now : Z) (symbol : string)
    (c : R) (i : nat) (pt : PricePoint) :
  In symbol SUPPORTED_COINS -> 0 < c ->
  nth_error (generate3YearHistoricalData rnd now symbol (Fin c)) i = Some pt ->
  let ps := closes rnd (c * base_fraction symbol) c (S i) in
  (sma20 (indicators pt) = None <-> (i < 19)%nat)
  /\ (sma50 (indicators pt) = None <-> (i + 1 < 50)%nat)
  /\ (sma200 (indicators pt) = None <-> (i + 1 < 200)%nat)
  /\ (bollinger_upper (indicators pt) = None <-> (i + 1 < 20)%nat)
  /\ (bollinger_lower (indicators pt) = None <-> (i + 1 < 20)%nat)
  /\ (rsi (indicators pt) = None <->
      (i + 1 < 15)%nat \/ gain_sum ps 14 = 0)
  /\ (macd (indicators pt) = None <->
      (i + 1 < 26)%nat \/ ema_spec ps 12 = ema_spec ps 26).
Proof.
  intros Hsup Hc E. apply supported_not_inherited in Hsup. cbn zeta.
  assert (Hi : (i < 1095)%nat).
  { assert (Hn : nth_error
                   (generate3YearHistoricalData rnd now symbol (Fin c)) i
                 <> None) by (rewrite E; discriminate).
    apply nth_error_Some in Hn. rewrite series_data in Hn by assumption.
    now rewrite length_map, length_seq in Hn. }
  rewrite series_nth in E by assumption.
  apply (f_equal (fun o => match o with
                           | Some q => indicators q
                           | None => fst (indicators_of [])
                           end)) in E.
  rewrite <- E. unfold series_point. rewrite point_indicators.
  set (b := c * base_fraction symbol).
  destruct (indicator_fields (map Fin (closes rnd b c (S i))))
    as (-> & -> & -> & -> & -> & -> & ->).
  pose proof (closes_pos rnd b c (S i) (base_pos symbol c Hc)) as Hpos.
  pose proof (closes_length rnd b c (S i)) as Hlen.
  fold b in Hpos.
  set (ps := closes rnd b c (S i)) in *.
  split; [ | split; [ | split; [ | split; [ | split; [ | split]]]]].
  - rewrite sma_field_null by (lia || assumption). lia.
  - rewrite sma_field_null by (lia || assumption). lia.
  - rewrite sma_field_null by (lia || assumption). lia.
  - rewrite sma_field_null by (lia || assumption). lia.
  - rewrite sma_field_null by (lia || assumption). lia.
  - destruct (Nat.ltb_spec (i + 1) 15) as [Hlt | Hge].
    + rewrite calculateRSI_short by (rewrite length_map; lia).
      split; [now left | reflexivity].
    + destruct (calculateRSI_cases ps 14)
        as [(Hg & _ & ->) | (r & -> & _ & Hr)]; try lia.
      * cbn [field_of truthy]. split; [now right | reflexivity].
      * cbn [field_of]. destruct (truthy (Fin r)) eqn:T.
        -- apply truthy_fin in T. split; [discriminate | ].
           intros [H | H]; [lia | ]. apply Hr in H. contradiction.
        -- split; [ | reflexivity]. intros _. right. apply Hr.
           destruct (Req_dec_T r 0) as [Hz | Hz]; [exact Hz | ].
           apply truthy_fin in Hz. congruence.
  - rewrite calculateMACD_fin.
    destruct (Nat.ltb_spec (length ps) 26) as [Hlt | Hge].
    + split; [intros _; left; lia | reflexivity].
    + rewrite !truthy_pos by (apply ema_spec_pos; [lia | assumption]).
      cbn [andb field_of].
      destruct (truthy (Fin (ema_spec ps 12 - ema_spec ps 26))) eqn:T.
      * apply truthy_fin in T. split; [discriminate | ].
        intros [H | H]; [lia | lra].
      * split; [ | reflexivity]. intros _. right.
        destruct (Req_dec_T (ema_spec ps 12 - ema_spec ps 26) 0) as [Hz | Hz];
          [lra | ].
        apply truthy_fin in Hz. congruence.
Qed.

Lemma sin_sq_le (y : R) : -1 <= y <= 1 -> sin y * sin y <= y * y.
Proof.
  intros Hy. pose proof PI2_1 as Hpi.
  assert (Hpos : forall z, 0 < z <= 1 -> sin z * sin z <= z * z).
  { intros z Hz.
    assert (0 < sin z) by (apply sin_gt_0; lra).
    assert (sin z < z) by (apply sin_lt_x; lra).
    nra. }
  destruct (Rtotal_order y 0) as [Hn | [-> | Hp]].
  - replace y with (- - y) by lra. rewrite sin_neg.
    specialize (Hpos (- y)). nra.
  - rewrite sin_0. lra.
  - apply Hpos. lra.
Qed.

Lemma cos_lower (d : R) : -2 <= d <= 2 -> 1 - d * d / 2 <= cos d.
Proof.
  intros Hd. replace d with (2 * (d / 2)) at 3 by lra.
  rewrite cos_2a_sin.
  pose proof (sin_sq_le (d / 2)). nra.
Qed.

(** Around three quarters of the first year the seasonal term is below
    [-0.096]: the angle is within [51 / 730 * PI] of [3 * PI / 2]. *)
Lemma seasonal_trough (m : nat) :
  (261 <= m <= 274)%nat -> seasonal m <= -0.096.
Proof.
  intros Hm. assert (261 <= INR m <= 274) by nat_bound.
  unfold seasonal.
  replace (INR m / 365 * 2 * PI)
    with (3 * (PI / 2) - (1095 - 4 * INR m) / 730 * PI) by field.
  rewrite sin_minus, sin_3PI2, cos_3PI2.
  pose proof PI_RGT_0. pose proof PI_4.
  set (d := (1095 - 4 * INR m) / 730 * PI).
  assert (Hd : -0.006 <= d <= 0.28) by (unfold d; split; nra).
  pose proof (cos_lower d). nra.
Qed.

(** While the seasonal term is that low the running price cannot rise, when
    the trend increment is at most 7.1% of the floor (a base price of at
    least 11.4% of the current price: every listed symbol but solana): even
    on a price at the floor the increment is smaller than the loss. *)
Lemma price_decline (rnd : nat -> R) (b c : R) (m : nat) :
  random_source rnd -> 0 < b -> (c - b) / 1095 <= 0.071 * (b * 0.1) ->
  (261 <= m <= 274)%nat ->
  price_path rnd b c (S m) <= price_path rnd b c m.
Proof.
  intros Hrnd Hb Ht Hm. rewrite price_path_S.
  pose proof (price_path_floor rnd b c m (Rlt_le _ _ Hb)) as Hp.
  pose proof (noise_bounds rnd m Hrnd) as Hn.
  pose proof (seasonal_trough m Hm) as Hs.
  set (p := price_path rnd b c m) in *.
  apply Rmax_lub; [ | lra].
  assert (p * (noise rnd m + seasonal m) <= p * - 0.071)
    by (apply Rmult_le_compat_l; lra).
  nra.
Qed.

Lemma field_of_falsy (d : nat) (v : num) (f : num -> num) :
  truthy v = false -> field_of d (Some v) f = None.
Proof. intros H. cbn [field_of]. now rewrite H. Qed.

(** In the bitcoin series the point of index 274 never has an RSI: the last
    14 changes of the close are all non-positive, so the RSI is [0] or NaN,
    which the test [rsi ? ... : null] turns into null. *)
Lemma rsi_null_in_decline (rnd : nat -> R) (now : Z) (c : R) :
  random_source rnd -> 0 < c ->
  exists pt,
    nth_error (generate3YearHistoricalData rnd now "bitcoin" (Fin c)) 274
    = Some pt
    /\ rsi (indicators pt) = None.
Proof.
  intros Hrnd Hc. eexists.
  split; [apply series_nth; [reflexivity | assumption | lia] | ].
  rewrite base_fraction_bitcoin. unfold series_point.
  rewrite point_indicators.
  set (ps := closes rnd (c * 0.15) c 275).
  destruct (indicator_fields (map Fin ps)) as (_ & _ & _ & -> & _).
  assert (Hlen : length ps = 275%nat) by apply closes_length.
  assert (Hgain : gain_sum ps 14 = 0).
  { apply gain_sum_zero. intros j Hj. unfold delta. rewrite Hlen.
    unfold ps. rewrite !closes_nth by lia.
    replace (S (275 - j)) with (S (S (275 - j - 1))) by lia.
    assert (price_path rnd (c * 0.15) c (S (S (275 - j - 1)))
            <= price_path rnd (c * 0.15) c (S (275 - j - 1))); [ | lra].
    apply price_decline; try assumption; try lra; lia. }
  destruct (calculateRSI_cases ps 14) as [(_ & _ & ->) | (r & -> & _ & Hr)];
    try lia; apply field_of_falsy; try reflexivity.
  assert (r = 0) by (now apply Hr). subst r.
  unfold truthy. destruct (Req_dec_T 0 0); [reflexivity | contradiction].
Qed.

(** C4.  The claim fails on the code: in the bitcoin series for 65000 with
    every draw equal to 0.5, the point of index 274, which has 275 closes
    behind it, has a null [rsi].  None of the last 14 changes of the close
    is positive there, so the RSI that [calculateRSI] returns is 0 (NaN had
    the close not moved at all), and the test [rsi ? ... : null], which
    guards against a missing RSI, takes that value for a missing one. *)
Lemma rsi_null_example :
  random_source (fun _ => 0.5)
  /\ exists pt,
    nth_error
      (generate3YearHistoricalData (fun _ => 0.5) 0 "bitcoin" (Fin 65000)) 274
    = Some pt
    /\ rsi (indicators pt) = None
    /\ ~ (rsi (indicators pt) = None <-> (274 + 1 < 15)%nat).
Proof.
  split; [exact half_is_random | ].
  destruct (rsi_null_in_decline (fun _ => 0.5) 0 65000 half_is_random)
    as (pt & E & Hnull); [lra | ].
  exists pt. split; [exact E | split; [exact Hnull | ]].
  intros [H _]. specialize (H Hnull). lia.
Qed.

(** ** The series of a symbol whose base price is not a number *)

Lemma add_NaN_r (x : num) : (x + NaN)%js = NaN.
Proof. now destruct x. Qed.

Lemma sub_NaN_r (x : num) : (x - NaN)%js = NaN.
Proof. now destruct x. Qed.

Lemma div_NaN_r (x : num) : (x / NaN)%js = NaN.
Proof. now destruct x. Qed.

Lemma mul_NaN_r (x : num) : (x * NaN)%js = NaN.
Proof. now destruct x. Qed.

Lemma gtb_NaN_r (x : num) : gtb x NaN = false.
Proof. now destruct x. Qed.

Lemma get_repeat_NaN (n k : nat) : get (repeat NaN n) k = NaN.
Proof. unfold get. apply nth_repeat. Qed.

Lemma fold_add_NaN (l : list num) : fold_left add l NaN = NaN.
Proof. induction l as [| x l IH]; [reflexivity | exact IH]. Qed.

Lemma sum_all_NaN (l : list num) :
  l <> [] -> Forall (fun x => x = NaN) l -> JS.sum l = NaN.
Proof.
  intros Hne H. destruct H as [| x l -> _]; [contradiction | ].
  unfold JS.sum. cbn [fold_left add]. apply fold_add_NaN.
Qed.

Lemma repeat_all_NaN (n : nat) : Forall (fun x => x = NaN) (repeat NaN n).
Proof. apply Forall_forall. intros x H. now apply repeat_spec in H. Qed.

Lemma calculateSMA_NaN (n period : nat) :
  (1 <= period)%nat ->
  calculateSMA (repeat NaN n) period =
  if (n <? period)%nat then None else Some NaN.
Proof.
  intros Hp. unfold calculateSMA. rewrite repeat_length.
  destruct (Nat.ltb_spec n period) as [Hlt | Hge]; [reflexivity | ].
  rewrite sum_all_NaN; [reflexivity | | ].
  - intros E. apply (f_equal (@length num)) in E.
    rewrite slice_last_length in E by (rewrite repeat_length; lia).
    cbn in E. lia.
  - unfold slice_last. destruct period; [lia | ].
    apply Forall_split_at, repeat_all_NaN.
Qed.

Lemma rsi_fold_NaN (n : nat) (idx : list nat) (g : num) :
  fold_left (rsi_step (repeat NaN n)) idx (g, NaN) = (g, NaN).
Proof.
  induction idx as [| i idx IH]; [reflexivity | ].
  cbn [fold_left]. unfold rsi_step at 2. rewrite !get_repeat_NaN.
  cbn [sub neg add gtb]. exact IH.
Qed.

Lemma calculateRSI_NaN (n : nat) :
  calculateRSI (repeat NaN n) 14 =
  if (n <? 15)%nat then None else Some NaN.
Proof.
  unfold calculateRSI. rewrite repeat_length.
  change (14 + 1)%nat with 15%nat.
  destruct (n <? 15)%nat; [reflexivity | ].
  unfold rsi_averages.
  change (seq 1 14) with (1%nat :: seq 2 13). cbn [fold_left].
  unfold rsi_step at 2. rewrite !get_repeat_NaN.
  cbn [sub neg add gtb]. rewrite rsi_fold_NaN.
  rewrite div_NaN_r, div_NaN_r. reflexivity.
Qed.

Lemma ema_fold_NaN (prices : list num) (m : num) (idx : list nat) :
  fold_left (fun ema i => ((get prices i - ema) * m + ema)%js) idx NaN = NaN.
Proof.
  induction idx as [| i idx IH]; [reflexivity | ].
  cbn [fold_left]. rewrite add_NaN_r. exact IH.
Qed.

Lemma calculateEMA_NaN (n period : nat) :
  (1 <= period)%nat ->
  calculateEMA (repeat NaN n) period =
  if (n <? period)%nat then None else Some NaN.
Proof.
  intros Hp. unfold calculateEMA. rewrite repeat_length.
  destruct (Nat.ltb_spec n period) as [Hlt | Hge]; [reflexivity | ].
  rewrite sum_all_NaN.
  - cbn [div]. now rewrite ema_fold_NaN.
  - intros E. apply (f_equal (@length num)) in E.
    rewrite length_firstn, repeat_length in E. cbn in E. lia.
  - apply Forall_split_at, repeat_all_NaN.
Qed.

Lemma calculateMACD_NaN (n : nat) : calculateMACD (repeat NaN n) = None.
Proof.
  unfold calculateMACD. rewrite !calculateEMA_NaN by lia.
  destruct (n <? 12)%nat; [reflexivity | ].
  destruct (n <? 26)%nat; reflexivity.
Qed.

(** On closes that are all NaN every indicator is null and every signal
    neutral. *)
Lemma indicators_NaN (n : nat) :
  indicators_of (repeat NaN n) =
  ({| sma20 := None; sma50 := None; sma200 := None; rsi := None;
      macd := None; bollinger_upper := None; bollinger_lower := None |},
   {| trend := neutral; rsi_signal := rsi_neutral; macd_signal := neutral |}).
Proof.
  unfold indicators_of.
  rewrite !calculateSMA_NaN by lia. rewrite calculateRSI_NaN, calculateMACD_NaN.
  destruct (n <? 20)%nat; destruct (n <? 50)%nat; destruct (n <? 200)%nat;
    destruct (n <? 15)%nat; reflexivity.
Qed.

(** The loop on a symbol whose base price is not a number: the running
    price is NaN from the first day on. *)
Lemma gen_run_NaN (rnd : nat -> R) (now : Z) (symbol : string) (cp : num)
    (n : nat) :
  inherited symbol = true ->
  g_price (gen_run rnd now symbol cp n) = NaN
  /\ g_prices (gen_run rnd now symbol cp n) = repeat NaN n
  /\ g_draws (gen_run rnd now symbol cp n) = (5 * n)%nat
  /\ g_data (gen_run rnd now symbol cp n) = map (nan_point rnd now) (seq 0 n).
Proof.
  intros Hs. induction n as [| n (Hp & Hps & Hk & Hd)].
  - unfold gen_run. cbn [seq fold_left g_price g_prices g_draws g_data map].
    rewrite basePrice_inherited by assumption.
    split; [reflexivity | ]. split; [reflexivity | ]. split; reflexivity.
  - rewrite gen_run_S, basePrice_inherited by assumption.
    unfold day_step, day_price, Math_random. rewrite Hp, Hps, Hk.
    assert (next_price cp NaN NaN (Fin (rnd (5 * n)%nat)) n = NaN) as ->.
    { unfold next_price. rewrite sub_NaN_r. reflexivity. }
    cbn [Math_max]. rewrite <- repeat_cons.
    change (NaN :: repeat NaN n) with (repeat NaN (S n)).
    replace (S (5 * n)) with (5 * n + 1)%nat by lia.
    pose proof (day_point_draws rnd now NaN (repeat NaN (S n)) n (5 * n + 1))
      as Hdr.
    fold (nan_point rnd now n).
    destruct (day_point rnd now NaN (repeat NaN (S n)) n (5 * n + 1))
      as [pt k] eqn:E.
    cbn [g_price g_prices g_draws g_data]. cbn [snd] in Hdr.
    split; [reflexivity | ]. split; [reflexivity | ]. split; [lia | ].
    rewrite Hd, seq_S, map_app. cbn [map Nat.add].
    unfold nan_point. rewrite E. reflexivity.
Qed.

Lemma series_NaN_data (rnd : nat -> R) (now : Z) (symbol : string)
    (cp : num) :
  inherited symbol = true ->
  generate3YearHistoricalData rnd now symbol cp =
  map (nan_point rnd now) (seq 0 1095).
Proof.
  intros Hs. unfold generate3YearHistoricalData.
  now destruct (gen_run_NaN rnd now symbol cp 1095 Hs) as (_ & _ & _ & ->).
Qed.

Lemma series_NaN (rnd : nat -> R) (now : Z) (symbol : string) (cp : num)
    (pt : PricePoint) :
  inherited symbol = true ->
  In pt (generate3YearHistoricalData rnd now symbol cp) ->
  exists i, (i < 1095)%nat /\ pt = nan_point rnd now i.
Proof.
  intros Hs H. rewrite series_NaN_data in H by assumption.
  apply in_map_iff in H. destruct H as (i & <- & Hi).
  apply in_seq in Hi. exists i. split; [lia | reflexivity].
Qed.

Lemma inherited_cases (symbol : string) :
  inherited symbol = true \/ inherited symbol = false.
Proof. destruct (inherited symbol); auto. Qed.

(** ** Range of the RSI (C7) *)

(** The claim as stated fails for the function itself: on 15 equal closes
    the result is NaN, which is not null and is not a number of [[0, 100]]. *)
Lemma rsi_nan_example :
  calculateRSI
    (map Fin [100; 100; 100; 100; 100; 100; 100; 100; 100; 100; 100; 100;
              100; 100; 100]) 14
  = Some NaN
  /\ ~ in_0_100 NaN.
Proof.
  split; [ | simpl; tauto].
  rewrite calculateRSI_fin by (simpl; lia).
  assert (Hd : forall i, (1 <= i <= 14)%nat ->
            delta [100; 100; 100; 100; 100; 100; 100; 100; 100; 100; 100;
                   100; 100; 100; 100] i = 0).
  { intros i Hi.
    do 15 (destruct i as [| i]; [try lia; unfold delta; simpl; lra | ]). lia. }
  rewrite gain_sum_zero by (intros i Hi; rewrite (Hd i Hi); lra).
  rewrite loss_sum_zero by (intros i Hi; rewrite (Hd i Hi); lra).
  rewrite avg_zero. apply f_equal, rsi_value_flat.
Qed.

Lemma fixed_real_100 : fixed_real 2 100 = 100.
Proof. rewrite (fixed_real_eval 2 _ 10000) by (simpl; lra). simpl. lra. Qed.

Lemma rsi_field_range (ps : list R) :
  rsi_field_ok (field_of 2 (calculateRSI (map Fin ps) 14) (fun v => v)).
Proof.
  destruct (Nat.ltb_spec (length ps) 15) as [Hlt | Hge].
  - rewrite calculateRSI_short by (rewrite length_map; lia). exact I.
  - destruct (calculateRSI_cases ps 14) as [(_ & _ & ->) | (r & -> & Hr & _)];
      try lia; cbn [field_of].
    + exact I.
    + destruct (truthy (Fin r)); [ | exact I].
      rewrite toFixed_fin. cbn [rsi_field_ok in_0_100].
      pose proof (fixed_real_mono 2 0 r) as H0.
      pose proof (fixed_real_mono 2 r 100) as H1.
      rewrite fixed_real_0 in H0. rewrite fixed_real_100 in H1.
      split; [apply H0 | apply H1]; lra.
Qed.

(** C7 (amended).  On finite closes, wherever the value of [calculateRSI]
    for period 14 is a number (neither null nor NaN), it lies between 0 and
    100; wherever the [rsi] field of a point of a generated series is not
    null, it is a number between 0 and 100. *)
Theorem rsi_range (ps : list R) (rnd : nat -> R) (now : Z) (symbol : string)
    (c : R) :
  0 < c ->
  rsi_result_ok (calculateRSI (map Fin ps) 14)
  /\ Forall (fun pt => rsi_field_ok (rsi (indicators pt)))
       (generate3YearHistoricalData rnd now symbol (Fin c)).
Proof.
  intros Hc. split.
  - destruct (Nat.ltb_spec (length ps) 15) as [Hlt | Hge].
    + rewrite calculateRSI_short by (rewrite length_map; lia). exact I.
    + destruct (calculateRSI_cases ps 14)
        as [(_ & _ & ->) | (r & -> & Hr & _)]; try lia.
      * now left.
      * right. exact Hr.
  - apply Forall_forall. intros pt Hin.
    destruct (inherited_cases symbol) as [Hs | Hs].
    { apply (series_NaN rnd now symbol (Fin c) pt Hs) in Hin.
      destruct Hin as (i & _ & ->). unfold nan_point.
      rewrite point_indicators, indicators_NaN. exact I. }
    apply series_In in Hin; [ | assumption | assumption].
    destruct Hin as (i & Hi & ->).
    unfold series_point. rewrite point_indicators.
    destruct (indicator_fields
                (map Fin (closes rnd (c * base_fraction symbol) c (S i))))
      as (_ & _ & _ & -> & _).
    apply rsi_field_range.
Qed.

Lemma rsi_range_witness :
  rsi_result_ok (calculateRSI (map Fin [3; 1; 4; 1; 5]) 14)
  /\ Forall (fun pt => rsi_field_ok (rsi (indicators pt)))
       (generate3YearHistoricalData (fun _ => 0.5) 0 "bitcoin" (Fin 65000)).
Proof. apply (rsi_range [3; 1; 4; 1; 5] (fun _ => 0.5) 0 "bitcoin" 65000). lra. Defined.

(** ** The prediction loop *)

Lemma predict_run_S (rnd : nat -> R) (now : Z) (cp : num)
    (hist : list PricePoint) (n : nat) :
  predict_run rnd now cp hist (S n) =
  predict_step rnd now cp (avgChange_of hist) (predict_run rnd now cp hist n)
    (S n).
Proof. unfold predict_run. now rewrite seq_S, fold_left_app. Qed.

(** The loop makes one draw a step and pushes the point of the step, built
    from the price the step has reached. *)
Lemma predict_run_data (rnd : nat -> R) (now : Z) (cp : num)
    (hist : list PricePoint) (n : nat) :
  s_draws (predict_run rnd now cp hist n) = n
  /\ s_predictions (predict_run rnd now cp hist n) =
     map (fun i => predict_point now cp (avgChange_of hist)
                     (s_price (predict_run rnd now cp hist i)) i)
       (seq 1 n).
Proof.
  induction n as [| n [IHd IHp]].
  - split; reflexivity.
  - rewrite predict_run_S. unfold predict_step, Math_random.
    cbn [s_draws s_predictions s_price]. split; [now rewrite IHd | ].
    rewrite IHp, seq_S, map_app. cbn [map Nat.add]. f_equal. f_equal.
    f_equal. rewrite predict_run_S. unfold predict_step, Math_random.
    reflexivity.
Qed.

Lemma predictions_nth (rnd : nat -> R) (now : Z) (symbol : string) (cp : num)
    (hist : list PricePoint) (i : nat) :
  (1 <= i <= 30)%nat ->
  nth_error (generateFuturePredictions rnd now symbol cp hist) (i - 1) =
  Some (predict_point now cp (avgChange_of hist)
          (s_price (predict_run rnd now cp hist i)) i).
Proof.
  intros Hi. unfold generateFuturePredictions.
  destruct (predict_run_data rnd now cp hist 30) as (_ & ->).
  rewrite nth_error_map, nth_error_seq.
  destruct (Nat.ltb_spec (i - 1) 30); [ | lia].
  replace (1 + (i - 1))%nat with i by lia. reflexivity.
Qed.

(** ** Confidence (C3, C8) *)

Lemma confidence_value (i : nat) :
  (i <= 45)%nat ->
  toFixed 2 (confidence_of i) = Fin (0.95 - 0.01 * INR i).
Proof.
  intros Hi. unfold confidence_of, of_nat. cbn [mul sub neg add Math_max].
  assert (Hle : INR i <= 45) by nat_bound.
  pose proof (pos_INR i) as Hpos.
  rewrite Rmax_right by lra. rewrite toFixed_fin. apply Fin_eq.
  replace (0.95 + - (INR i * 0.01)) with (IZR (95 - Z.of_nat i) / 10 ^ 2)
    by (rewrite minus_IZR, <- INR_lit; simpl; lra).
  rewrite fixed_real_exact.
  - rewrite minus_IZR, <- INR_lit. simpl. lra.
  - rewrite minus_IZR, <- INR_lit. apply Rabs_def1; simpl; lra.
Qed.

Lemma prediction_confidence (rnd : nat -> R) (now : Z) (symbol : string)
    (cp : num) (hist : list PricePoint) (i : nat) :
  (1 <= i <= 30)%nat ->
  exists pt,
    nth_error (generateFuturePredictions rnd now symbol cp hist) (i - 1)
    = Some pt
    /\ confidence pt = toFixed 2 (confidence_of i)
    /\ confidence pt = Fin (0.95 - 0.01 * INR i).
Proof.
  intros Hi. eexists. split; [now apply predictions_nth | ].
  cbn [predict_point confidence]. split; [reflexivity | ].
  apply confidence_value. lia.
Qed.

(** The claim as stated fails at its last step: the 30th prediction has
    confidence [0.95 - 0.30 = 0.65], not the floor 0.5. *)
Lemma last_confidence_example :
  random_source (fun _ => 0.5)
  /\ exists pt,
    nth_error
      (generateFuturePredictions (fun _ => 0.5) 0 "bitcoin" (Fin 65000)
         (generate3YearHistoricalData (fun _ => 0.5) 0 "bitcoin" (Fin 65000)))
      29
    = Some pt
    /\ confidence pt = Fin 0.65
    /\ confidence pt <> Fin 0.5.
Proof.
  split; [exact half_is_random | ].
  destruct (prediction_confidence (fun _ => 0.5) 0 "bitcoin" (Fin 65000)
              (generate3YearHistoricalData (fun _ => 0.5) 0 "bitcoin"
                 (Fin 65000)) 30) as (pt & E & _ & Hc); [lia | ].
  assert (Hv : confidence pt = Fin 0.65).
  { rewrite Hc. apply Fin_eq. rewrite INR_lit. simpl. lra. }
  exists pt. split; [exact E | split; [exact Hv | ]].
  rewrite Hv. intros H. apply Fin_inj in H. lra.
Qed.

(** C3 (amended).  In every run the confidence of step [i] (from 1 to 30) is
    [max(0.5, 0.95 - 0.01 * i)] rounded to two decimals, that is
    [0.95 - 0.01 * i]: 0.94 at the first step and 0.65 at the 30th.  The floor
    0.5 is not reached within the 30 steps. *)
Theorem confidence_decay (rnd : nat -> R) (now : Z) (symbol : string)
    (cp : num) (hist : list PricePoint) (i : nat) :
  (1 <= i <= 30)%nat ->
  exists pt,
    nth_error (generateFuturePredictions rnd now symbol cp hist) (i - 1)
    = Some pt
    /\ confidence pt
       = toFixed 2 (Math_max (Fin 0.5) (Fin 0.95 - of_nat i * Fin 0.01)%js)
    /\ confidence pt = Fin (0.95 - 0.01 * INR i)
    /\ (i = 1%nat -> confidence pt = Fin 0.94)
    /\ (i = 30%nat -> confidence pt = Fin 0.65)
    /\ confidence pt <> Fin 0.5.
Proof.
  intros Hi.
  destruct (prediction_confidence rnd now symbol cp hist i Hi)
    as (pt & E & Hdef & Hc).
  exists pt. split; [exact E | split; [exact Hdef | split; [exact Hc | ]]].
  assert (Hle : 1 <= INR i <= 30) by nat_bound.
  split; [ | split].
  - intros ->. rewrite Hc. apply Fin_eq. simpl. lra.
  - intros ->. rewrite Hc. apply Fin_eq. rewrite INR_lit. simpl. lra.
  - rewrite Hc. intros H. apply Fin_inj in H. lra.
Qed.

Lemma confidence_decay_witness :
  exists pt,
    nth_error (generateFuturePredictions (fun _ => 0.5) 0 "bitcoin"
                 (Fin 65000) falling_history) (1 - 1)
    = Some pt
    /\ confidence pt
       = toFixed 2 (Math_max (Fin 0.5) (Fin 0.95 - of_nat 1 * Fin 0.01)%js)
    /\ confidence pt = Fin (0.95 - 0.01 * INR 1)
    /\ (1%nat = 1%nat -> confidence pt = Fin 0.94)
    /\ (1%nat = 30%nat -> confidence pt = Fin 0.65)
    /\ confidence pt <> Fin 0.5.
Proof.
  apply (confidence_decay (fun _ => 0.5) 0 "bitcoin" (Fin 65000)
           falling_history 1).
  lia.
Defined.

(** C8.  In every run the confidence values of the 30 predictions are
    strictly decreasing in the horizon index: a later prediction has a
    strictly smaller confidence than an earlier one. *)
Theorem confidence_strictly_decreasing (rnd : nat -> R) (now : Z)
    (symbol : string) (cp : num) (hist : list PricePoint) (i j : nat) :
  (i < j < 30)%nat ->
  exists pa pb x y,
    nth_error (generateFuturePredictions rnd now symbol cp hist) i = Some pa
    /\ nth_error (generateFuturePredictions rnd now symbol cp hist) j = Some pb
    /\ confidence pa = Fin x /\ confidence pb = Fin y /\ y < x.
Proof.
  intros Hij.
  destruct (prediction_confidence rnd now symbol cp hist (S i))
    as (pa & Ea & _ & Ha); [lia | ].
  destruct (prediction_confidence rnd now symbol cp hist (S j))
    as (pb & Eb & _ & Hb); [lia | ].
  replace (S i - 1)%nat with i in Ea by lia.
  replace (S j - 1)%nat with j in Eb by lia.
  exists pa, pb, (0.95 - 0.01 * INR (S i)), (0.95 - 0.01 * INR (S j)).
  repeat split; try assumption.
  assert (INR (S i) < INR (S j)) by (apply lt_INR; lia). lra.
Qed.

Lemma confidence_strictly_decreasing_witness :
  exists pa pb x y,
    nth_error (generateFuturePredictions (fun _ => 0.5) 0 "bitcoin"
                 (Fin 65000) falling_history) 3 = Some pa
    /\ nth_error (generateFuturePredictions (fun _ => 0.5) 0 "bitcoin"
                    (Fin 65000) falling_history) 4 = Some pb
    /\ confidence pa = Fin x /\ confidence pb = Fin y /\ y < x.
Proof.
  apply (confidence_strictly_decreasing (fun _ => 0.5) 0 "bitcoin"
           (Fin 65000) falling_history 3 4).
  lia.
Defined.

(** ** The uncertainty band (C6) *)

Lemma totalChange_fin (a u : R) (i : nat) :
  totalChange_of (Fin a) (Fin u) i =
  Fin (a * 0.3 + sin (INR i / 30 * 2 * PI) * 0.02 + (u - 0.5) * 0.03
       + -0.0001 * INR i).
Proof.
  unfold totalChange_of, of_nat, Math_PI. rewrite div_fin by lra. reflexivity.
Qed.

Lemma pred_path_S (rnd : nat -> R) (a c : R) (k : nat) :
  pred_path rnd a c (S k) =
  pred_path rnd a c k * (1 + total_change rnd a (S k)).
Proof. reflexivity. Qed.

(** On a finite current price and a finite average change the running
    predicted price follows [pred_path]. *)
Lemma predict_run_fin (rnd : nat -> R) (now : Z) (c a : R)
    (hist : list PricePoint) (n : nat) :
  avgChange_of hist = Fin a ->
  s_price (predict_run rnd now (Fin c) hist n) = Fin (pred_path rnd a c n).
Proof.
  intros Ha. induction n as [| n IH]; [reflexivity | ].
  rewrite predict_run_S. unfold predict_step, Math_random.
  cbn [s_price]. rewrite IH, Ha, totalChange_fin.
  destruct (predict_run_data rnd now (Fin c) hist n) as (-> & _).
  rewrite pred_path_S. unfold total_change.
  replace (S n - 1)%nat with n by lia. reflexivity.
Qed.

Lemma band_fields (now : Z) (lastPrice avgChange : num) (p : R) (i : nat) :
  let pt := predict_point now lastPrice avgChange (Fin p) i in
  predictedPrice pt = Fin (fixed_real 2 p)
  /\ range_high pt = Fin (fixed_real 2 (p + p * 0.1 * (INR i / 30)))
  /\ range_low pt = Fin (fixed_real 2 (p - p * 0.1 * (INR i / 30))).
Proof.
  cbn [predict_point predictedPrice range_high range_low].
  unfold volatilityBand_of, of_nat. rewrite div_fin by lra.
  cbn [mul add sub neg]. rewrite !toFixed_fin. repeat split.
Qed.

Lemma avgChange_falling : avgChange_of falling_history = Fin (-0.2).
Proof.
  unfold avgChange_of, falling_history, slice_last, get, of_nat.
  cbn [length Nat.sub skipn map close flat_point seq fold_left Nat.eqb nth
       Nat.add sub neg add].
  rewrite div_fin by lra. cbn [add INR].
  rewrite div_fin by lra. apply Fin_eq.
  replace (1 + 1 + - (1)) with 1 by lra. lra.
Qed.

(** With the history [falling_history] and every draw equal to 0.5, each
    step multiplies the price by a factor between 0.9 and 1. *)
Lemma falling_change (i : nat) :
  (1 <= i <= 30)%nat ->
  -0.1 <= total_change (fun _ => 0.5) (-0.2) i <= 0.
Proof.
  intros Hi. unfold total_change.
  pose proof (SIN_bound (INR i / 30 * 2 * PI)).
  assert (1 <= INR i <= 30) by nat_bound.
  lra.
Qed.

Lemma falling_price_lower (n : nat) :
  (n <= 30)%nat ->
  65000 * 0.9 ^ n <= pred_path (fun _ => 0.5) (-0.2) 65000 n.
Proof.
  induction n as [| n IH]; intros Hn.
  - change (pred_path (fun _ => 0.5) (-0.2) 65000 0) with 65000. simpl. lra.
  - rewrite pred_path_S. specialize (IH ltac:(lia)).
    pose proof (falling_change (S n) ltac:(lia)).
    assert (0 < 0.9 ^ n) by (apply pow_lt; lra).
    simpl pow. nra.
Qed.

(** The claim as stated fails: with the history [falling_history] (an average
    change of -20% a day) and every draw equal to 0.5, the band of the 30th
    prediction is narrower than the band of the 29th. *)
Lemma band_narrows_example :
  random_source (fun _ => 0.5)
  /\ exists pa pb ha la hb lb,
    nth_error (generateFuturePredictions (fun _ => 0.5) 0 "bitcoin"
                 (Fin 65000) falling_history) 28 = Some pa
    /\ nth_error (generateFuturePredictions (fun _ => 0.5) 0 "bitcoin"
                    (Fin 65000) falling_history) 29 = Some pb
    /\ range_high pa = Fin ha /\ range_low pa = Fin la
    /\ range_high pb = Fin hb /\ range_low pb = Fin lb
    /\ hb - lb < ha - la.
Proof.
  split; [exact half_is_random | ].
  pose proof (predictions_nth (fun _ => 0.5) 0 "bitcoin" (Fin 65000)
                falling_history 29 ltac:(lia)) as Ea.
  pose proof (predictions_nth (fun _ => 0.5) 0 "bitcoin" (Fin 65000)
                falling_history 30 ltac:(lia)) as Eb.
  rewrite (predict_run_fin _ _ _ _ _ 29 avgChange_falling) in Ea.
  rewrite (predict_run_fin _ _ _ _ _ 30 avgChange_falling) in Eb.
  change (29 - 1)%nat with 28%nat in Ea. change (30 - 1)%nat with 29%nat in Eb.
  rewrite (pred_path_S _ _ _ 29) in Eb.
  set (p := pred_path (fun _ => 0.5) (-0.2) 65000 29) in *.
  assert (Hp : 3000 <= p).
  { pose proof (falling_price_lower 29 ltac:(lia)) as H. fold p in H.
    assert (0.046 <= 0.9 ^ 29) by (simpl; lra). lra. }
  assert (Htc : total_change (fun _ => 0.5) (-0.2) 30 = -0.063).
  { unfold total_change. rewrite (INR_lit 30).
    change (IZR (Z.of_nat 30)) with 30.
    replace (30 / 30 * 2 * PI) with (2 * PI) by lra. rewrite sin_2PI. lra. }
  rewrite Htc in Eb.
  destruct (band_fields 0 (Fin 65000) (avgChange_of falling_history) p 29)
    as (_ & Hha & Hla).
  destruct (band_fields 0 (Fin 65000) (avgChange_of falling_history)
              (p * (1 + -0.063)) 30) as (_ & Hhb & Hlb).
  do 6 eexists.
  split; [exact Ea | split; [exact Eb | ]].
  split; [exact Hha | split; [exact Hla | split; [exact Hhb | split;
    [exact Hlb | ]]]].
  rewrite (INR_lit 29), (INR_lit 30).
  change (IZR (Z.of_nat 29)) with 29. change (IZR (Z.of_nat 30)) with 30.
  pose proof (fixed_real_near 2 (p + p * 0.1 * (29 / 30))) as N1.
  pose proof (fixed_real_near 2 (p - p * 0.1 * (29 / 30))) as N2.
  pose proof (fixed_real_near 2
                (p * (1 + -0.063) + p * (1 + -0.063) * 0.1 * (30 / 30))) as N3.
  pose proof (fixed_real_near 2
                (p * (1 + -0.063) - p * (1 + -0.063) * 0.1 * (30 / 30))) as N4.
  rewrite half_cent in N1, N2, N3, N4.
  apply Rabs_bounds in N1, N2, N3, N4. lra.
Qed.

(** C6 (amended).  In every run and at every step [i] (from 1 to 30) the
    half-width of the band is [price * 0.1 * (i / 30)], where [price] is the
    running predicted price of the step before rounding: [range.high] and
    [range.low] are [price] plus and minus that half-width, rounded to two
    decimals.  For a finite non-negative price the width
    [range.high - range.low] is therefore not negative and within 0.01 of
    [2 * price * 0.1 * (i / 30)]; it follows the price as well as [i], and is
    not monotone in [i]. *)
Theorem band_half_width (rnd : nat -> R) (now : Z) (symbol : string)
    (cp : num) (hist : list PricePoint) (i : nat) :
  (1 <= i <= 30)%nat ->
  let price := s_price (predict_run rnd now cp hist i) in
  let volatilityBand := (price * Fin 0.1 * (of_nat i / Fin 30))%js in
  exists pt,
    nth_error (generateFuturePredictions rnd now symbol cp hist) (i - 1)
    = Some pt
    /\ predictedPrice pt = toFixed 2 price
    /\ range_high pt = toFixed 2 (price + volatilityBand)%js
    /\ range_low pt = toFixed 2 (price - volatilityBand)%js
    /\ forall p, price = Fin p -> 0 <= p ->
       exists lo hi,
         range_low pt = Fin lo /\ range_high pt = Fin hi /\ lo <= hi
         /\ Rabs (hi - lo - 2 * (p * 0.1 * (INR i / 30))) <= 0.01.
Proof.
  intros Hi. cbn zeta. eexists. split; [now apply predictions_nth | ].
  split; [reflexivity | split; [reflexivity | split; [reflexivity | ]]].
  intros p Hp Hpos. rewrite Hp.
  destruct (band_fields now cp (avgChange_of hist) p i) as (_ & Hh & Hl).
  do 2 eexists. split; [exact Hl | split; [exact Hh | ]].
  assert (0 <= INR i / 30).
  { pose proof (pos_INR i). lra. }
  assert (0 <= p * 0.1 * (INR i / 30)) by nra.
  split.
  - apply fixed_real_mono. lra.
  - pose proof (fixed_real_near 2 (p + p * 0.1 * (INR i / 30))) as N1.
    pose proof (fixed_real_near 2 (p - p * 0.1 * (INR i / 30))) as N2.
    rewrite half_cent in N1, N2. apply Rabs_bounds in N1, N2.
    apply Rabs_le. lra.
Qed.

Lemma band_half_width_witness :
  let price :=
    s_price (predict_run (fun _ => 0.5) 0 (Fin 65000) falling_history 30) in
  let volatilityBand := (price * Fin 0.1 * (of_nat 30 / Fin 30))%js in
  exists pt,
    nth_error (generateFuturePredictions (fun _ => 0.5) 0 "bitcoin"
                 (Fin 65000) falling_history) (30 - 1)
    = Some pt
    /\ predictedPrice pt = toFixed 2 price
    /\ range_high pt = toFixed 2 (price + volatilityBand)%js
    /\ range_low pt = toFixed 2 (price - volatilityBand)%js
    /\ forall p, price = Fin p -> 0 <= p ->
       exists lo hi,
         range_low pt = Fin lo /\ range_high pt = Fin hi /\ lo <= hi
         /\ Rabs (hi - lo - 2 * (p * 0.1 * (INR 30 / 30))) <= 0.01.
Proof.
  apply (band_half_width (fun _ => 0.5) 0 "bitcoin" (Fin 65000)
           falling_history 30).
  lia.
Defined.

(** * The trading routes *)

(** ** One order *)

Lemma includes_In (x : string) (arr : list string) :
  includes x arr = true <-> In x arr.
Proof.
  unfold includes. rewrite existsb_exists. split.
  - intros (y & Hy & E). apply String.eqb_eq in E. now subst.
  - intros H. exists x. split; [exact H | apply String.eqb_refl].
Qed.

Lemma includes_not_In (x : string) (arr : list string) :
  includes x arr = false <-> ~ In x arr.
Proof.
  rewrite <- includes_In. destruct (includes x arr); split; intros H;
    try reflexivity; try discriminate; try (intros H'; discriminate).
  exfalso. now apply H.
Qed.

Lemma string_of_Some (f : Field) (s : string) :
  string_of f = Some s <-> f = Given (Str s).
Proof.
  split; [ | now intros ->].
  destruct f as [[] | ]; try discriminate. cbn. congruence.
Qed.

Lemma plus_numbers (cv : Conversions) (x y : num) :
  plus cv (Num x) (Num y) = Num (x + y)%js.
Proof. reflexivity. Qed.

Lemma plus_strings (cv : Conversions) (a b : string) :
  plus cv (Str a) (Str b) = Str (String.append a b).
Proof. reflexivity. Qed.

(** What an order does to the account: nothing, or it appends one trade
    and, for a buy the balance covers, debits the balance and updates the
    portfolio. *)
Lemma order_step (cv : Conversions) (prices : Prices) (now : Z)
    (body : OrderBody) (st : Account) :
  let st' := snd (trading_order cv prices now body st) in
  st' = st
  \/ exists symbol quantity t,
       o_symbol body = Given (Str symbol)
       /\ includes symbol SUPPORTED_COINS = true
       /\ o_quantity body = Given quantity
       /\ trades st' = trades st ++ [t]
       /\ t_type t = o_type body
       /\ t_totalValue t =
          (ToNumber cv quantity * current_price prices symbol)%js
       /\ t_fees t =
          (ToNumber cv quantity * current_price prices symbol * Fin 0.001)%js
       /\ ((is_buy (o_type body) = true
            /\ ltb (balance st)
                 (ToNumber cv quantity * current_price prices symbol
                  + ToNumber cv quantity * current_price prices symbol
                    * Fin 0.001)%js = false
            /\ balance st' =
               (balance st
                - (ToNumber cv quantity * current_price prices symbol
                   + ToNumber cv quantity * current_price prices symbol
                     * Fin 0.001))%js
            /\ portfolio st' =
               buy_into cv symbol quantity (current_price prices symbol)
                 (ToNumber cv quantity * current_price prices symbol)%js
                 (portfolio st))
           \/ (is_buy (o_type body) = false
               /\ balance st' = balance st /\ portfolio st' = portfolio st)).
Proof.
  cbn zeta. unfold trading_order.
  destruct (string_of (o_symbol body)) as [symbol | ] eqn:Es; [ | now left].
  apply string_of_Some in Es.
  destruct (includes symbol SUPPORTED_COINS) eqn:Hi; cbn [negb]; [ | now left].
  destruct (o_quantity body) as [quantity | ] eqn:Eq; [ | now left].
  destruct (is_buy (o_type body)) eqn:Eb; cbn [andb].
  - destruct (ltb (balance st) _) eqn:El; [now left | ].
    right. exists symbol, quantity.
    destruct (string_of (o_type body));
      cbn [snd balance portfolio trades];
      (eexists; split; [exact Es | ]; split; [exact Hi | ];
       split; [reflexivity | ]; split; [reflexivity | ];
       cbn [t_type t_fees t_totalValue];
       split; [reflexivity | ]; split; [reflexivity | ];
       split; [reflexivity | ]; left;
       split; [reflexivity | ]; split; [exact El | ]; split; reflexivity).
  - right. exists symbol, quantity.
    destruct (string_of (o_type body));
      cbn [snd balance portfolio trades];
      (eexists; split; [exact Es | ]; split; [exact Hi | ];
       split; [reflexivity | ]; split; [reflexivity | ];
       cbn [t_type t_fees t_totalValue];
       split; [reflexivity | ]; split; [reflexivity | ];
       split; [reflexivity | ]; right;
       split; [reflexivity | ]; split; reflexivity).
Qed.

(** X1.  An order answered with status 400 (a symbol that is not one of the
    supported coins, or a buy the balance does not cover) leaves the
    balance, the portfolio and the list of trades as they were, and so does
    the 500 answered when the quantity is an object that cannot be
    converted to a number; every other answer, the 500 answered when [type]
    is not a string included, has appended exactly one trade. *)
Theorem order_rejected_keeps_account (cv : Conversions) (prices : Prices)
    (now : Z) (body : OrderBody) (st : Account) :
  match fst (trading_order cv prices now body st) with
  | OrderInvalidSymbol | OrderInsufficient _ _ | OrderFailed CannotConvert =>
      snd (trading_order cv prices now body st) = st
  | OrderExecuted t _ _ =>
      trades (snd (trading_order cv prices now body st)) = trades st ++ [t]
  | OrderFailed NoCharAt =>
      exists t,
        trades (snd (trading_order cv prices now body st)) = trades st ++ [t]
  end.
Proof.
  unfold trading_order.
  destruct (string_of (o_symbol body)) as [symbol | ]; [ | reflexivity].
  destruct (includes symbol SUPPORTED_COINS); cbn [negb]; [ | reflexivity].
  destruct (o_quantity body) as [quantity | ]; [ | reflexivity].
  destruct (is_buy (o_type body) && _); [reflexivity | ].
  destruct (string_of (o_type body)) as [t | ]; cbn [fst snd trades].
  - destruct (is_buy (o_type body)); reflexivity.
  - eexists. destruct (is_buy (o_type body)); reflexivity.
Qed.

(** X2.  A buy of a supported coin, with a quantity that converts to the
    finite number [q], a finite price [p] and a finite balance [B]: when [B]
    is below the cost [q * p] plus the 0.1 percent fee the answer is 400
    with the required and the available amounts and nothing changes;
    otherwise the order is executed, and the balance, in the account and in
    the answer, is [B] less the cost and the fee. *)
Theorem order_buy_affordability (cv : Conversions) (prices : Prices) (now : Z)
    (body : OrderBody) (st : Account) (symbol : string) (quantity : Value)
    (q p B : R) :
  o_symbol body = Given (Str symbol) ->
  includes symbol SUPPORTED_COINS = true ->
  o_type body = Given (Str "buy") ->
  o_quantity body = Given quantity -> ToNumber cv quantity = Fin q ->
  current_price prices symbol = Fin p ->
  balance st = Fin B ->
  let needed := q * p + q * p * 0.001 in
  (B < needed ->
   trading_order cv prices now body st =
   (OrderInsufficient (Fin needed) (Fin B), st))
  /\ (needed <= B ->
      balance (snd (trading_order cv prices now body st)) = Fin (B - needed)
      /\ exists t hs,
           fst (trading_order cv prices now body st) =
           OrderExecuted t (Fin (B - needed)) hs
           /\ t_totalValue t = Fin (q * p) /\ t_fees t = Fin (q * p * 0.001)).
Proof.
  intros Hs Hi Ht Hq Hn Hp HB needed. unfold trading_order.
  rewrite Hs, Ht, Hq. cbn [string_of]. rewrite Hi, Hn, Hp, HB.
  cbn [negb is_buy string_of String.eqb Ascii.eqb Bool.eqb andb mul add].
  fold needed. split.
  - intros Hlt. unfold ltb.
    destruct (gtb (Fin needed) (Fin B)) eqn:E; [reflexivity | ].
    apply gtb_fin_false in E. lra.
  - intros Hle. unfold ltb.
    destruct (gtb (Fin needed) (Fin B)) eqn:E.
    + apply gtb_fin in E. lra.
    + cbn [snd fst balance portfolio sub neg add]. split.
      * apply Fin_eq. lra.
      * eexists. eexists. split.
        -- reflexivity.
        -- cbn [t_totalValue t_fees]. split; reflexivity.
Qed.

Lemma order_buy_affordability_witness :
  let body := buy_order "bitcoin" (Num (Fin 2)) in
  (1000000000 < 2 * 1000 + 2 * 1000 * 0.001 ->
   trading_order example_conversions [] 0 body initial_account =
   (OrderInsufficient (Fin (2 * 1000 + 2 * 1000 * 0.001)) (Fin 1000000000),
    initial_account))
  /\ (2 * 1000 + 2 * 1000 * 0.001 <= 1000000000 ->
      balance (snd (trading_order example_conversions [] 0 body
                      initial_account)) =
      Fin (1000000000 - (2 * 1000 + 2 * 1000 * 0.001))
      /\ exists t hs,
           fst (trading_order example_conversions [] 0 body initial_account) =
           OrderExecuted t (Fin (1000000000 - (2 * 1000 + 2 * 1000 * 0.001))) hs
           /\ t_totalValue t = Fin (2 * 1000)
           /\ t_fees t = Fin (2 * 1000 * 0.001)).
Proof.
  apply (order_buy_affordability example_conversions [] 0
           (buy_order "bitcoin" (Num (Fin 2))) initial_account
           "bitcoin" (Num (Fin 2)) 2 1000 1000000000); reflexivity.
Defined.

(** X3.  An order of a supported coin whose [type] is not ['buy'] (a sell,
    say, or no type at all) and whose quantity can be converted never
    changes the balance or the portfolio, whatever is held, and is still
    recorded as a trade; it is answered as executed when [type] is a string,
    and with status 500 when it is not. *)
Theorem order_not_buy_keeps_funds (cv : Conversions) (prices : Prices)
    (now : Z) (body : OrderBody) (st : Account) (symbol : string)
    (quantity : Value) :
  o_symbol body = Given (Str symbol) ->
  includes symbol SUPPORTED_COINS = true ->
  is_buy (o_type body) = false ->
  o_quantity body = Given quantity ->
  exists trade,
    snd (trading_order cv prices now body st) =
    {| balance := balance st; portfolio := portfolio st;
       trades := trades st ++ [trade] |}
    /\ t_type trade = o_type body
    /\ t_quantity trade = quantity
    /\ t_totalValue trade =
       (ToNumber cv quantity * current_price prices symbol)%js
    /\ fst (trading_order cv prices now body st) =
       match string_of (o_type body) with
       | Some _ => OrderExecuted trade (balance st) (portfolio st)
       | None => OrderFailed NoCharAt
       end.
Proof.
  intros Hs Hi Hb Hq. unfold trading_order.
  rewrite Hs, Hq. cbn [string_of]. rewrite Hi, Hb. cbn [negb andb].
  destruct (string_of (o_type body)); cbn [fst snd balance portfolio trades];
    (eexists; split; [reflexivity | ];
     cbn [t_type t_quantity t_totalValue];
     split; [reflexivity | ]; split; [reflexivity | ];
     split; reflexivity).
Qed.

Lemma order_not_buy_keeps_funds_witness :
  let body := {| o_symbol := Given (Str "bitcoin");
                 o_type := Given (Str "sell");
                 o_quantity := Given (Num (Fin 5));
                 o_orderType := Given Undefined |} in
  exists trade,
    snd (trading_order example_conversions [] 0 body initial_account) =
    {| balance := Fin 1000000000; portfolio := [];
       trades := [] ++ [trade] |}
    /\ t_type trade = Given (Str "sell")
    /\ t_quantity trade = Num (Fin 5)
    /\ t_totalValue trade =
       (ToNumber example_conversions (Num (Fin 5))
        * current_price [] "bitcoin")%js
    /\ fst (trading_order example_conversions [] 0 body initial_account) =
       OrderExecuted trade (Fin 1000000000) [].
Proof.
  apply (order_not_buy_keeps_funds example_conversions [] 0
           {| o_symbol := Given (Str "bitcoin");
              o_type := Given (Str "sell");
              o_quantity := Given (Num (Fin 5));
              o_orderType := Given Undefined |}
           initial_account "bitcoin" (Num (Fin 5))); reflexivity.
Defined.

(** ** Sequences of orders *)

Lemma run_orders_app (cv : Conversions) (reqs : list OrderRequest)
    (r : OrderRequest) (st : Account) :
  run_orders cv (reqs ++ [r]) st =
  snd (trading_order cv (fst (fst r)) (snd (fst r)) (snd r)
         (run_orders cv reqs st)).
Proof.
  unfold run_orders. rewrite fold_left_app. destruct r as [[prices now] body].
  reflexivity.
Qed.

(** Induction over the requests served so far. *)
Lemma run_orders_ind (cv : Conversions) (P : Account -> Prop)
    (Q : OrderRequest -> Prop) (st : Account) :
  P st ->
  (forall prices now body st,
     Q (prices, now, body) -> P st ->
     P (snd (trading_order cv prices now body st))) ->
  forall reqs, Forall Q reqs -> P (run_orders cv reqs st).
Proof.
  intros H0 Hstep reqs. induction reqs as [| r reqs IH] using rev_ind;
    intros HQ.
  - exact H0.
  - apply Forall_app in HQ. destruct HQ as [HQ Hr].
    rewrite run_orders_app. destruct r as [[prices now] body].
    apply Hstep; [now inversion Hr | now apply IH].
Qed.

Lemma buy_into_symbols (cv : Conversions) (symbol : string) (q : Value)
    (p c : num) (hs : list Holding) :
  map h_symbol (buy_into cv symbol q p c hs) =
  if includes symbol (map h_symbol hs) then map h_symbol hs
  else map h_symbol hs ++ [symbol].
Proof.
  induction hs as [| h hs IH]; [reflexivity | ].
  cbn [buy_into map includes existsb]. rewrite (String.eqb_sym symbol).
  destruct (String.eqb (h_symbol h) symbol); cbn [orb].
  - reflexivity.
  - cbn [map]. rewrite IH. unfold includes.
    destruct (existsb _ _); reflexivity.
Qed.

Lemma NoDup_snoc {A : Type} (l : list A) (x : A) :
  NoDup l -> ~ In x l -> NoDup (l ++ [x]).
Proof.
  intros Hl Hx. induction Hl as [| y l Hy Hl IH]; cbn.
  - constructor; [intros [] | constructor].
  - constructor.
    + rewrite in_app_iff. intros [H | [H | []]]; [now apply Hy | ].
      apply Hx. left. symmetry. exact H.
    + apply IH. intros H. apply Hx. now right.
Qed.

(** X4.  Whatever orders are sent, in whatever order, the portfolio holds
    at most one holding per coin, and only supported coins: a repeated buy
    is merged into the coin's holding. *)
Theorem portfolio_symbols_distinct (cv : Conversions)
    (reqs : list OrderRequest) :
  NoDup (map h_symbol (portfolio (run_orders cv reqs initial_account)))
  /\ incl (map h_symbol (portfolio (run_orders cv reqs initial_account)))
       SUPPORTED_COINS.
Proof.
  apply (run_orders_ind cv
           (fun st => NoDup (map h_symbol (portfolio st))
                      /\ incl (map h_symbol (portfolio st)) SUPPORTED_COINS)
           (fun _ => True)).
  - split; [constructor | intros x []].
  - intros prices now body st _ [Hn Hi].
    destruct (order_step cv prices now body st)
      as [E | (symbol & quantity & t & _ & Hs & _ & _ & _ & _ & _
               & [(_ & _ & _ & Hp) | (_ & _ & Hp)])].
    + rewrite E. now split.
    + rewrite Hp, buy_into_symbols.
      destruct (includes symbol (map h_symbol (portfolio st))) eqn:Hin;
        [now split | ].
      apply includes_not_In in Hin. apply includes_In in Hs. split.
      * now apply NoDup_snoc.
      * apply incl_app; [exact Hi | ]. intros x [<- | []]. exact Hs.
    + rewrite Hp. now split.
  - clear. induction reqs; constructor; auto.
Qed.

Lemma Rsum_snoc (l : list R) (x : R) :
  fold_right Rplus 0 (l ++ [x]) = fold_right Rplus 0 l + x.
Proof. induction l as [| y l IH]; cbn; [lra | rewrite IH; lra]. Qed.

Lemma buy_into_invested (cv : Conversions) (symbol : string) (q : Value)
    (p : num) (c : R) (hs : list Holding) (tis : list R) :
  map h_totalInvested hs = map Fin tis ->
  exists tis',
    map h_totalInvested (buy_into cv symbol q p (Fin c) hs) = map Fin tis'
    /\ fold_right Rplus 0 tis' = fold_right Rplus 0 tis + c.
Proof.
  revert tis. induction hs as [| h hs IH]; intros tis H.
  - destruct tis; [ | discriminate]. exists [c]. cbn. split; [reflexivity | lra].
  - destruct tis as [| ti tis]; [discriminate | ]. cbn [map] in H.
    injection H as Hh Hrest. cbn [buy_into].
    destruct (String.eqb (h_symbol h) symbol).
    + exists ((ti + c) :: tis). cbn [map h_totalInvested]. rewrite Hh, Hrest.
      split; [reflexivity | cbn; lra].
    + destruct (IH tis Hrest) as (tis' & E & S).
      exists (ti :: tis'). cbn [map]. rewrite Hh, E.
      split; [reflexivity | cbn; lra].
Qed.

Lemma order_conserved (cv : Conversions) (prices : Prices) (now : Z)
    (body : OrderBody) (st : Account) :
  finite_request cv (prices, now, body) -> conserved st ->
  conserved (snd (trading_order cv prices now body st)).
Proof.
  intros (quantity & q & Hq & Hn & Hpr)
         (B & tis & fs & HB & HB0 & Hti & Hfs & Hsum).
  destruct (order_step cv prices now body st)
    as [E | (symbol & quantity' & t & Hs & _ & Hq' & Ht & Htype & Htv & Hfee
             & [(Hb & Hl & Hbal & Hport) | (Hb & Hbal & Hport)])].
  - rewrite E. exists B, tis, fs. auto.
  - rewrite Hq in Hq'. injection Hq' as <-.
    destruct (Hpr symbol Hs) as [p Hp].
    rewrite Hn, Hp in Hl, Hbal, Hport, Hfee. cbn [mul add] in Hl, Hbal, Hport, Hfee.
    rewrite HB in Hl, Hbal.
    unfold ltb in Hl. apply gtb_fin_false in Hl.
    destruct (buy_into_invested cv symbol quantity (Fin p) (q * p)
                (portfolio st) tis Hti) as (tis' & Hti' & Hs').
    exists (B - (q * p + q * p * 0.001)), tis', (fs ++ [q * p * 0.001]).
    split; [rewrite Hbal; reflexivity | ]. split; [lra | ].
    split; [rewrite Hport; exact Hti' | ]. split.
    + rewrite Ht, filter_app, map_app, Hfs. cbn [filter]. rewrite Htype, Hb.
      cbn [map]. rewrite Hfee, map_app. reflexivity.
    + rewrite Hs', Rsum_snoc. lra.
  - exists B, tis, fs. split; [rewrite Hbal; exact HB | ]. split; [exact HB0 | ].
    split; [rewrite Hport; exact Hti | ]. split; [ | exact Hsum].
    rewrite Ht, filter_app, map_app, Hfs. cbn [filter]. rewrite Htype, Hb.
    cbn [map]. apply app_nil_r.
Qed.

Lemma initial_conserved : conserved initial_account.
Proof.
  exists 1000000000, [], []. cbn.
  split; [reflexivity | ]. split; [lra | ]. split; [reflexivity | ].
  split; [reflexivity | lra].
Qed.

Lemma run_orders_conserved (cv : Conversions) (reqs : list OrderRequest) :
  Forall (finite_request cv) reqs ->
  conserved (run_orders cv reqs initial_account).
Proof.
  apply (run_orders_ind cv conserved (finite_request cv)).
  - apply initial_conserved.
  - intros prices now body st. apply order_conserved.
Qed.

(** X5.  After any sequence of orders whose quantities convert to finite
    numbers, at finite prices, accepted or not, the balance, the amounts
    invested in the holdings and the fees of the recorded buys add up to the
    initial balance of 1000000000, and the balance is a finite number that
    is not negative. *)
Theorem funds_conserved (cv : Conversions) (reqs : list OrderRequest) :
  Forall (finite_request cv) reqs ->
  let st := run_orders cv reqs initial_account in
  (balance st + total_invested st + fees_paid st)%js = Fin 1000000000
  /\ exists B, balance st = Fin B /\ 0 <= B.
Proof.
  intros H. cbn zeta.
  destruct (run_orders_conserved cv reqs H)
    as (B & tis & fs & HB & HB0 & Hti & Hfs & Hsum).
  split; [ | now exists B].
  unfold total_invested, fees_paid. rewrite HB, Hti, Hfs, !sum_fin.
  cbn [add]. apply Fin_eq. exact Hsum.
Qed.

Lemma funds_conserved_witness :
  let st :=
    run_orders example_conversions
      [([], 0%Z, buy_order "bitcoin" (Num (Fin 2)));
       ([], 1%Z, buy_order "bitcoin" (Num (Fin 3)))] initial_account in
  (balance st + total_invested st + fees_paid st)%js = Fin 1000000000
  /\ exists B, balance st = Fin B /\ 0 <= B.
Proof.
  apply (funds_conserved example_conversions
           [([], 0%Z, buy_order "bitcoin" (Num (Fin 2)));
            ([], 1%Z, buy_order "bitcoin" (Num (Fin 3)))]).
  constructor; [ | constructor; [ | constructor]].
  - exists (Num (Fin 2)), 2. split; [reflexivity | ]. split; [reflexivity | ].
    intros symbol _. now exists 1000.
  - exists (Num (Fin 3)), 3. split; [reflexivity | ]. split; [reflexivity | ].
    intros symbol _. now exists 1000.
Defined.

(** X6.  The quantity of an order is not validated: a buy of a quantity
    that converts to a negative number, at a positive price, passes the
    balance test, is executed, and raises the balance by the value of the
    quantity plus the fee.  Bought on an empty portfolio, the holding of
    negative quantity it leaves is not shown by the portfolio route. *)
Theorem order_negative_quantity_credits (cv : Conversions) (prices : Prices)
    (now : Z) (body : OrderBody) (st : Account) (symbol : string)
    (quantity : Value) (q p B : R) :
  o_symbol body = Given (Str symbol) ->
  includes symbol SUPPORTED_COINS = true ->
  o_type body = Given (Str "buy") ->
  o_quantity body = Given quantity -> ToNumber cv quantity = Fin q -> q < 0 ->
  current_price prices symbol = Fin p -> 0 < p ->
  balance st = Fin B -> 0 <= B ->
  let st' := snd (trading_order cv prices now body st) in
  (exists t hs, fst (trading_order cv prices now body st) =
                OrderExecuted t (balance st') hs)
  /\ balance st' = Fin (B + (- q) * p * 1.001)
  /\ B < B + (- q) * p * 1.001
  /\ (portfolio st = [] ->
      forall prices',
        pv_holdings (trading_portfolio cv prices' st') = []
        /\ pv_totalHoldingsValue (trading_portfolio cv prices' st') = Fin 0).
Proof.
  intros Hs Hi Ht Hq Hn Hq0 Hp Hp0 HB HB0. cbn zeta. unfold trading_order.
  rewrite Hs, Ht, Hq. cbn [string_of]. rewrite Hi, Hn, Hp, HB.
  cbn [negb is_buy string_of String.eqb Ascii.eqb Bool.eqb andb mul add].
  assert (q * p < 0) as Hqp by nra.
  unfold ltb. destruct (gtb _ (Fin B)) eqn:E.
  { apply gtb_fin in E. lra. }
  cbn [snd fst balance portfolio trades sub neg add].
  split; [eexists; eexists; reflexivity | ].
  split; [apply Fin_eq; lra | ]. split; [nra | ].
  intros Hempty prices'. unfold trading_portfolio. cbn [portfolio balance].
  rewrite Hempty. cbn [buy_into fold_left]. unfold portfolio_step.
  cbn [h_quantity]. rewrite Hn.
  destruct (gtb (Fin q) (Fin 0)) eqn:E'.
  { apply gtb_fin in E'. lra. }
  cbn [pv_holdings pv_totalHoldingsValue]. split; reflexivity.
Qed.

Lemma order_negative_quantity_credits_witness :
  let body := buy_order "bitcoin" (Num (Fin (-1))) in
  let st' := snd (trading_order example_conversions [] 0 body
                    initial_account) in
  (exists t hs,
     fst (trading_order example_conversions [] 0 body initial_account) =
     OrderExecuted t (balance st') hs)
  /\ balance st' = Fin (1000000000 + (- -1) * 1000 * 1.001)
  /\ 1000000000 < 1000000000 + (- -1) * 1000 * 1.001
  /\ (portfolio initial_account = [] ->
      forall prices',
        pv_holdings (trading_portfolio example_conversions prices' st') = []
        /\ pv_totalHoldingsValue
             (trading_portfolio example_conversions prices' st') = Fin 0).
Proof.
  apply (order_negative_quantity_credits example_conversions [] 0
           (buy_order "bitcoin" (Num (Fin (-1)))) initial_account
           "bitcoin" (Num (Fin (-1))) (-1) 1000 1000000000);
    try reflexivity; lra.
Defined.

(** ** The holdings *)

Lemma buy_into_sound (cv : Conversions) (symbol : string) (q p : R)
    (hs : list Holding) :
  0 < q -> Forall sound_holding hs ->
  Forall sound_holding
    (buy_into cv symbol (Num (Fin q)) (Fin p) (Fin (q * p)) hs).
Proof.
  intros Hq. induction hs as [| h hs IH]; intros H.
  - constructor; [ | constructor]. exists q, p. cbn.
    split; [reflexivity | ]. split; [exact Hq | ]. split; reflexivity.
  - inversion H as [| ? ? Hh Hrest]; subst. cbn [buy_into].
    destruct (String.eqb (h_symbol h) symbol).
    + constructor; [ | exact Hrest].
      destruct Hh as (q0 & a0 & E1 & Hq0 & E2 & E3).
      exists (q0 + q), ((q0 * a0 + q * p) / (q0 + q)).
      cbn [h_quantity h_averagePrice h_totalInvested].
      rewrite E1, E3, plus_numbers. cbn [add ToNumber].
      split; [reflexivity | ]. split; [lra | ].
      split; [apply div_fin; lra | ]. apply Fin_eq. field. lra.
    + constructor; [exact Hh | now apply IH].
Qed.

Lemma positive_is_finite (cv : Conversions) (r : OrderRequest) :
  positive_request r -> finite_request cv r.
Proof.
  destruct r as [[prices now] body]. intros (q & Hq & _ & Hp).
  exists (Num (Fin q)), q. split; [exact Hq | ]. split; [reflexivity | exact Hp].
Qed.

Lemma order_sound (cv : Conversions) (prices : Prices) (now : Z)
    (body : OrderBody) (st : Account) :
  positive_request (prices, now, body) ->
  Forall sound_holding (portfolio st) ->
  Forall sound_holding (portfolio (snd (trading_order cv prices now body st))).
Proof.
  intros (q & Hq & Hq0 & Hpr) H.
  destruct (order_step cv prices now body st)
    as [E | (symbol & quantity & t & Hs & _ & Hq' & _ & _ & _ & _
             & [(_ & _ & _ & Hport) | (_ & _ & Hport)])].
  - now rewrite E.
  - rewrite Hq in Hq'. injection Hq' as <-.
    destruct (Hpr symbol Hs) as [p Hp].
    rewrite Hport, Hp. cbn [ToNumber mul]. now apply buy_into_sound.
  - now rewrite Hport.
Qed.

(** X7.  After any sequence of orders whose quantities are positive finite
    numbers, at finite prices, every holding has a positive quantity and an
    invested amount equal to the quantity times the average price: the
    average price is the amount paid for the coin, fees apart, over the
    quantity held. *)
Theorem holdings_sound (cv : Conversions) (reqs : list OrderRequest) :
  Forall positive_request reqs ->
  Forall sound_holding (portfolio (run_orders cv reqs initial_account)).
Proof.
  apply (run_orders_ind cv (fun st => Forall sound_holding (portfolio st))
           positive_request).
  - constructor.
  - intros prices now body st. apply order_sound.
Qed.

Lemma holdings_sound_witness :
  Forall sound_holding
    (portfolio
       (run_orders example_conversions
          [([], 0%Z, buy_order "bitcoin" (Num (Fin 2)));
           ([], 1%Z, buy_order "bitcoin" (Num (Fin 3)))] initial_account)).
Proof.
  apply (holdings_sound example_conversions
           [([], 0%Z, buy_order "bitcoin" (Num (Fin 2)));
            ([], 1%Z, buy_order "bitcoin" (Num (Fin 3)))]).
  constructor; [ | constructor; [ | constructor]].
  - exists 2. split; [reflexivity | ]. split; [lra | ].
    intros symbol _. now exists 1000.
  - exists 3. split; [reflexivity | ]. split; [lra | ].
    intros symbol _. now exists 1000.
Defined.

Lemma buy_into_found (cv : Conversions) (symbol : string) (q : Value)
    (p c : num) (hs : list Holding) (h : Holding) :
  find_holding symbol hs = Some h ->
  find_holding symbol (buy_into cv symbol q p c hs) =
  Some {| h_symbol := h_symbol h;
          h_quantity := plus cv (h_quantity h) q;
          h_averagePrice :=
            ((h_totalInvested h + c) / ToNumber cv (plus cv (h_quantity h) q))%js;
          h_totalInvested := (h_totalInvested h + c)%js |}
  /\ length (buy_into cv symbol q p c hs) = length hs.
Proof.
  unfold find_holding. induction hs as [| h0 hs IH]; [discriminate | ].
  cbn [find buy_into]. destruct (String.eqb (h_symbol h0) symbol) eqn:E.
  - intros H. injection H as <-. cbn [find h_symbol]. rewrite E.
    split; reflexivity.
  - intros H. cbn [find]. rewrite E. destruct (IH H) as [IH1 IH2].
    split; [exact IH1 | cbn [length]; now rewrite IH2].
Qed.

Lemma weighted_mean_between (q0 a0 q p : R) :
  0 < q0 -> 0 < q ->
  Rmin a0 p <= (q0 * a0 + q * p) / (q0 + q) <= Rmax a0 p.
Proof.
  intros H0 H. set (m := (q0 * a0 + q * p) / (q0 + q)).
  assert (m * (q0 + q) = q0 * a0 + q * p) as Hm
    by (unfold m; field; lra).
  assert (Rmin a0 p <= a0 /\ Rmin a0 p <= p) as [L1 L2]
    by (split; [apply Rmin_l | apply Rmin_r]).
  assert (a0 <= Rmax a0 p /\ p <= Rmax a0 p) as [U1 U2]
    by (split; [apply Rmax_l | apply Rmax_r]).
  split.
  - apply Rmult_le_reg_r with (q0 + q); [lra | ]. rewrite Hm. nra.
  - apply Rmult_le_reg_r with (q0 + q); [lra | ]. rewrite Hm. nra.
Qed.

(** X8.  A buy that the balance covers, of a positive number of a coin
    already held in a positive number, is merged into the coin's holding:
    the portfolio keeps its length, the new quantity is the sum of the two
    numbers, and the new average price is the mean of the old average and
    the purchase price weighted by the quantities, so it lies between the
    two. *)
Theorem average_price_between (cv : Conversions) (prices : Prices) (now : Z)
    (body : OrderBody) (st : Account) (symbol : string) (h : Holding)
    (q p B q0 a0 : R) :
  o_symbol body = Given (Str symbol) ->
  includes symbol SUPPORTED_COINS = true ->
  o_type body = Given (Str "buy") ->
  o_quantity body = Given (Num (Fin q)) -> 0 < q ->
  current_price prices symbol = Fin p ->
  balance st = Fin B -> q * p + q * p * 0.001 <= B ->
  find_holding symbol (portfolio st) = Some h ->
  h_quantity h = Num (Fin q0) -> 0 < q0 ->
  h_averagePrice h = Fin a0 -> h_totalInvested h = Fin (q0 * a0) ->
  let st' := snd (trading_order cv prices now body st) in
  length (portfolio st') = length (portfolio st)
  /\ exists h',
       find_holding symbol (portfolio st') = Some h'
       /\ h_quantity h' = Num (Fin (q0 + q))
       /\ h_averagePrice h' = Fin ((q0 * a0 + q * p) / (q0 + q))
       /\ h_totalInvested h' = Fin (q0 * a0 + q * p)
       /\ Rmin a0 p <= (q0 * a0 + q * p) / (q0 + q) <= Rmax a0 p.
Proof.
  intros Hs Hi Ht Hq Hq0 Hp HB Hle Hf E1 H0 E2 E3. cbn zeta.
  unfold trading_order. rewrite Hs, Ht, Hq. cbn [string_of].
  rewrite Hi, Hp, HB.
  cbn [negb is_buy string_of String.eqb Ascii.eqb Bool.eqb andb mul add
       ToNumber].
  unfold ltb. destruct (gtb _ (Fin B)) eqn:E.
  { apply gtb_fin in E. lra. }
  cbn [snd portfolio].
  destruct (buy_into_found cv symbol (Num (Fin q)) (Fin p) (Fin (q * p))
              (portfolio st) h Hf) as [F L].
  split; [exact L | ]. eexists. split; [exact F | ].
  cbn [h_quantity h_averagePrice h_totalInvested].
  rewrite E1, E3, plus_numbers. cbn [add ToNumber].
  split; [reflexivity | ].
  split; [apply div_fin; lra | ]. split; [reflexivity | ].
  now apply weighted_mean_between.
Qed.

Lemma average_price_between_witness :
  let body := buy_order "bitcoin" (Num (Fin 3)) in
  let h := {| h_symbol := "bitcoin"; h_quantity := Num (Fin 2);
              h_averagePrice := Fin 500; h_totalInvested := Fin (2 * 500) |} in
  let st := {| balance := Fin 5000; portfolio := [h]; trades := [] |} in
  let st' := snd (trading_order example_conversions [] 0 body st) in
  length (portfolio st') = length (portfolio st)
  /\ exists h',
       find_holding "bitcoin" (portfolio st') = Some h'
       /\ h_quantity h' = Num (Fin (2 + 3))
       /\ h_averagePrice h' = Fin ((2 * 500 + 3 * 1000) / (2 + 3))
       /\ h_totalInvested h' = Fin (2 * 500 + 3 * 1000)
       /\ Rmin 500 1000 <= (2 * 500 + 3 * 1000) / (2 + 3) <= Rmax 500 1000.
Proof.
  apply (average_price_between example_conversions [] 0
           (buy_order "bitcoin" (Num (Fin 3)))
           {| balance := Fin 5000;
              portfolio := [ {| h_symbol := "bitcoin";
                                h_quantity := Num (Fin 2);
                                h_averagePrice := Fin 500;
                                h_totalInvested := Fin (2 * 500) |} ];
              trades := [] |}
           "bitcoin"
           {| h_symbol := "bitcoin"; h_quantity := Num (Fin 2);
              h_averagePrice := Fin 500; h_totalInvested := Fin (2 * 500) |}
           3 1000 5000 2 500); try reflexivity; lra.
Defined.

Lemma buy_executes (cv : Conversions) (prices : Prices) (now : Z)
    (symbol : string) (quantity : Value) (st : Account) (q p B : R) :
  includes symbol SUPPORTED_COINS = true ->
  ToNumber cv quantity = Fin q ->
  current_price prices symbol = Fin p ->
  balance st = Fin B -> q * p + q * p * 0.001 <= B ->
  balance (snd (trading_order cv prices now (buy_order symbol quantity) st))
  = Fin (B - (q * p + q * p * 0.001))
  /\ portfolio
       (snd (trading_order cv prices now (buy_order symbol quantity) st))
     = buy_into cv symbol quantity (Fin p) (Fin (q * p)) (portfolio st).
Proof.
  intros Hi Hn Hp HB Hle. unfold trading_order, buy_order.
  cbn [o_symbol o_type o_quantity o_orderType string_of].
  rewrite Hi, Hn, Hp, HB.
  cbn [negb is_buy string_of String.eqb Ascii.eqb Bool.eqb andb mul add].
  unfold ltb. destruct (gtb _ (Fin B)) eqn:E.
  { apply gtb_fin in E. lra. }
  cbn [snd balance portfolio sub neg add]. split; [ | reflexivity].
  apply Fin_eq. lra.
Qed.

(** X28.  Quantities are added as they were sent.  After two buys of a
    supported coin from the initial account, which the balance covers and
    whose quantities are the strings [a] and [b], as a urlencoded body
    delivers them, the amount invested in the holding is the sum of the two
    costs, each the number its string converts to times the price, but the
    quantity of the holding is the concatenation of the two strings, and
    its average price the amount invested over the number the concatenation
    converts to, when that is finite and not 0: after buys of ['2'] and
    ['3'] at 1000 the quantity is ['23'] and the average price
    5000 / 23. *)
Theorem string_quantities_concatenate (cv : Conversions) (prices : Prices)
    (now1 now2 : Z) (symbol a b : string) (qa qb qab p : R) :
  includes symbol SUPPORTED_COINS = true ->
  current_price prices symbol = Fin p ->
  StringToNumber cv a = Fin qa -> StringToNumber cv b = Fin qb ->
  StringToNumber cv (String.append a b) = Fin qab -> qab <> 0 ->
  qa * p + qa * p * 0.001 <= 1000000000 ->
  qb * p + qb * p * 0.001 <= 1000000000 - (qa * p + qa * p * 0.001) ->
  portfolio
    (run_orders cv
       [(prices, now1, buy_order symbol (Str a));
        (prices, now2, buy_order symbol (Str b))] initial_account) =
  [ {| h_symbol := symbol;
       h_quantity := Str (String.append a b);
       h_averagePrice := Fin ((qa * p + qb * p) / qab);
       h_totalInvested := Fin (qa * p + qb * p) |} ].
Proof.
  intros Hi Hp Ha Hb Hab H0 L1 L2.
  unfold run_orders. cbn [fold_left].
  destruct (buy_executes cv prices now1 symbol (Str a) initial_account
              qa p 1000000000 Hi Ha Hp eq_refl L1) as [B1 P1].
  set (st1 := snd (trading_order cv prices now1 (buy_order symbol (Str a))
                     initial_account)) in *.
  destruct (buy_executes cv prices now2 symbol (Str b) st1
              qb p (1000000000 - (qa * p + qa * p * 0.001)) Hi Hb Hp B1 L2)
    as [_ P2].
  rewrite P2, P1. cbn [initial_account portfolio buy_into h_symbol
                       h_quantity h_totalInvested].
  rewrite String.eqb_refl, plus_strings. cbn [ToNumber add].
  rewrite Hab, div_fin by exact H0. reflexivity.
Qed.

Lemma string_quantities_concatenate_witness :
  portfolio
    (run_orders example_conversions
       [([], 0%Z, buy_order "bitcoin" (Str "2"));
        ([], 1%Z, buy_order "bitcoin" (Str "3"))] initial_account) =
  [ {| h_symbol := "bitcoin";
       h_quantity := Str "23";
       h_averagePrice := Fin ((2 * 1000 + 3 * 1000) / 23);
       h_totalInvested := Fin (2 * 1000 + 3 * 1000) |} ].
Proof.
  apply (string_quantities_concatenate example_conversions [] 0 1
           "bitcoin" "2" "3" 2 3 23 1000);
    try reflexivity; lra.
Defined.

(** ** The portfolio route *)

Lemma map_Fin_inj (l l' : list R) : map Fin l = map Fin l' -> l = l'.
Proof.
  revert l'. induction l as [| x l IH]; intros [| y l'] H;
    try discriminate; [reflexivity | ].
  cbn [map] in H. injection H as Hx Hl. f_equal; [exact Hx | now apply IH].
Qed.

(** The loop of the portfolio route over sound holdings: every holding is
    shown, and the profits add up to the current values less the amounts
    invested. *)
Lemma portfolio_fold (cv : Conversions) (prices : Prices)
    (hs : list Holding) :
  finite_prices prices -> Forall sound_holding hs ->
  forall (acc : list HoldingView) (tv : R) (tis : list R),
    map h_totalInvested hs = map Fin tis ->
    exists (views : list HoldingView) (cvs pnls : list R),
      fold_left (portfolio_step cv prices) hs (acc, Fin tv) =
      (acc ++ views, Fin (tv + fold_right Rplus 0 cvs))
      /\ length views = length hs
      /\ map v_pnl views = map Fin pnls
      /\ fold_right Rplus 0 pnls =
         fold_right Rplus 0 cvs - fold_right Rplus 0 tis.
Proof.
  intros Hp. induction hs as [| h hs IH]; intros Hh acc tv tis Hti.
  - destruct tis; [ | discriminate]. exists [], [], []. cbn.
    rewrite app_nil_r. split; [apply f_equal, Fin_eq; lra | ].
    split; [reflexivity | ]. split; [reflexivity | lra].
  - destruct tis as [| ti tis]; [discriminate | ]. cbn [map] in Hti.
    injection Hti as Hti Hrest.
    inversion Hh as [| ? ? (q & a & E1 & Hq & E2 & E3) Hhs]; subst.
    cbn [fold_left]. unfold portfolio_step at 2. rewrite E1.
    cbn [ToNumber].
    destruct (gtb (Fin q) (Fin 0)) eqn:G;
      [ | apply gtb_fin_false in G; lra].
    assert (exists cp,
              or_default (price_field prices (h_symbol h)) (h_averagePrice h)
              = Fin cp) as [cp Hcp].
    { unfold or_default.
      destruct (price_field prices (h_symbol h)) as [v | ] eqn:F.
      - destruct (Hp _ _ F) as [p ->].
        destruct (truthy (Fin p)); [now exists p | now exists a].
      - now exists a. }
    rewrite Hcp. cbn [mul add]. rewrite Hti in *.
    match goal with
    | |- context [fold_left _ hs (acc ++ [?v], _)] => set (view := v) in *
    end.
    destruct (IH Hhs (acc ++ [view]) (tv + q * cp) tis Hrest)
      as (views & cvs & pnls & F & L & P & S).
    exists (view :: views), (q * cp :: cvs), ((q * cp - ti) :: pnls).
    rewrite F. rewrite <- app_assoc. cbn [app fold_right length map].
    split; [apply f_equal, Fin_eq; lra | ].
    split; [now rewrite L | ].
    split; [rewrite P; unfold view; cbn [v_pnl sub neg add]; reflexivity | ].
    rewrite S. lra.
Qed.

(** X9.  After any sequence of orders whose quantities are positive finite
    numbers, at finite prices, and for any finite current prices, the
    portfolio route shows every holding, and the total profit it reports is
    the sum of the profits of the holdings less the fees of the recorded
    buys: the fees are the only money that leaves the account. *)
Theorem portfolio_pnl_after_orders (cv : Conversions)
    (reqs : list OrderRequest) (prices : Prices) :
  Forall positive_request reqs -> finite_prices prices ->
  let st := run_orders cv reqs initial_account in
  let view := trading_portfolio cv prices st in
  length (pv_holdings view) = length (portfolio st)
  /\ pv_totalPnL view =
     (JS.sum (map v_pnl (pv_holdings view)) - fees_paid st)%js.
Proof.
  intros Hr Hp. cbn zeta.
  assert (Forall (finite_request cv) reqs) as Hf.
  { eapply Forall_impl; [ | exact Hr]. apply positive_is_finite. }
  destruct (run_orders_conserved cv reqs Hf)
    as (B & tis & fs & HB & HB0 & Hti & Hfs & Hsum).
  pose proof (run_orders_ind cv
                (fun st => Forall sound_holding (portfolio st))
                positive_request initial_account (Forall_nil _)
                (fun prices now body st => order_sound cv prices now body st)
                reqs Hr) as Hs.
  destruct (portfolio_fold cv prices _ Hp Hs [] 0 tis Hti)
    as (views & cvs & pnls & F & L & P & S).
  unfold trading_portfolio, fees_paid. rewrite F, HB, Hfs.
  cbn [pv_holdings pv_totalPnL app]. split; [exact L | ].
  rewrite P, !sum_fin. cbn [add sub neg]. apply Fin_eq. lra.
Qed.

Lemma portfolio_pnl_after_orders_witness :
  let st :=
    run_orders example_conversions
      [([], 0%Z, buy_order "bitcoin" (Num (Fin 2)));
       ([], 1%Z, buy_order "bitcoin" (Num (Fin 3)))] initial_account in
  let view := trading_portfolio example_conversions [] st in
  length (pv_holdings view) = length (portfolio st)
  /\ pv_totalPnL view =
     (JS.sum (map v_pnl (pv_holdings view)) - fees_paid st)%js.
Proof.
  apply (portfolio_pnl_after_orders example_conversions
           [([], 0%Z, buy_order "bitcoin" (Num (Fin 2)));
            ([], 1%Z, buy_order "bitcoin" (Num (Fin 3)))]
           []).
  - constructor; [ | constructor; [ | constructor]].
    + exists 2. split; [reflexivity | ]. split; [lra | ].
      intros symbol _. now exists 1000.
    + exists 3. split; [reflexivity | ]. split; [lra | ].
      intros symbol _. now exists 1000.
  - intros symbol v H. discriminate H.
Defined.

(** * The prices *)

Lemma lookup_assign_same {A : Type} (key : string) (v : A)
    (obj : list (string * A)) :
  lookup key (assign key v obj) = Some v.
Proof.
  induction obj as [| [k x] obj IH]; cbn [assign lookup].
  - now rewrite String.eqb_refl.
  - destruct (String.eqb k key) eqn:E; cbn [lookup]; rewrite E;
      [reflexivity | exact IH].
Qed.

Lemma lookup_assign_other {A : Type} (key key' : string) (v : A)
    (obj : list (string * A)) :
  key <> key' -> lookup key' (assign key v obj) = lookup key' obj.
Proof.
  intros Hne. induction obj as [| [k x] obj IH]; cbn [assign lookup].
  - destruct (String.eqb key key') eqn:E; [ | reflexivity].
    apply String.eqb_eq in E. contradiction.
  - destruct (String.eqb k key) eqn:E; cbn [lookup].
    + apply String.eqb_eq in E. subst k.
      destruct (String.eqb key key') eqn:E'; [ | reflexivity].
      apply String.eqb_eq in E'. contradiction.
    + now rewrite IH.
Qed.

Lemma lookup_keys {A : Type} (key : string) (obj : list (string * A)) :
  lookup key obj = None <-> ~ In key (keys obj).
Proof.
  induction obj as [| [k x] obj IH]; cbn [lookup keys map fst In].
  - split; [intros _ [] | reflexivity].
  - destruct (String.eqb k key) eqn:E.
    + apply String.eqb_eq in E. split; [discriminate | ].
      intros H. exfalso. apply H. now left.
    + apply String.eqb_neq in E. rewrite IH. unfold keys. tauto.
Qed.

(** The loop of [fetchRealPrices] over any list of distinct coins. *)
Lemma collect_lookup (data : ResponseData) (coins : list string)
    (acc : Prices) (coin : string) :
  NoDup coins ->
  lookup coin
    (fold_left
       (fun prices c =>
          match lookup c data with
          | Some d => assign c (price_entry c d) prices
          | None => prices
          end) coins acc) =
  if includes coin coins then
    match lookup coin data with
    | Some d => Some (price_entry coin d)
    | None => lookup coin acc
    end
  else lookup coin acc.
Proof.
  intros Hn. revert acc. induction Hn as [| c coins Hc Hn IH]; intros acc.
  - reflexivity.
  - cbn [fold_left]. rewrite IH. unfold includes. cbn [existsb].
    fold (includes coin coins).
    destruct (String.eqb coin c) eqn:E; cbn [orb].
    + apply String.eqb_eq in E. subst c.
      apply includes_not_In in Hc. rewrite Hc.
      destruct (lookup coin data); [apply lookup_assign_same | reflexivity].
    + apply String.eqb_neq in E.
      assert (lookup coin
                match lookup c data with
                | Some d => assign c (price_entry c d) acc
                | None => acc
                end = lookup coin acc) as ->.
      { destruct (lookup c data); [ | reflexivity].
        apply lookup_assign_other. congruence. }
      reflexivity.
Qed.

Lemma supported_nodup : NoDup SUPPORTED_COINS.
Proof.
  unfold SUPPORTED_COINS.
  repeat (constructor; [cbn; intros H; repeat destruct H as [H | H];
                        try discriminate H; exact H | ]).
  constructor.
Qed.

Lemma collect_prices_lookup (data : ResponseData) (coin : string) :
  lookup coin (collect_prices data) =
  if includes coin SUPPORTED_COINS
  then option_map (price_entry coin) (lookup coin data)
  else None.
Proof.
  unfold collect_prices. rewrite collect_lookup by apply supported_nodup.
  destruct (includes coin SUPPORTED_COINS); [ | reflexivity].
  destruct (lookup coin data); reflexivity.
Qed.

Lemma cache_test_false (now : Z) (st : PriceStore) :
  (PRICE_CACHE_DURATION <= now - lastPriceUpdate st)%Z \/ priceCache st = [] ->
  ((now - lastPriceUpdate st <? PRICE_CACHE_DURATION)%Z
   && (0 <? length (keys (priceCache st)))%nat)%bool = false.
Proof.
  intros [H | H].
  - apply Z.ltb_ge in H. now rewrite H.
  - rewrite H. apply andb_false_r.
Qed.

(** X10.  A fetch that reaches the price service (the cache is empty or at
    least five minutes old) returns an entry exactly for the supported
    coins the answer has data for, with the answer's prices, and stores
    that object and the time; the answer's other coins are ignored, and a
    supported coin the answer lacks gets the fallback price 1000 in the
    routes. *)
Theorem fetched_prices (now later : Z) (data : ResponseData)
    (st : PriceStore) :
  (PRICE_CACHE_DURATION <= now - lastPriceUpdate st)%Z \/ priceCache st = [] ->
  let prices := fst (fetchRealPrices now (Some data) later st) in
  snd (fetchRealPrices now (Some data) later st) =
  {| priceCache := prices; lastPriceUpdate := later |}
  /\ forall coin,
       lookup coin prices =
       (if includes coin SUPPORTED_COINS
        then option_map (price_entry coin) (lookup coin data)
        else None)
       /\ (lookup coin data = None -> current_price prices coin = Fin 1000).
Proof.
  intros H. cbn zeta. unfold fetchRealPrices.
  rewrite (cache_test_false now st H). cbn [fst snd].
  split; [reflexivity | ]. intros coin.
  pose proof (collect_prices_lookup data coin) as L.
  split; [exact L | ]. intros Hn. unfold current_price, price_field.
  rewrite L, Hn. destruct (includes coin SUPPORTED_COINS); reflexivity.
Qed.

Lemma fetched_prices_witness :
  let data := [("bitcoin"%string,
                {| cd_usd := Some (Fin 65000); cd_inr := None;
                   cd_usd_24h_change := None; cd_usd_24h_vol := None;
                   cd_usd_market_cap := None |})] in
  let prices := fst (fetchRealPrices 0 (Some data) 1 initial_price_store) in
  snd (fetchRealPrices 0 (Some data) 1 initial_price_store) =
  {| priceCache := prices; lastPriceUpdate := 1 |}
  /\ forall coin,
       lookup coin prices =
       (if includes coin SUPPORTED_COINS
        then option_map (price_entry coin) (lookup coin data)
        else None)
       /\ (lookup coin data = None -> current_price prices coin = Fin 1000).
Proof.
  apply (fetched_prices 0 1
           [("bitcoin"%string,
             {| cd_usd := Some (Fin 65000); cd_inr := None;
                cd_usd_24h_change := None; cd_usd_24h_vol := None;
                cd_usd_market_cap := None |})]
           initial_price_store).
  right. reflexivity.
Defined.

(** X11.  After a fetch that reached the price service at time [later] and
    got data for at least one supported coin, every call less than five
    minutes after [later] returns the same object and leaves the module
    variables as they are, whatever the price service would answer then. *)
Theorem price_cache_window (now later now2 later2 : Z) (data : ResponseData)
    (response2 : option ResponseData) (st : PriceStore) (coin : string) :
  (PRICE_CACHE_DURATION <= now - lastPriceUpdate st)%Z \/ priceCache st = [] ->
  In coin SUPPORTED_COINS -> lookup coin data <> None ->
  (now2 - later < PRICE_CACHE_DURATION)%Z ->
  fetchRealPrices now2 response2 later2
    (snd (fetchRealPrices now (Some data) later st)) =
  (fst (fetchRealPrices now (Some data) later st),
   snd (fetchRealPrices now (Some data) later st)).
Proof.
  intros H Hc Hd Hw. unfold fetchRealPrices at 2 3 4.
  rewrite (cache_test_false now st H). cbn [fst snd].
  unfold fetchRealPrices. cbn [priceCache lastPriceUpdate].
  apply Z.ltb_lt in Hw. rewrite Hw. cbn [andb].
  pose proof (collect_prices_lookup data coin) as L.
  apply includes_In in Hc. rewrite Hc in L.
  destruct (collect_prices data) as [| e rest] eqn:E.
  - cbn [lookup] in L. destruct (lookup coin data); [discriminate | ].
    now contradiction Hd.
  - reflexivity.
Qed.

Lemma price_cache_window_witness :
  let data := [("bitcoin"%string,
                {| cd_usd := Some (Fin 65000); cd_inr := None;
                   cd_usd_24h_change := None; cd_usd_24h_vol := None;
                   cd_usd_market_cap := None |})] in
  fetchRealPrices 1000 None 1001
    (snd (fetchRealPrices 0 (Some data) 1 initial_price_store)) =
  (fst (fetchRealPrices 0 (Some data) 1 initial_price_store),
   snd (fetchRealPrices 0 (Some data) 1 initial_price_store)).
Proof.
  apply (price_cache_window 0 1 1000 1001
           [("bitcoin"%string,
             {| cd_usd := Some (Fin 65000); cd_inr := None;
                cd_usd_24h_change := None; cd_usd_24h_vol := None;
                cd_usd_market_cap := None |})]
           None initial_price_store "bitcoin").
  - right. reflexivity.
  - left. reflexivity.
  - discriminate.
  - reflexivity.
Defined.

(** X12.  When the request to the price service fails, the prices cached
    five minutes ago or more are never returned: the test
    [priceCache.length > 0] reads a property the object does not have, so
    the mock prices are returned, with bitcoin at 43250.50, and the module
    variables stay as they are. *)
Theorem fetch_failure_gives_mock (now later : Z) (st : PriceStore) :
  (PRICE_CACHE_DURATION <= now - lastPriceUpdate st)%Z \/ priceCache st = [] ->
  fetchRealPrices now None later st = (generateMockPrices, st)
  /\ current_price (fst (fetchRealPrices now None later st)) "bitcoin"
     = Fin 43250.50.
Proof.
  intros H. unfold fetchRealPrices. rewrite (cache_test_false now st H).
  assert (property_gt_zero (lookup "length" (priceCache st)) = false) as ->
    by (destruct (lookup "length" (priceCache st)); reflexivity).
  split; [reflexivity | ]. cbn [fst]. unfold current_price, price_field.
  cbn [generateMockPrices mock_entry lookup String.eqb Ascii.eqb Bool.eqb
       pe_price or_default].
  destruct (truthy (Fin 43250.50)) eqn:E; [reflexivity | ].
  pose proof (truthy_pos 43250.50). rewrite E in H0.
  assert (0 < 43250.50) by lra. now discriminate H0.
Qed.

Lemma fetch_failure_gives_mock_witness :
  let st := {| priceCache :=
                 [mock_entry "bitcoin" 65000 5395000 0 0 0];
               lastPriceUpdate := 0 |} in
  fetchRealPrices 300000 None 300001 st = (generateMockPrices, st)
  /\ current_price (fst (fetchRealPrices 300000 None 300001 st)) "bitcoin"
     = Fin 43250.50.
Proof.
  apply (fetch_failure_gives_mock 300000 300001
           {| priceCache := [mock_entry "bitcoin" 65000 5395000 0 0 0];
              lastPriceUpdate := 0 |}).
  left. cbn. unfold PRICE_CACHE_DURATION. lia.
Defined.

(** * The chart route *)

Lemma chart_step_ok (rnd : nat -> R) (clock : nat -> Z) (cp : R)
    (dataPoints : nat) (acc : list ChartPoint) (k i : nat) :
  random_source rnd -> 0 < cp ->
  exists pt,
    chart_step rnd clock (Fin cp) dataPoints (acc, k) i =
    (acc ++ [pt], S (S (S k)))
    /\ chart_point_ok cp pt.
Proof.
  intros Hr Hc. unfold chart_step, Math_random.
  cbn [add sub neg mul]. rewrite !toFixed_fin. cbn [Math_floor].
  eexists. split; [reflexivity | ].
  pose proof (Hr k) as Hu. pose proof (Hr (S k)) as Hv.
  pose proof (Hr (S (S k))) as Hw.
  do 5 eexists. exists (Int_part (rnd (S k) * 1000000)).
  cbn [c_open c_high c_low c_close c_rsi c_volume].
  split; [reflexivity | ]. split; [reflexivity | ]. split; [reflexivity | ].
  split; [reflexivity | ]. split; [reflexivity | ]. split; [reflexivity | ].
  set (p := cp * (1 + _ * 0.02)).
  assert (cp * 0.99 <= p <= cp * 1.01) as Hp by (unfold p; nra).
  assert (0 < p) as Hp0 by nra.
  split; [split; apply fixed_real_mono; lra | ].
  split; [apply fixed_real_mono; lra | ].
  split.
  { pose proof (fixed_real_near 2 p) as N. rewrite half_cent in N.
    apply Rabs_bounds in N. apply Rabs_le. lra. }
  split; [lra | ].
  pose proof (Int_part_bounds (rnd (S k) * 1000000)) as [B1 B2].
  split.
  - apply Int_part_nonneg. lra.
  - assert (IZR (Int_part (rnd (S k) * 1000000)) < IZR 1000000) as H by lra.
    apply lt_IZR in H. lia.
Qed.

Lemma chart_fold_ok (rnd : nat -> R) (clock : nat -> Z) (cp : R)
    (dataPoints : nat) (idx : list nat) :
  random_source rnd -> 0 < cp ->
  forall (acc : list ChartPoint) (k : nat),
    exists pts,
      fold_left (chart_step rnd clock (Fin cp) dataPoints) idx (acc, k) =
      (acc ++ pts, (k + 3 * length idx)%nat)
      /\ length pts = length idx
      /\ Forall (chart_point_ok cp) pts.
Proof.
  intros Hr Hc. induction idx as [| i idx IH]; intros acc k.
  - exists []. cbn. rewrite app_nil_r, Nat.add_0_r.
    split; [reflexivity | ]. split; [reflexivity | constructor].
  - cbn [fold_left].
    destruct (chart_step_ok rnd clock cp dataPoints acc k i Hr Hc)
      as (pt & E & Hpt).
    rewrite E. destruct (IH (acc ++ [pt]) (S (S (S k)))) as (pts & F & L & P).
    exists (pt :: pts). rewrite F, <- app_assoc. cbn [app length].
    split; [f_equal; lia | ]. split; [now rewrite L | ].
    constructor; assumption.
Qed.

(** X13.  For a period other than ['3y'] and a positive finite current
    price, the chart route returns 24 hourly points for ['1d'] and for any
    unknown period, 168 for ['7d'] and 720 for ['30d'], made with three
    draws each.  Every point has [low <= open <= close <= high], a close
    that differs from the current price by at most one percent of it and
    the half cent of its rounding, an RSI from 30 to 70 and an integer
    volume from 0 to 999999; the caches are not touched. *)
Theorem chart_hourly_points (rnd : nat -> R) (now : Z) (clock : nat -> Z)
    (prices : Prices) (symbol period : string) (st : DataStore) (cp : R) :
  random_source rnd ->
  includes symbol SUPPORTED_COINS = true ->
  String.eqb period "3y" = false ->
  current_price prices symbol = Fin cp -> 0 < cp ->
  exists data,
    chart_route rnd now clock prices symbol period st =
    (ChartOk (dataPoints_of period) (Fin cp) (Hourly data),
     {| historicalDataCache := historicalDataCache st;
        predictionCache := predictionCache st;
        draws := (draws st + 3 * dataPoints_of period)%nat |})
    /\ length data = dataPoints_of period
    /\ Forall (chart_point_ok cp) data.
Proof.
  intros Hr Hs Hper Hcp Hc. unfold chart_route.
  rewrite Hs, Hper, Hcp. cbn [negb].
  destruct (chart_fold_ok rnd clock cp (dataPoints_of period)
              (seq 0 (dataPoints_of period)) Hr Hc [] (draws st))
    as (pts & F & L & P).
  rewrite F. rewrite length_seq in *. cbn [app].
  exists pts. rewrite L. split; [reflexivity | ]. split; [reflexivity | exact P].
Qed.

Lemma chart_hourly_points_witness :
  exists data,
    chart_route (fun _ => 0.5) 0 (fun _ => 0%Z) [] "bitcoin" "1y"
      initial_data_store =
    (ChartOk (dataPoints_of "1y") (Fin 1000) (Hourly data),
     {| historicalDataCache := []; predictionCache := [];
        draws := (0 + 3 * dataPoints_of "1y")%nat |})
    /\ length data = dataPoints_of "1y"
    /\ Forall (chart_point_ok 1000) data.
Proof.
  apply (chart_hourly_points (fun _ => 0.5) 0 (fun _ => 0%Z) [] "bitcoin" "1y"
           initial_data_store 1000).
  - intros k. lra.
  - reflexivity.
  - reflexivity.
  - reflexivity.
  - lra.
Defined.

(** ** The cached series *)

Lemma cached_history_keeps (rnd : nat -> R) (now : Z) (symbol symbol' : string)
    (cp : num) (st : DataStore) (data : list PricePoint) :
  lookup symbol (historicalDataCache st) = Some data ->
  lookup symbol
    (historicalDataCache (snd (cached_history rnd now symbol' cp st)))
  = Some data.
Proof.
  intros H. unfold cached_history.
  destruct (lookup symbol' (historicalDataCache st)) eqn:E; cbn [snd];
    [exact H | ].
  cbn [historicalDataCache]. rewrite lookup_assign_other; [exact H | ].
  intros ->. congruence.
Qed.

Lemma cached_history_hit (rnd : nat -> R) (now : Z) (symbol : string)
    (cp : num) (st : DataStore) (data : list PricePoint) :
  lookup symbol (historicalDataCache st) = Some data ->
  cached_history rnd now symbol cp st = (data, st).
Proof. intros H. unfold cached_history. now rewrite H. Qed.

Lemma serve_keeps_history (rnd : nat -> R) (r : DataRequest) (symbol : string)
    (st : DataStore) (data : list PricePoint) :
  lookup symbol (historicalDataCache st) = Some data ->
  lookup symbol (historicalDataCache (serve rnd st r)) = Some data.
Proof.
  intros H. destruct r as [now clock prices sym period | now prices sym
                          | clock prices sym days | prices sym days
                          | prices sym | prices]; cbn [serve].
  - unfold chart_route.
    destruct (includes sym SUPPORTED_COINS); cbn [negb]; [ | exact H].
    destruct (String.eqb period "3y").
    + pose proof (cached_history_keeps rnd now symbol sym
                    (current_price prices sym) st data H) as K.
      destruct (cached_history rnd now sym (current_price prices sym) st).
      exact K.
    + destruct (fold_left _ _ _). exact H.
  - unfold historical_route.
    destruct (includes sym SUPPORTED_COINS); cbn [negb]; [ | exact H].
    pose proof (cached_history_keeps rnd now symbol sym
                  (current_price prices sym) st data H) as K.
    destruct (cached_history rnd now sym (current_price prices sym) st)
      as [hd st1].
    cbn [snd] in K.
    destruct (nth_error hd 0); [ | exact K].
    destruct (nth_error hd (length hd - 1)); exact K.
  - unfold predictions_route.
    destruct (includes sym SUPPORTED_COINS); cbn [negb]; [ | exact H].
    pose proof (cached_history_keeps rnd (at_history clock) symbol sym
                  (current_price prices sym) st data H) as K.
    destruct (cached_history rnd (at_history clock) sym
                (current_price prices sym) st) as [hd st1].
    cbn [snd] in K.
    destruct (lookup _ (predictionCache st1)) as [e | ].
    + destruct (_ >? _)%Z; exact K.
    + exact K.
  - unfold mock_predictions_route.
    destruct (includes sym SUPPORTED_COINS); cbn [negb]; [ | exact H].
    destruct (fold_left _ _ _). exact H.
  - unfold signals_route.
    destruct (includes sym SUPPORTED_COINS); cbn [negb]; exact H.
  - unfold market_overview. destruct (fold_left _ _ _). exact H.
Qed.

(** X14.  A series of a coin is generated once: whatever requests follow on
    the chart, historical, prediction, signal and overview routes, the cache
    keeps the series it has, and the ['3y'] chart of the coin is that series,
    whatever the current price has become. *)
Theorem history_generated_once (rnd : nat -> R) (reqs : list DataRequest)
    (symbol : string) (st : DataStore) (data : list PricePoint) :
  lookup symbol (historicalDataCache st) = Some data ->
  includes symbol SUPPORTED_COINS = true ->
  let st' := serve_all rnd reqs st in
  lookup symbol (historicalDataCache st') = Some data
  /\ forall now clock prices,
       chart_route rnd now clock prices symbol "3y" st' =
       (ChartOk (length data) (current_price prices symbol) (Series data),
        st').
Proof.
  intros H Hs. cbn zeta.
  assert (lookup symbol (historicalDataCache (serve_all rnd reqs st))
          = Some data) as K.
  { unfold serve_all. revert st H.
    induction reqs as [| r reqs IH]; intros st H; [exact H | ].
    cbn [fold_left]. apply IH. now apply serve_keeps_history. }
  split; [exact K | ]. intros now clock prices. unfold chart_route.
  rewrite Hs. cbn [negb String.eqb Ascii.eqb Bool.eqb].
  now rewrite (cached_history_hit rnd now symbol _ _ data K).
Qed.

Lemma history_generated_once_witness :
  let st := snd (chart_route (fun _ => 0.5) 0 (fun _ => 0%Z) [] "bitcoin"
                   "3y" initial_data_store) in
  let data := generate3YearHistoricalData (shift (fun _ => 0.5) 0) 0
                "bitcoin" (Fin 1000) in
  let st' := serve_all (fun _ => 0.5)
               [HistoricalRequest 5 [] "ethereum"] st in
  lookup "bitcoin" (historicalDataCache st') = Some data
  /\ forall now clock prices,
       chart_route (fun _ => 0.5) now clock prices "bitcoin" "3y" st' =
       (ChartOk (length data) (current_price prices "bitcoin") (Series data),
        st').
Proof.
  apply (history_generated_once (fun _ => 0.5)
           [HistoricalRequest 5 [] "ethereum"] "bitcoin"
           (snd (chart_route (fun _ => 0.5) 0 (fun _ => 0%Z) [] "bitcoin"
                   "3y" initial_data_store))
           (generate3YearHistoricalData (shift (fun _ => 0.5) 0) 0
              "bitcoin" (Fin 1000))).
  - reflexivity.
  - reflexivity.
Defined.

(** ** The summary of the historical route *)

Lemma shift_random (rnd : nat -> R) (k : nat) :
  random_source rnd -> random_source (shift rnd k).
Proof. intros H j. apply H. Qed.

Lemma series_length (rnd : nat -> R) (now : Z) (symbol : string) (c : R) :
  0 < c ->
  length (generate3YearHistoricalData rnd now symbol (Fin c)) = 1095%nat.
Proof.
  intros Hc. destruct (inherited_cases symbol) as [Hs | Hs].
  - rewrite series_NaN_data by exact Hs. now rewrite length_map, length_seq.
  - rewrite series_data by assumption. now rewrite length_map, length_seq.
Qed.







(** * The prediction route *)

Lemma generated_ok (rnd : nat -> R) (now : Z) (symbol : string) (cp : num)
    (hist : list PricePoint) :
  generated_predictions (generateFuturePredictions rnd now symbol cp hist).
Proof.
  assert (length (generateFuturePredictions rnd now symbol cp hist) = 30%nat)
    as L.
  { unfold generateFuturePredictions.
    destruct (predict_run_data rnd now cp hist 30) as [_ ->].
    now rewrite length_map, length_seq. }
  split; [exact L | ]. intros i pt Hi.
  assert (i < 30)%nat as Hlt.
  { rewrite <- L. apply nth_error_Some. congruence. }
  destruct (prediction_confidence rnd now symbol cp hist (S i))
    as (pt' & E & _ & C); [lia | ].
  replace (S i - 1)%nat with i in E by lia. congruence.
Qed.

Lemma cached_history_spec (rnd : nat -> R) (now : Z) (symbol : string)
    (cp : num) (st : DataStore) :
  exists hist st1,
    cached_history rnd now symbol cp st = (hist, st1)
    /\ lookup symbol (historicalDataCache st1) = Some hist
    /\ predictionCache st1 = predictionCache st.
Proof.
  unfold cached_history.
  destruct (lookup symbol (historicalDataCache st)) as [d | ] eqn:E.
  - exists d, st. now split.
  - do 2 eexists. split; [reflexivity | ]. cbn [historicalDataCache].
    split; [apply lookup_assign_same | reflexivity].
Qed.

(** The answer of the prediction route and what it leaves in the caches. *)
Lemma predictions_route_spec (rnd : nat -> R) (clock : Clock) (prices : Prices)
    (symbol : string) (days : Days) (st : DataStore) :
  includes symbol SUPPORTED_COINS = true ->
  let key := (symbol ++ "_" ++ days_text days)%string in
  exists hist e st',
    predictions_route rnd clock prices symbol days st =
    (PredictionsOk (current_price prices symbol)
       (slice_to (days_int days) (pc_data e)) (pc_timestamp e), st')
    /\ lookup symbol (historicalDataCache st') = Some hist
    /\ lookup key (predictionCache st') = Some e
    /\ (predictionCache st' = predictionCache st
        \/ (predictionCache st' = assign key e (predictionCache st)
            /\ generated_predictions (pc_data e))).
Proof.
  intros Hs. cbn zeta. unfold predictions_route. rewrite Hs. cbn [negb].
  destruct (cached_history_spec rnd (at_history clock) symbol
              (current_price prices symbol) st)
    as (hist & st1 & -> & Hh & Hp).
  destruct (lookup _ (predictionCache st1)) as [e | ] eqn:E.
  - destruct (_ >? _)%Z.
    + exists hist. do 2 eexists. split; [reflexivity | ].
      cbn [historicalDataCache predictionCache pc_data].
      split; [exact Hh | ]. split; [apply lookup_assign_same | ].
      right. rewrite Hp. split; [reflexivity | apply generated_ok].
    + exists hist, e, st1. split; [reflexivity | ]. split; [exact Hh | ].
      split; [exact E | ]. left. exact Hp.
  - exists hist. do 2 eexists. split; [reflexivity | ].
    cbn [historicalDataCache predictionCache pc_data].
    split; [exact Hh | ]. split; [apply lookup_assign_same | ].
    right. rewrite Hp. split; [reflexivity | apply generated_ok].
Qed.

Lemma lookup_assign_cases {A : Type} (key key' : string) (v v' : A)
    (obj : list (string * A)) :
  lookup key' (assign key v obj) = Some v' ->
  (key' = key /\ v' = v) \/ lookup key' obj = Some v'.
Proof.
  destruct (String.eqb key key') eqn:E.
  - apply String.eqb_eq in E. subst. rewrite lookup_assign_same.
    intros H. left. split; congruence.
  - apply String.eqb_neq in E. rewrite lookup_assign_other by exact E. auto.
Qed.

Lemma serve_keeps_generated (rnd : nat -> R) (r : DataRequest)
    (st : DataStore) :
  (forall key e, lookup key (predictionCache st) = Some e ->
                 generated_predictions (pc_data e)) ->
  forall key e, lookup key (predictionCache (serve rnd st r)) = Some e ->
                generated_predictions (pc_data e).
Proof.
  intros Inv key e.
  destruct r as [now clock prices sym period | now prices sym
                | clock prices sym days | prices sym days
                | prices sym | prices]; cbn [serve].
  - unfold chart_route.
    destruct (includes sym SUPPORTED_COINS); cbn [negb]; [ | apply Inv].
    destruct (String.eqb period "3y").
    + destruct (cached_history_spec rnd now sym (current_price prices sym) st)
        as (hist & st1 & -> & _ & Hp).
      cbn [snd]. rewrite Hp. apply Inv.
    + destruct (fold_left _ _ _). cbn [snd predictionCache]. apply Inv.
  - unfold historical_route.
    destruct (includes sym SUPPORTED_COINS); cbn [negb]; [ | apply Inv].
    destruct (cached_history_spec rnd now sym (current_price prices sym) st)
      as (hist & st1 & -> & _ & Hp).
    destruct (nth_error hist 0);
      [destruct (nth_error hist (length hist - 1)) | ];
      cbn [snd]; rewrite Hp; apply Inv.
  - destruct (includes sym SUPPORTED_COINS) eqn:Hs.
    + destruct (predictions_route_spec rnd clock prices sym days st Hs)
        as (hist & e' & st' & -> & _ & _ & [Hp | [Hp Hg]]); cbn [snd];
        rewrite Hp; [apply Inv | ].
      intros H. apply lookup_assign_cases in H. destruct H as [[_ ->] | H];
        [exact Hg | now apply Inv in H].
    + unfold predictions_route. rewrite Hs. cbn [negb snd]. apply Inv.
  - unfold mock_predictions_route.
    destruct (includes sym SUPPORTED_COINS); cbn [negb]; [ | apply Inv].
    destruct (fold_left _ _ _). cbn [snd predictionCache]. apply Inv.
  - unfold signals_route.
    destruct (includes sym SUPPORTED_COINS); cbn [negb]; apply Inv.
  - unfold market_overview. destruct (fold_left _ _ _).
    cbn [snd predictionCache]. apply Inv.
Qed.

Lemma slice_to_length {A : Type} (days : Days) (data : list A) :
  length data = 30%nat ->
  length (slice_to (days_int days) data) = expected_predictions days.
Proof.
  intros L. unfold slice_to, expected_predictions.
  destruct (days_int days) as [z | ]; [ | reflexivity].
  destruct (z <? 0)%Z eqn:E; rewrite length_firstn, L;
    [apply Z.ltb_lt in E | apply Z.ltb_ge in E]; lia.
Qed.

Lemma slice_to_nth {A : Type} (n : option Z) (data : list A) (i : nat)
    (x : A) :
  nth_error (slice_to n data) i = Some x -> nth_error data i = Some x.
Proof.
  unfold slice_to. destruct n as [z | ].
  - destruct (z <? 0)%Z; rewrite nth_error_firstn;
      destruct (_ <? _)%nat; congruence.
  - destruct i; discriminate.
Qed.

(** X16.  In every state the routes can reach from the start of the
    server, the prediction route answers a supported coin with a prefix of
    an array of 30 generated predictions: [days] predictions when [days] is
    between 0 and 30, all 30 when it is larger, none when it is not a
    number, and the array less its last [-days] elements when [days] is
    negative.  The confidence of the prediction at index [i] is
    0.94 - 0.01 * i. *)
Theorem predictions_served (rnd : nat -> R) (reqs : list DataRequest)
    (clock : Clock) (prices : Prices) (symbol : string) (days : Days) :
  includes symbol SUPPORTED_COINS = true ->
  let st := serve_all rnd reqs initial_data_store in
  exists preds updated,
    fst (predictions_route rnd clock prices symbol days st) =
    PredictionsOk (current_price prices symbol) preds updated
    /\ length preds = expected_predictions days
    /\ forall i pt,
         nth_error preds i = Some pt ->
         confidence pt = Fin (0.95 - 0.01 * INR (S i)).
Proof.
  intros Hs. cbn zeta.
  assert (forall key e,
            lookup key (predictionCache (serve_all rnd reqs initial_data_store))
            = Some e -> generated_predictions (pc_data e)) as Inv.
  { unfold serve_all.
    assert (forall st : DataStore,
              (forall key e, lookup key (predictionCache st) = Some e ->
                             generated_predictions (pc_data e)) ->
              forall key e,
                lookup key (predictionCache (fold_left (serve rnd) reqs st))
                = Some e -> generated_predictions (pc_data e)) as G.
    { induction reqs as [| r reqs IH]; intros st H; [exact H | ].
      cbn [fold_left]. apply IH. now apply serve_keeps_generated. }
    apply G. intros key e H. discriminate H. }
  revert Inv. generalize (serve_all rnd reqs initial_data_store) as st.
  intros st Inv.
  destruct (predictions_route_spec rnd clock prices symbol days st Hs)
    as (hist & e & st' & -> & _ & He & [Hp | [Hp Hg]]); cbn [fst].
  - rewrite Hp in He. destruct (Inv _ _ He) as [L C].
    do 2 eexists. split; [reflexivity | ].
    split; [now apply slice_to_length | ].
    intros i pt H. apply slice_to_nth in H. now apply C.
  - destruct Hg as [L C]. do 2 eexists. split; [reflexivity | ].
    split; [now apply slice_to_length | ].
    intros i pt H. apply slice_to_nth in H. now apply C.
Qed.

Lemma predictions_served_witness :
  let st := serve_all (fun _ => 0.5) [HistoricalRequest 5 [] "ethereum"]
              initial_data_store in
  let clock := {| at_history := 0; at_test := 0; at_predictions := 0;
                  at_store := 0 |} in
  let days := {| days_text := "7"; days_int := Some 7%Z |} in
  exists preds updated,
    fst (predictions_route (fun _ => 0.5) clock [] "bitcoin" days st) =
    PredictionsOk (current_price [] "bitcoin") preds updated
    /\ length preds = expected_predictions days
    /\ forall i pt,
         nth_error preds i = Some pt ->
         confidence pt = Fin (0.95 - 0.01 * INR (S i)).
Proof.
  apply (predictions_served (fun _ => 0.5)
           [HistoricalRequest 5 [] "ethereum"]
           {| at_history := 0; at_test := 0; at_predictions := 0;
              at_store := 0 |}
           [] "bitcoin" {| days_text := "7"; days_int := Some 7%Z |}).
  reflexivity.
Defined.

(** X17.  Predictions are kept for an hour per coin and text of [days]: a
    request of the same coin and [days] made right after one that was
    answered with predictions stamped [t], and testing the age at most an
    hour after [t], gets the same predictions and the same stamp and
    changes nothing, whatever the current price has become. *)
Theorem prediction_cache_hour (rnd : nat -> R) (clock1 clock2 : Clock)
    (prices1 prices2 : Prices) (symbol : string) (days : Days)
    (st : DataStore) (cp1 : num) (preds : list PredictionPoint) (t : Z) :
  fst (predictions_route rnd clock1 prices1 symbol days st) =
  PredictionsOk cp1 preds t ->
  (at_test clock2 - t <= 60 * 60 * 1000)%Z ->
  let st1 := snd (predictions_route rnd clock1 prices1 symbol days st) in
  predictions_route rnd clock2 prices2 symbol days st1 =
  (PredictionsOk (current_price prices2 symbol) preds t, st1).
Proof.
  intros H1 Ht. cbn zeta.
  destruct (includes symbol SUPPORTED_COINS) eqn:Hs.
  2: { unfold predictions_route in H1. rewrite Hs in H1. discriminate H1. }
  destruct (predictions_route_spec rnd clock1 prices1 symbol days st Hs)
    as (hist & e & st' & E & Hh & He & _).
  rewrite E in *. cbn [fst snd] in *. injection H1 as _ Hpreds Hstamp.
  unfold predictions_route. rewrite Hs. cbn [negb].
  rewrite (cached_history_hit rnd _ symbol _ st' hist Hh). rewrite He.
  rewrite Hstamp.
  assert ((at_test clock2 - t >? 60 * 60 * 1000)%Z = false) as ->.
  { rewrite Z.gtb_ltb. apply Z.ltb_ge. exact Ht. }
  rewrite Hpreds, Hstamp. reflexivity.
Qed.

Lemma prediction_cache_hour_witness :
  let rnd := fun _ : nat => 0.5 in
  let clock := {| at_history := 0; at_test := 0; at_predictions := 0;
                  at_store := 0 |} in
  let later := {| at_history := 3600000; at_test := 3600000;
                  at_predictions := 3600000; at_store := 3600000 |} in
  let days := {| days_text := "7"; days_int := Some 7%Z |} in
  let hist := generate3YearHistoricalData (shift rnd 0) 0 "bitcoin"
                (Fin 1000) in
  let st1 := snd (predictions_route rnd clock [] "bitcoin" days
                    initial_data_store) in
  predictions_route rnd later generateMockPrices "bitcoin" days st1 =
  (PredictionsOk (current_price generateMockPrices "bitcoin")
     (firstn 7
        (generateFuturePredictions
           (shift rnd (0 + g_draws (gen_run (shift rnd 0) 0 "bitcoin"
                                      (Fin 1000) 1095)))
           0 "bitcoin" (Fin 1000) hist))
     0,
   st1).
Proof.
  apply (prediction_cache_hour (fun _ => 0.5)
           {| at_history := 0; at_test := 0; at_predictions := 0;
              at_store := 0 |}
           {| at_history := 3600000; at_test := 3600000;
              at_predictions := 3600000; at_store := 3600000 |}
           [] generateMockPrices "bitcoin"
           {| days_text := "7"; days_int := Some 7%Z |}
           initial_data_store (Fin 1000)).
  - reflexivity.
  - cbn. lia.
Defined.

(** * The mock prediction, signal and overview routes *)

Lemma fixed_cents (z : Z) :
  (Z.abs z < 10 ^ 9)%Z -> fixed_real 2 (IZR z / 10 ^ 2) = IZR z / 10 ^ 2.
Proof.
  intros H. apply fixed_real_exact.
  assert (-1000000000 < IZR z < 1000000000) as [H1 H2].
  { split; [apply (IZR_lt (-1000000000)) | apply (IZR_lt _ 1000000000)]; lia. }
  apply Rabs_def1; simpl; lra.
Qed.

Lemma fixed_0_3 : fixed_real 2 0.3 = 0.3.
Proof.
  replace 0.3 with (IZR 30 / 10 ^ 2) by (simpl; lra). apply fixed_cents. lia.
Qed.

Lemma fixed_0_6 : fixed_real 2 0.6 = 0.6.
Proof.
  replace 0.6 with (IZR 60 / 10 ^ 2) by (simpl; lra). apply fixed_cents. lia.
Qed.

Lemma fixed_0_7 : fixed_real 2 0.7 = 0.7.
Proof.
  replace 0.7 with (IZR 70 / 10 ^ 2) by (simpl; lra). apply fixed_cents. lia.
Qed.

Lemma fixed_1 : fixed_real 2 1 = 1.
Proof.
  replace 1 with (IZR 100 / 10 ^ 2) by (simpl; lra). apply fixed_cents. lia.
Qed.

Lemma fixed_5 : fixed_real 2 5 = 5.
Proof.
  replace 5 with (IZR 500 / 10 ^ 2) by (simpl; lra). apply fixed_cents. lia.
Qed.

Lemma fixed_minus_5 : fixed_real 2 (-5) = -5.
Proof.
  replace (-5) with (IZR (-500) / 10 ^ 2) by (simpl; lra).
  apply fixed_cents. lia.
Qed.

(** A value rounded to two decimals stays between bounds that have at most
    two decimals. *)
Lemma fixed_between (a b x : R) :
  fixed_real 2 a = a -> fixed_real 2 b = b -> a <= x <= b ->
  a <= fixed_real 2 x <= b.
Proof.
  intros Ha Hb [H1 H2].
  pose proof (fixed_real_mono 2 a x H1) as L.
  pose proof (fixed_real_mono 2 x b H2) as U.
  rewrite Ha in L. rewrite Hb in U. split; assumption.
Qed.

Lemma Int_part_of_IZR (z : Z) : Int_part (IZR z) = z.
Proof. symmetry. apply Int_part_spec. lra. Qed.

(** [['buy', 'sell', 'hold'][Math.floor(Math.random() * 3)]] is never
    [undefined]. *)
Lemma pick_defined (u : R) :
  0 <= u < 1 ->
  array_at [buy; sell; hold] (Math_floor (Fin u * Fin 3)%js) <> None.
Proof.
  intros Hu. cbn [mul Math_floor array_at].
  rewrite Int_part_of_IZR.
  destruct (Req_dec_T _ _) as [_ | N]; [ | now contradiction N].
  pose proof (Int_part_bounds (u * 3)) as [B1 B2].
  assert (0 <= Int_part (u * 3))%Z as Z0 by (apply Int_part_nonneg; lra).
  assert (Int_part (u * 3) < 3)%Z as Z3.
  { apply lt_IZR. lra. }
  destruct (Int_part (u * 3) <? 0)%Z eqn:E; [apply Z.ltb_lt in E; lia | ].
  assert (Z.to_nat (Int_part (u * 3)) < 3)%nat as L by lia.
  destruct (Z.to_nat (Int_part (u * 3))) as [| [| [| n]]];
    cbn; try discriminate. lia.
Qed.

Lemma mock_step_ok (rnd : nat -> R) (cp : R) (acc : list MockPrediction)
    (k i : nat) :
  random_source rnd -> 0 < cp ->
  exists pt,
    mock_prediction_step rnd (Fin cp) (acc, k) i = (acc ++ [pt], (k + 6)%nat)
    /\ mock_prediction_ok cp pt.
Proof.
  intros Hr Hc. unfold mock_prediction_step, Math_random.
  pose proof (Hr k) as H1. pose proof (Hr (S k)) as H2.
  pose proof (Hr (S (S k))) as H3. pose proof (Hr (S (S (S k)))) as H4.
  pose proof (Hr (S (S (S (S k))))) as H5.
  pose proof (Hr (S (S (S (S (S k)))))) as H6.
  replace (k + 6)%nat with (S (S (S (S (S (S k)))))) by lia.
  eexists. split; [reflexivity | ].
  unfold mock_prediction_ok.
  cbn [mp_predictedPrice mp_confidence mp_signal mp_signalStrength mp_rsi
       mp_macd mp_support mp_resistance].
  assert (exists t, (if gtb (Fin (rnd k)) (Fin 0.5) then Fin 1 else Fin (-1))
                    = Fin t /\ (t = 1 \/ t = -1)) as (t & -> & Ht).
  { destruct (gtb _ _); [exists 1 | exists (-1)]; split; auto. }
  cbn [add sub neg mul]. rewrite !toFixed_fin.
  set (p := cp * (1 + _ * t)).
  assert (cp * 0.95 <= p <= cp * 1.05) as Hp.
  { unfold p. destruct Ht as [-> | ->]; nra. }
  do 7 eexists.
  split; [reflexivity | ]. split; [reflexivity | ]. split; [reflexivity | ].
  split; [reflexivity | ]. split; [reflexivity | ]. split; [reflexivity | ].
  split; [reflexivity | ].
  split.
  { pose proof (fixed_real_near 2 p) as N. rewrite half_cent in N.
    apply Rabs_bounds in N. apply Rabs_le. lra. }
  split; [apply fixed_between; [apply fixed_0_7 | apply fixed_1 | lra] | ].
  split.
  - destruct (gtb (Fin (rnd (S (S k)))) (Fin 0.7)) eqn:G.
    + apply gtb_fin in G.
      apply fixed_between; [apply fixed_0_7 | apply fixed_1 | lra].
    + apply gtb_fin_false in G. unfold ltb.
      destruct (gtb (Fin 0.3) (Fin (rnd (S (S k))))) eqn:G'.
      * apply gtb_fin in G'.
        apply fixed_between; [apply fixed_real_0 | apply fixed_0_3 | lra].
      * apply gtb_fin_false in G'.
        apply fixed_between; [apply fixed_0_3 | apply fixed_0_7 | lra].
  - split; [nra | ]. split; lra.
Qed.

Lemma mock_fold_ok (rnd : nat -> R) (cp : R) (idx : list nat) :
  random_source rnd -> 0 < cp ->
  forall (acc : list MockPrediction) (k : nat),
    exists pts,
      fold_left (mock_prediction_step rnd (Fin cp)) idx (acc, k) =
      (acc ++ pts, (k + 6 * length idx)%nat)
      /\ length pts = length idx
      /\ Forall (mock_prediction_ok cp) pts.
Proof.
  intros Hr Hc. induction idx as [| i idx IH]; intros acc k.
  - exists []. cbn. rewrite app_nil_r, Nat.add_0_r.
    split; [reflexivity | ]. split; [reflexivity | constructor].
  - cbn [fold_left].
    destruct (mock_step_ok rnd cp acc k i Hr Hc) as (pt & E & Hpt).
    rewrite E. destruct (IH (acc ++ [pt]) (k + 6)%nat) as (pts & F & L & P).
    exists (pt :: pts). rewrite F, <- app_assoc. cbn [app length].
    split; [f_equal; lia | ]. split; [now rewrite L | ].
    constructor; assumption.
Qed.

(** X18.  For a supported coin at a positive finite current price, the mock
    prediction route makes as many predictions as [parseInt(days)] says,
    none when that is NaN, zero or negative, with six draws each.  Every
    predicted price differs from the current price by at most five percent
    of it and the half cent of its rounding, the confidence lies in
    [0.7, 1], the signal agrees with the signal
    strength (buy from 0.7, sell up to 0.3, hold between), and the support
    is positive and below the resistance. *)
Theorem mock_predictions_range (rnd : nat -> R) (prices : Prices)
    (symbol : string) (days : Days) (st : DataStore) (cp : R) :
  random_source rnd ->
  includes symbol SUPPORTED_COINS = true ->
  current_price prices symbol = Fin cp -> 0 < cp ->
  exists preds,
    mock_predictions_route rnd prices symbol days st =
    (MockPredictionsOk (Fin cp) preds (days_int days),
     {| historicalDataCache := historicalDataCache st;
        predictionCache := predictionCache st;
        draws := (draws st + 6 * iterations (days_int days))%nat |})
    /\ length preds = iterations (days_int days)
    /\ Forall (mock_prediction_ok cp) preds.
Proof.
  intros Hr Hs Hcp Hc. unfold mock_predictions_route.
  rewrite Hs, Hcp. cbn [negb].
  destruct (mock_fold_ok rnd cp (seq 0 (iterations (days_int days))) Hr Hc
              [] (draws st)) as (pts & F & L & P).
  rewrite F. rewrite length_seq in *. cbn [app].
  exists pts. split; [reflexivity | ]. split; [exact L | exact P].
Qed.

Lemma mock_predictions_range_witness :
  let days := {| days_text := "10"; days_int := Some 10%Z |} in
  exists preds,
    mock_predictions_route (fun _ => 0.5) [] "bitcoin" days initial_data_store =
    (MockPredictionsOk (Fin 1000) preds (Some 10%Z),
     {| historicalDataCache := []; predictionCache := [];
        draws := (0 + 6 * iterations (Some 10%Z))%nat |})
    /\ length preds = iterations (Some 10%Z)
    /\ Forall (mock_prediction_ok 1000) preds.
Proof.
  apply (mock_predictions_range (fun _ => 0.5) [] "bitcoin"
           {| days_text := "10"; days_int := Some 10%Z |}
           initial_data_store 1000).
  - intros k. lra.
  - reflexivity.
  - reflexivity.
  - lra.
Defined.

(** X19.  For a supported coin at a positive finite current price, the
    price targets of the signal route are ordered: stop loss, support,
    the current price rounded to cents, resistance, next target; none is
    negative.  The overall signal is never undefined, its strength lies
    in [0.6, 1] and its confidence in [0.7, 1]; seven draws are made. *)
Theorem signals_targets_ordered (rnd : nat -> R) (prices : Prices)
    (symbol : string) (st : DataStore) (cp : R) :
  random_source rnd ->
  includes symbol SUPPORTED_COINS = true ->
  current_price prices symbol = Fin cp -> 0 < cp ->
  exists inr sg,
    signals_route rnd prices symbol st =
    (SignalsOk (Fin cp) inr sg,
     {| historicalDataCache := historicalDataCache st;
        predictionCache := predictionCache st;
        draws := (draws st + 7)%nat |})
    /\ signals_ok cp sg.
Proof.
  intros Hr Hs Hcp Hc. unfold signals_route, Math_random.
  rewrite Hs, Hcp. cbn [negb].
  replace (draws st + 7)%nat
    with (S (S (S (S (S (S (S (draws st)))))))) by lia.
  do 2 eexists. split; [reflexivity | ].
  pose proof (Hr (draws st)) as H1. pose proof (Hr (S (draws st))) as H2.
  pose proof (Hr (S (S (draws st)))) as H3.
  unfold signals_ok.
  cbn [sg_signal sg_strength sg_confidence sg_stopLoss sg_support
       sg_resistance sg_nextTarget].
  cbn [add mul]. rewrite !toFixed_fin.
  do 6 eexists.
  split; [apply pick_defined; exact H1 | ].
  split; [reflexivity | ].
  split; [apply fixed_between; [apply fixed_0_6 | apply fixed_1 | lra] | ].
  split; [reflexivity | ].
  split; [apply fixed_between; [apply fixed_0_7 | apply fixed_1 | lra] | ].
  split; [reflexivity | ]. split; [reflexivity | ]. split; [reflexivity | ].
  split; [reflexivity | ].
  split; [apply fixed_real_nonneg; lra | ].
  split; [apply fixed_real_mono; lra | ].
  split; [apply fixed_real_mono; lra | ].
  split; apply fixed_real_mono; lra.
Qed.

Lemma signals_targets_ordered_witness :
  exists inr sg,
    signals_route (fun _ => 0.5) generateMockPrices "solana"
      initial_data_store =
    (SignalsOk (Fin 98.42) inr sg,
     {| historicalDataCache := []; predictionCache := [];
        draws := (0 + 7)%nat |})
    /\ signals_ok 98.42 sg.
Proof.
  apply (signals_targets_ordered (fun _ => 0.5) generateMockPrices "solana"
           initial_data_store 98.42).
  - intros k. lra.
  - reflexivity.
  - unfold current_price, price_field.
    cbn [generateMockPrices mock_entry lookup String.eqb Ascii.eqb Bool.eqb
         pe_price or_default].
    rewrite truthy_pos by lra. reflexivity.
  - lra.
Defined.

Lemma overview_step_ok (rnd : nat -> R) (prices : Prices) (coin : string)
    (overview : list (string * OverviewEntry)) (k : nat) :
  random_source rnd -> In coin SUPPORTED_COINS ->
  (forall c ent, lookup c overview = Some ent -> overview_ok prices c ent) ->
  let r := overview_step rnd prices (overview, k) coin in
  (forall c ent, lookup c (fst r) = Some ent -> overview_ok prices c ent)
  /\ (forall c, lookup c (fst r) <> None <->
                lookup c overview <> None
                \/ (c = coin /\ lookup c prices <> None)).
Proof.
  intros Hr Hin Inv. cbn zeta. unfold overview_step.
  destruct (lookup coin prices) as [e | ] eqn:E.
  - unfold Math_random. cbn [fst]. split.
    + intros c ent H. apply lookup_assign_cases in H.
      destruct H as [[-> ->] | H]; [ | now apply Inv].
      split; [exact Hin | ]. exists e. split; [exact E | ].
      cbn [ov_currentPrice ov_signal ov_change24hPrediction].
      split; [reflexivity | ].
      split; [apply pick_defined; apply Hr | ].
      intros p Hp Hp0. rewrite Hp. cbn [to_number add sub neg mul].
      rewrite div_fin by exact Hp0. cbn [mul]. rewrite toFixed_fin.
      eexists. split; [reflexivity | ].
      pose proof (Hr (S (S k))) as Hu.
      apply fixed_between; [apply fixed_minus_5 | apply fixed_5 | ].
      match goal with
      | |- _ <= (p * (1 + ?d) + - p) / p * 100 <= _ =>
          replace ((p * (1 + d) + - p) / p * 100) with (d * 100)
            by (field; exact Hp0)
      end.
      lra.
    + intros c. destruct (String.eqb coin c) eqn:Ec.
      * apply String.eqb_eq in Ec. subst c. rewrite lookup_assign_same, E.
        split; [intros _; right; split; [reflexivity | discriminate]
               | discriminate].
      * apply String.eqb_neq in Ec. rewrite lookup_assign_other by exact Ec.
        split; [now left | ]. intros [H | [H _]]; [exact H | ].
        now contradiction Ec.
  - cbn [fst]. split; [exact Inv | ]. intros c. split; [now left | ].
    intros [H | [-> H]]; [exact H | ]. now contradiction H.
Qed.

Lemma overview_fold_ok (rnd : nat -> R) (prices : Prices)
    (coins : list string) :
  random_source rnd -> incl coins SUPPORTED_COINS ->
  forall (overview : list (string * OverviewEntry)) (k : nat),
    (forall c ent, lookup c overview = Some ent -> overview_ok prices c ent) ->
    let r := fold_left (overview_step rnd prices) coins (overview, k) in
    (forall c ent, lookup c (fst r) = Some ent -> overview_ok prices c ent)
    /\ (forall c, lookup c (fst r) <> None <->
                  lookup c overview <> None
                  \/ (In c coins /\ lookup c prices <> None)).
Proof.
  intros Hr. induction coins as [| coin coins IH]; intros Hincl overview k Inv.
  - cbn. split; [exact Inv | ]. intros c. split; [now left | ].
    intros [H | [[] _]]. exact H.
  - cbn [fold_left].
    assert (In coin SUPPORTED_COINS) as Hin by (apply Hincl; now left).
    destruct (overview_step_ok rnd prices coin overview k Hr Hin Inv)
      as [Inv1 Keys1].
    destruct (overview_step rnd prices (overview, k) coin) as [ov1 k1].
    cbn [fst] in Inv1, Keys1.
    destruct (IH (fun c H => Hincl c (or_intror H)) ov1 k1 Inv1)
      as [Inv2 Keys2].
    split; [exact Inv2 | ]. intros c. rewrite Keys2, Keys1. cbn [In].
    split.
    + intros [[H | [-> H]] | [H1 H2]]; auto.
    + intros [H | [[<- | H1] H2]]; auto.
Qed.

(** X20.  The market overview has an entry exactly for the supported coins
    the prices have an entry for.  Each entry carries the coin's price, its
    signal is never undefined, and when the price is a finite number other
    than zero the predicted change of the next day lies between -5 and 5
    percent. *)
Theorem overview_entries (rnd : nat -> R) (prices : Prices) (st : DataStore) :
  random_source rnd ->
  let overview := fst (market_overview rnd prices st) in
  (forall coin,
     lookup coin overview <> None <->
     In coin SUPPORTED_COINS /\ lookup coin prices <> None)
  /\ forall coin ent,
       lookup coin overview = Some ent -> overview_ok prices coin ent.
Proof.
  intros Hr. cbn zeta. unfold market_overview.
  destruct (overview_fold_ok rnd prices SUPPORTED_COINS Hr
              (fun c H => H) [] (draws st)) as [Inv Keys].
  { intros c ent H. discriminate H. }
  destruct (fold_left _ _ _) as [overview k]. cbn [fst] in *.
  split; [ | exact Inv]. intros coin. rewrite Keys. cbn [lookup].
  split; [intros [H | H]; [now contradiction H | exact H] | now right].
Qed.

Lemma overview_entries_witness :
  let overview :=
    fst (market_overview (fun _ => 0.5) generateMockPrices
           initial_data_store) in
  (forall coin,
     lookup coin overview <> None <->
     In coin SUPPORTED_COINS /\ lookup coin generateMockPrices <> None)
  /\ forall coin ent,
       lookup coin overview = Some ent ->
       overview_ok generateMockPrices coin ent.
Proof.
  apply (overview_entries (fun _ => 0.5) generateMockPrices
           initial_data_store).
  intros k. lra.
Defined.

(** * The signals of the series *)

Lemma point_signals (rnd : nat -> R) (now : Z) (price : num)
    (prices : list num) (i k : nat) :
  signals (fst (day_point rnd now price prices i k)) =
  snd (indicators_of prices).
Proof.
  unfold day_point, Math_random. now destruct (indicators_of prices).
Qed.

Lemma fixed_70 : fixed_real 2 70 = 70.
Proof.
  replace 70 with (IZR 7000 / 10 ^ 2) by (simpl; lra). apply fixed_cents. lia.
Qed.

Lemma fixed_30 : fixed_real 2 30 = 30.
Proof.
  replace 30 with (IZR 3000 / 10 ^ 2) by (simpl; lra). apply fixed_cents. lia.
Qed.

(** The three signals on any finite closes. *)
Lemma indicators_agree (ps : list R) :
  signals_agree (fst (indicators_of (map Fin ps)))
    (snd (indicators_of (map Fin ps))).
Proof.
  unfold indicators_of, signals_agree.
  cbn [fst snd trend rsi_signal macd_signal sma20 sma50 rsi macd].
  rewrite !calculateSMA_fin by lia. rewrite calculateMACD_fin.
  split; [ | split].
  - destruct (length ps <? 20)%nat; [now left | ].
    destruct (length ps <? 50)%nat; [now right | ].
    set (a := fold_right Rplus 0 (slice_last 20 ps) / INR 20).
    set (b := fold_right Rplus 0 (slice_last 50 ps) / INR 50).
    cbn [field_of].
    destruct (truthy (Fin a)); [ | now left].
    destruct (truthy (Fin b)); [ | now right]. cbn [andb].
    rewrite !toFixed_fin.
    destruct (gtb (Fin a) (Fin b)) eqn:G.
    + apply gtb_fin in G. do 2 eexists. split; [reflexivity | ].
      split; [reflexivity | ]. apply fixed_real_mono. lra.
    + apply gtb_fin_false in G. do 2 eexists. split; [reflexivity | ].
      split; [reflexivity | ]. now apply fixed_real_mono.
  - destruct (Nat.ltb_spec (length ps) 15) as [Hlt | Hge].
    + rewrite calculateRSI_short by (rewrite length_map; lia). now left.
    + destruct (calculateRSI_cases ps 14) as [(_ & _ & ->) | (r & -> & Hr & _)];
        try lia; cbn [field_of truthy]; [now left | ].
      destruct (Req_dec_T r 0) as [-> | Hr0]; [now left | ].
      rewrite toFixed_fin.
      destruct (gtb (Fin r) (Fin 70)) eqn:G.
      * apply gtb_fin in G. eexists. split; [reflexivity | ].
        rewrite <- fixed_70 at 1. apply fixed_real_mono. lra.
      * apply gtb_fin_false in G. unfold ltb.
        destruct (gtb (Fin 30) (Fin r)) eqn:G'.
        -- apply gtb_fin in G'. eexists. split; [reflexivity | ].
           rewrite <- fixed_30. apply fixed_real_mono. lra.
        -- apply gtb_fin_false in G'. right. eexists.
           split; [reflexivity | ].
           apply fixed_between; [apply fixed_30 | apply fixed_70 | lra].
  - destruct (length ps <? 26)%nat; [reflexivity | ].
    destruct (truthy (Fin (ema_spec ps 12)) && truthy (Fin (ema_spec ps 26)));
      [ | reflexivity].
    set (m := ema_spec ps 12 - ema_spec ps 26). cbn [field_of].
    destruct (truthy (Fin m)); [ | reflexivity]. rewrite toFixed_fin.
    destruct (gtb (Fin m) (Fin 0)) eqn:G.
    + apply gtb_fin in G. eexists. split; [reflexivity | ].
      apply fixed_real_nonneg. lra.
    + apply gtb_fin_false in G. eexists. split; [reflexivity | ].
      rewrite <- (fixed_real_0 4). now apply fixed_real_mono.
Qed.

(** X21.  In every series generated for a positive current price, whatever
    the draws, the signals of each point agree with the indicators shown
    with it: a bullish or bearish trend comes with an SMA20 and an SMA50
    ordered that way, and the trend is neutral exactly when one of the two
    is missing; an overbought or oversold RSI signal comes with an RSI of at
    least 70 or at most 30; a bullish or bearish MACD signal comes with a
    MACD that is not negative or not positive, and a neutral one with
    none. *)
Theorem series_signals_agree (rnd : nat -> R) (now : Z) (symbol : string)
    (c : R) :
  0 < c ->
  Forall (fun pt => signals_agree (indicators pt) (signals pt))
    (generate3YearHistoricalData rnd now symbol (Fin c)).
Proof.
  intros Hc. apply Forall_forall. intros pt Hin.
  destruct (inherited_cases symbol) as [Hs | Hs].
  { apply (series_NaN rnd now symbol (Fin c) pt Hs) in Hin.
    destruct Hin as (i & _ & ->). unfold nan_point.
    rewrite point_indicators, point_signals, indicators_NaN.
    split; [now left | ]. split; [now left | reflexivity]. }
  apply series_In in Hin; [ | exact Hs | exact Hc].
  destruct Hin as (i & _ & ->).
  unfold series_point. rewrite point_indicators, point_signals.
  apply indicators_agree.
Qed.

Lemma series_signals_agree_witness :
  Forall (fun pt => signals_agree (indicators pt) (signals pt))
    (generate3YearHistoricalData (fun _ => 0.5) 0 "bitcoin" (Fin 65000)).
Proof.
  apply (series_signals_agree (fun _ => 0.5) 0 "bitcoin" 65000). lra.
Defined.

(** * The dates and volumes of the series *)

Lemma point_timestamp (rnd : nat -> R) (now : Z) (price : num)
    (prices : list num) (i k : nat) :
  timestamp (fst (day_point rnd now price prices i k)) =
  (now - 3 * 365 * day_ms + Z.of_nat i * day_ms)%Z.
Proof.
  unfold day_point, Math_random. now destruct (indicators_of prices).
Qed.

Lemma point_volume (rnd : nat -> R) (now : Z) (price : num)
    (prices : list num) (i k : nat) :
  volume (fst (day_point rnd now price prices i k)) =
  Fin (fixed_real 0 (rnd k * 1000000000)).
Proof.
  unfold day_point, Math_random. destruct (indicators_of prices).
  cbn [fst volume mul]. apply toFixed_fin.
Qed.

Lemma fixed_integer (x : R) :
  0 <= x <= 1000000000 ->
  exists z, fixed_real 0 x = IZR z /\ (0 <= z <= 1000000000)%Z.
Proof.
  intros [H0 H1]. unfold fixed_real.
  destruct (Rle_dec 1e21 (Rabs x)) as [Hbig | _].
  { rewrite Rabs_pos_eq in Hbig by exact H0. lra. }
  exists (round_half_away (x * 10 ^ 0)). split; [simpl; field | ].
  replace (x * 10 ^ 0) with x by (simpl; lra).
  pose proof (round_half_away_mono 0 x H0) as L.
  pose proof (round_half_away_mono x (IZR 1000000000) H1) as U.
  rewrite round_half_away_IZR in U.
  change 0 with (IZR 0) in L. rewrite round_half_away_IZR in L. lia.
Qed.

Lemma some_point (p q : PricePoint) : Some p = Some q -> q = p.
Proof. intros H. congruence. Qed.

(** X22.  The series generated at time [now] for a positive current price
    is dated one day apart from 1095 days before [now] to one day before
    [now]: the point at index [i] is stamped [now] less [1095 - i] days, so
    the last point is yesterday's.  Every volume is an integer from 0 to
    1000000000. *)
Theorem series_dates_volumes (rnd : nat -> R) (now : Z) (symbol : string)
    (c : R) (i : nat) (pt : PricePoint) :
  random_source rnd -> 0 < c ->
  nth_error (generate3YearHistoricalData rnd now symbol (Fin c)) i = Some pt ->
  timestamp pt = (now - Z.of_nat (1095 - i) * day_ms)%Z
  /\ exists z, volume pt = Fin (IZR z) /\ (0 <= z <= 1000000000)%Z.
Proof.
  intros Hr Hc Hi.
  assert (i < 1095)%nat as Hlt.
  { rewrite <- (series_length rnd now symbol c Hc).
    apply nth_error_Some. congruence. }
  assert (exists price prices,
            pt = fst (day_point rnd now price prices i (5 * i + 1))) as E.
  { destruct (inherited_cases symbol) as [Hs | Hs].
    - rewrite series_NaN_data in Hi by exact Hs.
      rewrite nth_error_map, nth_error_seq in Hi.
      apply Nat.ltb_lt in Hlt. rewrite Hlt in Hi.
      change (Some (nan_point rnd now i) = Some pt) in Hi.
      exists NaN, (repeat NaN (S i)).
      now apply some_point in Hi.
    - rewrite series_nth in Hi by assumption.
      exists (Fin (price_path rnd (c * base_fraction symbol) c (S i))),
             (map Fin (closes rnd (c * base_fraction symbol) c (S i))).
      now apply some_point in Hi. }
  destruct E as (price & prices & ->).
  rewrite point_timestamp, point_volume. split.
  - rewrite Nat2Z.inj_sub by lia. unfold day_ms. lia.
  - pose proof (Hr (5 * i + 1)%nat) as Hu.
    destruct (fixed_integer (rnd (5 * i + 1)%nat * 1000000000)) as (z & E & Hz);
      [lra | ].
    exists z. split; [now rewrite E | exact Hz].
Qed.

Lemma series_dates_volumes_witness :
  timestamp
    (series_point (fun _ => 0.5) 0 (65000 * base_fraction "bitcoin") 65000
       1094)
  = (0 - Z.of_nat (1095 - 1094) * day_ms)%Z
  /\ exists z,
       volume
         (series_point (fun _ => 0.5) 0 (65000 * base_fraction "bitcoin")
            65000 1094)
       = Fin (IZR z)
       /\ (0 <= z <= 1000000000)%Z.
Proof.
  apply (series_dates_volumes (fun _ => 0.5) 0 "bitcoin" 65000 1094).
  - intros k. lra.
  - lra.
  - apply series_nth; [reflexivity | lra | lia].
Defined.

(** * Predictions from a short history *)

Lemma avgChange_single (pt : PricePoint) : avgChange_of [pt] = NaN.
Proof.
  unfold avgChange_of. cbn [slice_last length Nat.sub skipn map seq fold_left
                            Nat.eqb of_nat INR sub neg add].
  replace (1 + - (1)) with 0 by lra. apply div_zero_zero.
Qed.

Lemma predict_price_NaN (rnd : nat -> R) (now : Z) (cp : num)
    (hist : list PricePoint) (n : nat) :
  avgChange_of hist = NaN ->
  s_price (predict_run rnd now cp hist (S n)) = NaN.
Proof.
  intros Ha. rewrite predict_run_S. unfold predict_step, Math_random.
  cbn [s_price]. rewrite Ha. unfold totalChange_of.
  cbn [mul add]. apply mul_NaN_r.
Qed.

(** X23.  With a history of a single point the average daily change is
    0 / 0: every one of the 30 predictions then has the price NaN, a band
    of NaN, the signal neutral and the factors negative and weak, whatever
    the current price and the draws. *)
Theorem predictions_single_point_history (rnd : nat -> R) (now : Z)
    (symbol : string) (cp : num) (pt : PricePoint) :
  length (generateFuturePredictions rnd now symbol cp [pt]) = 30%nat
  /\ Forall (fun p =>
               predictedPrice p = NaN
               /\ range_high p = NaN /\ range_low p = NaN
               /\ signal p = neutral
               /\ factor_trend p = negative_trend
               /\ factor_strength p = weak)
       (generateFuturePredictions rnd now symbol cp [pt]).
Proof.
  unfold generateFuturePredictions.
  destruct (predict_run_data rnd now cp [pt] 30) as [_ ->].
  split; [now rewrite length_map, length_seq | ].
  apply Forall_forall. intros p Hin. apply in_map_iff in Hin.
  destruct Hin as (i & <- & Hi). apply in_seq in Hi.
  destruct i as [| n]; [lia | ].
  rewrite (predict_price_NaN rnd now cp [pt] n (avgChange_single pt)).
  rewrite avgChange_single. unfold predict_point, volatilityBand_of.
  cbn [predictedPrice range_high range_low signal factor_trend
       factor_strength toFixed mul add sub gtb Math_abs].
  unfold ltb. rewrite gtb_NaN_r.
  split; [reflexivity | ]. split; [reflexivity | ]. split; [reflexivity | ].
  split; [reflexivity | ]. split; reflexivity.
Qed.

(** * Predictions from positive closes *)

Lemma Forall_slice_last {A : Type} (P : A -> Prop) (n : nat) (l : list A) :
  Forall P l -> Forall P (slice_last n l).
Proof.
  intros H. unfold slice_last. destruct n; [exact H | ].
  rewrite <- (firstn_skipn (length l - S n) l) in H.
  apply Forall_app in H. apply H.
Qed.

(** The sum of the daily returns over the first [n] closes of [rs]. *)
Lemma returns_fold (rs : list R) (n : nat) :
  Forall (fun x => 0 < x) rs -> (n <= length rs)%nat ->
  exists s,
    fold_left
      (fun sum i =>
         if (i =? 0)%nat then Fin 0
         else (sum + (get (map Fin rs) i - get (map Fin rs) (i - 1))
                     / get (map Fin rs) (i - 1))%js)
      (seq 0 n) (Fin 0) = Fin s
    /\ - INR (n - 1) <= s.
Proof.
  intros Hpos. induction n as [| n IH]; intros Hn.
  - exists 0. cbn. split; [reflexivity | lra].
  - destruct IH as (s & E & Hs); [lia | ].
    rewrite seq_S, fold_left_app, E. cbn [fold_left Nat.add].
    destruct n as [| m].
    + exists 0. cbn. split; [reflexivity | lra].
    + cbn [Nat.eqb]. replace (S m - 1)%nat with m in * by lia.
      rewrite !get_map_Fin by lia.
      assert (0 < nth (S m) rs 0) as H1.
      { rewrite Forall_forall in Hpos. apply Hpos. apply nth_In. lia. }
      assert (0 < nth m rs 0) as H0.
      { rewrite Forall_forall in Hpos. apply Hpos. apply nth_In. lia. }
      cbn [sub neg add]. rewrite div_fin by lra. cbn [add].
      eexists. split; [reflexivity | ].
      replace (S (S m) - 1)%nat with (S m) by lia. rewrite S_INR.
      assert (0 < nth (S m) rs 0 / nth m rs 0) as Hq
        by (apply Rdiv_lt_0_compat; assumption).
      replace ((nth (S m) rs 0 + - nth m rs 0) / nth m rs 0)
        with (nth (S m) rs 0 / nth m rs 0 - 1) by (field; lra).
      lra.
Qed.

(** On a history of at least two points with positive finite closes, the
    average daily change is a finite number above -1. *)
Lemma avgChange_bound (hist : list PricePoint) (cls : list R) :
  map close hist = map Fin cls -> Forall (fun x => 0 < x) cls ->
  (2 <= length cls)%nat ->
  exists a, avgChange_of hist = Fin a /\ -1 <= a.
Proof.
  intros Hc Hpos Hlen. unfold avgChange_of.
  rewrite <- slice_last_map, Hc, slice_last_map.
  set (rs := slice_last 30 cls).
  assert (Forall (fun x => 0 < x) rs) as Hrs by now apply Forall_slice_last.
  assert (2 <= length rs)%nat as Hm.
  { unfold rs, slice_last. rewrite length_skipn. lia. }
  rewrite length_map.
  destruct (returns_fold rs (length rs) Hrs (Nat.le_refl _)) as (s & -> & Hs).
  unfold of_nat. cbn [sub neg add].
  assert (2 <= INR (length rs)) as Hr by (apply (le_INR 2); exact Hm).
  rewrite div_fin by lra. eexists. split; [reflexivity | ].
  rewrite minus_INR in Hs by lia. cbn [INR] in Hs.
  apply Rmult_le_reg_r with (INR (length rs) + - (1)); [lra | ].
  unfold Rdiv. rewrite Rmult_assoc, Rinv_l by lra. lra.
Qed.

Lemma total_change_bound (rnd : nat -> R) (a : R) (i : nat) :
  random_source rnd -> -1 <= a -> (i <= 30)%nat ->
  -0.338 - 0.3 < total_change rnd a i.
Proof.
  intros Hr Ha Hi. unfold total_change.
  pose proof (SIN_bound (INR i / 30 * 2 * PI)) as [S1 _].
  pose proof (Hr (i - 1)%nat) as Hu.
  assert (0 <= INR i <= 30) as [I0 I1].
  { split; [apply pos_INR | apply (INR_le_IZR i 30); lia]. }
  lra.
Qed.

Lemma pred_path_positive (rnd : nat -> R) (a c : R) (n : nat) :
  random_source rnd -> -1 <= a -> 0 < c -> (n <= 30)%nat ->
  0 < pred_path rnd a c n.
Proof.
  intros Hr Ha Hc. induction n as [| n IH]; intros Hn.
  - exact Hc.
  - rewrite pred_path_S.
    pose proof (total_change_bound rnd a (S n) Hr Ha Hn).
    apply Rmult_lt_0_compat; [apply IH; lia | lra].
Qed.

(** X24.  From a history of at least two points whose closes are positive
    finite numbers, and a positive finite current price, the average daily
    change is a finite number that is at least -1, and, whatever the draws,
    the 30 predicted prices and the lows of their bands are finite and not
    negative, each low at most its price. *)
Theorem predictions_not_negative (rnd : nat -> R) (now : Z) (symbol : string)
    (c : R) (hist : list PricePoint) (cls : list R) :
  random_source rnd -> 0 < c ->
  map close hist = map Fin cls -> Forall (fun x => 0 < x) cls ->
  (2 <= length cls)%nat ->
  (exists a, avgChange_of hist = Fin a /\ -1 <= a)
  /\ Forall (fun p => exists pp lo,
               predictedPrice p = Fin pp /\ 0 <= pp
               /\ range_low p = Fin lo /\ 0 <= lo /\ lo <= pp)
       (generateFuturePredictions rnd now symbol (Fin c) hist).
Proof.
  intros Hr Hc Hcl Hpos Hlen.
  destruct (avgChange_bound hist cls Hcl Hpos Hlen) as (a & Ea & Ha).
  split; [now exists a | ].
  unfold generateFuturePredictions.
  destruct (predict_run_data rnd now (Fin c) hist 30) as [_ ->].
  apply Forall_forall. intros p Hin. apply in_map_iff in Hin.
  destruct Hin as (i & <- & Hi). apply in_seq in Hi.
  rewrite (predict_run_fin rnd now c a hist i Ea).
  pose proof (pred_path_positive rnd a c i Hr Ha Hc) as Hp.
  set (x := pred_path rnd a c i) in *.
  destruct (band_fields now (Fin c) (avgChange_of hist) x i) as (E1 & _ & E3).
  assert (0 < x) as Hx by (apply Hp; lia).
  assert (0 <= INR i <= 30) as [I0 I1].
  { split; [apply pos_INR | apply (INR_le_IZR i 30); lia]. }
  do 2 eexists. split; [exact E1 | ].
  split; [apply fixed_real_nonneg; lra | ]. split; [exact E3 | ].
  split; [apply fixed_real_nonneg; nra | apply fixed_real_mono; nra].
Qed.

Lemma predictions_not_negative_witness :
  (exists a,
     avgChange_of [flat_point 0 100; flat_point 1 80] = Fin a /\ -1 <= a)
  /\ Forall (fun p => exists pp lo,
               predictedPrice p = Fin pp /\ 0 <= pp
               /\ range_low p = Fin lo /\ 0 <= lo /\ lo <= pp)
       (generateFuturePredictions (fun _ => 0.5) 0 "bitcoin" (Fin 65000)
          [flat_point 0 100; flat_point 1 80]).
Proof.
  apply (predictions_not_negative (fun _ => 0.5) 0 "bitcoin" 65000
           [flat_point 0 100; flat_point 1 80] [100; 80]).
  - intros k. lra.
  - lra.
  - reflexivity.
  - constructor; [lra | constructor; [lra | constructor]].
  - cbn. lia.
Defined.

(** * The bands of the series *)

Lemma bands_of_positive (ps : list R) :
  Forall (fun p => 0 < p) ps ->
  bands_straddle (fst (indicators_of (map Fin ps))).
Proof.
  intros Hpos. unfold bands_straddle.
  destruct (indicator_fields (map Fin ps))
    as (E20 & _ & _ & _ & _ & Eup & Elo).
  cbn zeta in E20, Eup, Elo. rewrite E20, Eup, Elo.
  rewrite calculateSMA_fin by lia.
  destruct (Nat.ltb_spec (length ps) 20) as [Hlt | Hge].
  - left. cbn [field_of]. split; [reflexivity | ]. split; reflexivity.
  - right. assert (1 <= 20 <= length ps)%nat as Hp by lia.
    pose proof (sma_pos ps 20 Hp Hpos) as Hm.
    set (m := fold_right Rplus 0 (slice_last 20 ps) / INR 20) in *.
    exists m. cbn [field_of]. rewrite truthy_pos by exact Hm.
    cbn [mul]. rewrite !toFixed_fin.
    split; [exact Hm | ]. split; [reflexivity | ]. split; [reflexivity | ].
    split; [reflexivity | ]. split; apply fixed_real_mono; lra.
Qed.

(** X25.  In every series generated for a positive current price, the
    bands of a point are not computed from the spread of the closes: they
    are the SMA20 of the closes less and plus two percent, each rounded to
    cents, so they enclose the SMA20 shown with them; the three fields are
    missing together (on the first 19 points of the series of a coin). *)
Theorem series_bands (rnd : nat -> R) (now : Z) (symbol : string) (c : R) :
  0 < c ->
  Forall (fun pt => bands_straddle (indicators pt))
    (generate3YearHistoricalData rnd now symbol (Fin c)).
Proof.
  intros Hc. apply Forall_forall. intros pt Hin.
  destruct (inherited_cases symbol) as [Hs | Hs].
  { apply (series_NaN rnd now symbol (Fin c) pt Hs) in Hin.
    destruct Hin as (i & _ & ->). unfold nan_point.
    rewrite point_indicators, indicators_NaN. left.
    split; [reflexivity | ]. split; reflexivity. }
  apply series_In in Hin; [ | exact Hs | exact Hc].
  destruct Hin as (i & _ & ->).
  unfold series_point. rewrite point_indicators.
  apply bands_of_positive. apply closes_pos. now apply base_pos.
Qed.

Lemma series_bands_witness :
  Forall (fun pt => bands_straddle (indicators pt))
    (generate3YearHistoricalData (fun _ => 0.5) 0 "bitcoin" (Fin 65000)).
Proof.
  apply (series_bands (fun _ => 0.5) 0 "bitcoin" 65000). lra.
Defined.

(** * Unsupported symbols *)

(** X26.  A symbol that is not one of the four supported coins, compared
    exactly (so ['Bitcoin'] is not one), is rejected by the chart,
    historical, prediction, mock prediction and signal routes with status
    400: no series or prediction is generated or cached and no random
    number is drawn. *)
Theorem unsupported_symbol_rejected (rnd : nat -> R) (now : Z)
    (clock : nat -> Z) (times : Clock) (prices : Prices)
    (symbol period : string) (days : Days) (st : DataStore) :
  ~ In symbol SUPPORTED_COINS ->
  chart_route rnd now clock prices symbol period st = (ChartInvalidSymbol, st)
  /\ historical_route rnd now prices symbol st = (HistoricalInvalidSymbol, st)
  /\ predictions_route rnd times prices symbol days st =
     (PredictionsInvalidSymbol, st)
  /\ mock_predictions_route rnd prices symbol days st = (MockInvalidSymbol, st)
  /\ signals_route rnd prices symbol st = (SignalsInvalidSymbol, st).
Proof.
  intros H. apply includes_not_In in H.
  unfold chart_route, historical_route, predictions_route,
    mock_predictions_route, signals_route.
  rewrite H. cbn [negb].
  split; [reflexivity | ]. split; [reflexivity | ]. split; [reflexivity | ].
  split; reflexivity.
Qed.

Lemma unsupported_symbol_rejected_witness :
  let times := {| at_history := 0; at_test := 0; at_predictions := 0;
                  at_store := 0 |} in
  let days := {| days_text := "30"; days_int := Some 30%Z |} in
  chart_route (fun _ => 0.5) 0 (fun _ => 0%Z) generateMockPrices "Bitcoin"
    "3y" initial_data_store = (ChartInvalidSymbol, initial_data_store)
  /\ historical_route (fun _ => 0.5) 0 generateMockPrices "Bitcoin"
       initial_data_store = (HistoricalInvalidSymbol, initial_data_store)
  /\ predictions_route (fun _ => 0.5) times generateMockPrices "Bitcoin" days
       initial_data_store = (PredictionsInvalidSymbol, initial_data_store)
  /\ mock_predictions_route (fun _ => 0.5) generateMockPrices "Bitcoin" days
       initial_data_store = (MockInvalidSymbol, initial_data_store)
  /\ signals_route (fun _ => 0.5) generateMockPrices "Bitcoin"
       initial_data_store = (SignalsInvalidSymbol, initial_data_store).
Proof.
  apply (unsupported_symbol_rejected (fun _ => 0.5) 0 (fun _ => 0%Z)
           {| at_history := 0; at_test := 0; at_predictions := 0;
              at_store := 0 |}
           generateMockPrices "Bitcoin" "3y"
           {| days_text := "30"; days_int := Some 30%Z |}
           initial_data_store).
  cbn. intros H. repeat destruct H as [H | H]; try discriminate H. exact H.
Defined.

(** * The statistics of the summary *)

Lemma fixed_minus_100 : fixed_real 2 (-100) = -100.
Proof.
  replace (-100) with (IZR (-10000) / 10 ^ 2) by (simpl; lra).
  apply fixed_cents. lia.
Qed.

Lemma volume_fold (data : list PricePoint) :
  Forall traded_point data ->
  forall a,
    exists s,
      fold_left (fun sum d => (sum + volume d)%js) data (Fin a) = Fin s
      /\ a <= s <= a + 1000000000 * INR (length data).
Proof.
  induction 1 as [| pt data (cl & v & _ & _ & Ev & Hv) Hd IH]; intros a.
  - exists a. cbn. split; [reflexivity | lra].
  - cbn [fold_left]. rewrite Ev. cbn [add].
    destruct (IH (a + v)) as (s & E & Hs). exists s. split; [exact E | ].
    change (length (pt :: data)) with (S (length data)). rewrite S_INR. lra.
Qed.

Lemma close_at_traded (arr : list PricePoint) (i : nat) :
  Forall traded_point arr -> (i < length arr)%nat ->
  exists cl, close_at arr i = Fin cl /\ 0 < cl.
Proof.
  intros H Hi. unfold close_at.
  destruct (nth_error arr i) as [d | ] eqn:E.
  - apply nth_error_In in E. rewrite Forall_forall in H.
    destruct (H d E) as (cl & _ & Ec & Hc & _). now exists cl.
  - apply nth_error_None in E. lia.
Qed.

Lemma squared_returns_fold (arr : list PricePoint) (n : nat) :
  Forall traded_point arr -> (n <= length arr)%nat ->
  exists s,
    fold_left
      (fun sum i =>
         match i with
         | O => Fin 0
         | S j =>
             (sum + (close_at arr i - close_at arr j) / close_at arr j
                    * ((close_at arr i - close_at arr j) / close_at arr j))%js
         end)
      (seq 0 n) (Fin 0) = Fin s
    /\ 0 <= s.
Proof.
  intros H. induction n as [| n IH]; intros Hn.
  - exists 0. cbn. split; [reflexivity | lra].
  - destruct IH as (s & E & Hs); [lia | ].
    rewrite seq_S, fold_left_app, E. cbn [fold_left Nat.add].
    destruct n as [| j].
    + exists 0. split; [reflexivity | lra].
    + destruct (close_at_traded arr (S j) H) as (ci & -> & Hi); [lia | ].
      destruct (close_at_traded arr j H) as (cj & -> & Hj); [lia | ].
      cbn [sub neg add]. rewrite div_fin by lra. cbn [mul add].
      eexists. split; [reflexivity | ].
      pose proof (Rle_0_sqr ((ci + - cj) / cj)) as Q. unfold Rsqr in Q. lra.
Qed.

Lemma summary_statistics_ok (data : list PricePoint)
    (first latest : PricePoint) :
  Forall traded_point data -> In first data -> In latest data ->
  summary_statistics (summary_of first latest data).
Proof.
  intros Hd Hf Hl. unfold summary_statistics, summary_of.
  cbn [sm_totalReturn sm_avgVolume sm_volatility].
  pose proof Hd as Hall. rewrite Forall_forall in Hall.
  destruct (Hall first Hf) as (s & _ & -> & Hs & _).
  destruct (Hall latest Hl) as (e & _ & -> & He & _).
  assert (1 <= length data)%nat as Hlen.
  { destruct data; [contradiction | cbn; lia]. }
  assert (1 <= INR (length data)) as Hn by (apply (le_INR 1); exact Hlen).
  destruct (volume_fold data Hd 0) as (vs & -> & Hvs).
  destruct (squared_returns_fold (slice_last 30 data)
              (length (slice_last 30 data))
              (Forall_slice_last _ 30 data Hd) (Nat.le_refl _))
    as (q & Eq & Hq).
  unfold squared_returns. rewrite Eq.
  unfold of_nat. cbn [sub neg add]. rewrite !div_fin by lra.
  cbn [mul Math_floor Math_sqrt].
  destruct (Rlt_dec (q / 29) 0) as [Hneg | _].
  { exfalso. assert (0 <= q / 29) by (apply Rle_mult_inv_pos; lra). lra. }
  destruct (Rlt_dec 365 0) as [Hneg | _]; [lra | ].
  cbn [mul]. rewrite !toFixed_fin.
  do 2 eexists. exists (Int_part (vs / INR (length data))).
  split; [reflexivity | ]. split.
  { rewrite <- fixed_minus_100. apply fixed_real_mono.
    assert (0 < e / s) by (apply Rdiv_lt_0_compat; assumption).
    replace ((e + - s) / s * 100) with ((e / s - 1) * 100) by (field; lra).
    lra. }
  split; [reflexivity | ].
  assert (0 <= vs / INR (length data) <= 1000000000) as [V0 V1].
  { split.
    - apply Rle_mult_inv_pos; lra.
    - apply Rmult_le_reg_r with (INR (length data)); [lra | ].
      unfold Rdiv. rewrite Rmult_assoc, Rinv_l by lra. lra. }
  split.
  { pose proof (Int_part_bounds (vs / INR (length data))) as [B1 B2].
    split; [now apply Int_part_nonneg | ].
    apply le_IZR. lra. }
  split; [reflexivity | ].
  apply fixed_real_nonneg.
  pose proof (sqrt_pos (q / 29)). pose proof (sqrt_pos 365). nra.
Qed.

Lemma series_traded (rnd : nat -> R) (now : Z) (symbol : string) (c : R) :
  random_source rnd -> inherited symbol = false -> 0 < c ->
  0.005 <= c * base_fraction symbol * 0.1 ->
  Forall traded_point (generate3YearHistoricalData rnd now symbol (Fin c)).
Proof.
  intros Hr Hs Hc Hfloor. pose proof (base_pos symbol c Hc) as Hb.
  apply Forall_forall. intros pt Hin.
  apply series_In in Hin; [ | exact Hs | exact Hc].
  destruct Hin as (i & Hi & ->).
  destruct (series_point_fields rnd now (c * base_fraction symbol) c i)
    as (_ & _ & _ & Hcl).
  pose proof (price_path_floor rnd (c * base_fraction symbol) c (S i)
                (Rlt_le _ _ Hb)) as Hp.
  pose proof (Hr (5 * i + 1)%nat) as Hu.
  destruct (fixed_integer (rnd (5 * i + 1)%nat * 1000000000)) as (z & E & Hz);
    [lra | ].
  do 2 eexists. split; [exact Hcl | ]. split.
  - apply Rlt_le_trans with (fixed_real 2 0.005).
    + rewrite fixed_real_half_cent. lra.
    + apply fixed_real_mono. lra.
  - unfold series_point. rewrite point_volume. split; [reflexivity | ].
    rewrite E. split; [apply (IZR_le 0) | apply (IZR_le _ 1000000000)]; lia.
Qed.

(** X27.  When the floor of the series, a tenth of the base price, is at
    least half a cent, every close of the series is positive, and the
    summary of the first historical request has a finite total return of at
    least -100 percent, an average volume that is an integer from 0 to
    1000000000, and a finite volatility that is not negative. *)
Theorem historical_summary_statistics (rnd : nat -> R) (now : Z)
    (prices : Prices) (symbol : string) (st : DataStore) (c : R) :
  random_source rnd ->
  includes symbol SUPPORTED_COINS = true ->
  lookup symbol (historicalDataCache st) = None ->
  current_price prices symbol = Fin c -> 0 < c ->
  0.005 <= c * base_fraction symbol * 0.1 ->
  exists data sm ta sg,
    fst (historical_route rnd now prices symbol st) =
    HistoricalOk 1095 (Fin c) data sm ta sg
    /\ Forall traded_point data
    /\ summary_statistics sm.
Proof.
  intros Hr Hs Hn Hcp Hc Hfloor. unfold historical_route.
  rewrite Hs, Hcp. cbn [negb]. unfold cached_history. rewrite Hn.
  assert (inherited symbol = false) as Hi
    by (apply supported_not_inherited, includes_In, Hs).
  pose proof (series_length (shift rnd (draws st)) now symbol c Hc) as L.
  pose proof (series_traded (shift rnd (draws st)) now symbol c
                (shift_random rnd (draws st) Hr) Hi Hc Hfloor) as Ht.
  pose proof (series_nth (shift rnd (draws st)) now symbol c 0 Hi Hc) as N0.
  pose proof (series_nth (shift rnd (draws st)) now symbol c 1094 Hi Hc) as N1.
  set (data := generate3YearHistoricalData (shift rnd (draws st)) now symbol
                 (Fin c)) in *.
  rewrite L. change (1095 - 1)%nat with 1094%nat.
  rewrite N0, N1 by lia. cbn [fst].
  exists data. do 3 eexists. split; [reflexivity | ].
  split; [exact Ht | ].
  apply summary_statistics_ok; [exact Ht | | ].
  - apply nth_error_In with 0%nat. apply N0. lia.
  - apply nth_error_In with 1094%nat. apply N1. lia.
Qed.

Lemma historical_summary_statistics_witness :
  exists data sm ta sg,
    fst (historical_route (fun _ => 0.5) 0 [] "solana" initial_data_store) =
    HistoricalOk 1095 (Fin 1000) data sm ta sg
    /\ Forall traded_point data
    /\ summary_statistics sm.
Proof.
  apply (historical_summary_statistics (fun _ => 0.5) 0 [] "solana"
           initial_data_store 1000).
  - intros k. lra.
  - reflexivity.
  - reflexivity.
  - reflexivity.
  - lra.
  - pose proof (base_fraction_bounds "solana"). lra.
Defined.
